(** * Smart Gemini Agent: intent analysis and retry wrappers

    A shallow embedding of
      - [smart_gemini_agent/core/intent_analyzer.py] (class [IntentAnalyzer]) and
      - [smart_gemini_agent/utils/decorators.py] ([retry_on_failure],
        [retry_on_failure_async_gen]),
    together with the properties the specification states about them, and
    of the code around them:
      - [smart_gemini_agent/core/agent.py] ([process_message]),
      - [smart_gemini_agent/core/prompt_manager.py] (the system prompt),
      - [smart_gemini_agent/ui/rich_chat.py] and [ui/display_utils.py] (the
        chat history and the file icons).

    Python values are modelled as follows.
      - A [str] is the list of its Unicode code points ([pystr]).  String
        literals of the source are written [u "..."], the code points of the
        UTF-8 text between the quotes.
      - A [dict] with string keys is a [gmap string pyval].
      - An exception raised by the code is the [Raise] case of [result]. *)

From Stdlib Require Import NArith ZArith QArith List Ascii String Lia Bool.
From stdpp Require Import base option list strings gmap fin_maps.

Local Open Scope N_scope.
Local Open Scope list_scope.

(** ** Python strings *)

Module PyStr.

(** A character is a Unicode code point. *)
Definition char := N.
Definition pystr := list char.

(** The bytes of a Rocq string literal. *)
Fixpoint bytes_of (s : string) : list N :=
  match s with
  | EmptyString => []
  | String a r => N_of_ascii a :: bytes_of r
  end.

(** UTF-8 decoding (1 to 4 byte sequences; a truncated sequence is kept as
    its lead byte). *)
Fixpoint utf8_decode (bs : list N) : pystr :=
  match bs with
  | [] => []
  | b0 :: r0 =>
    if b0 <? 128 then b0 :: utf8_decode r0
    else if b0 <? 224 then
      match r0 with
      | b1 :: r1 => ((b0 - 192) * 64 + (b1 - 128)) :: utf8_decode r1
      | _ => [b0]
      end
    else if b0 <? 240 then
      match r0 with
      | b1 :: b2 :: r2 =>
        ((b0 - 224) * 4096 + (b1 - 128) * 64 + (b2 - 128)) :: utf8_decode r2
      | _ => [b0]
      end
    else
      match r0 with
      | b1 :: b2 :: b3 :: r3 =>
        ((b0 - 240) * 262144 + (b1 - 128) * 4096 + (b2 - 128) * 64 + (b3 - 128))
          :: utf8_decode r3
      | _ => [b0]
      end
  end.

(** [u "text"] is the Python string whose source text is [text]. *)
Definition u (s : string) : pystr := utf8_decode (bytes_of s).

(** [str.isspace] for one character, which is also what [\s] matches in a
    [str] pattern: the code points CPython lists in [_PyUnicode_IsWhitespace]. *)
Definition is_space (c : char) : bool :=
  ((9 <=? c) && (c <=? 13)) || ((28 <=? c) && (c <=? 32))
  || (c =? 133) || (c =? 160) || (c =? 5760)
  || ((8192 <=? c) && (c <=? 8202))
  || (c =? 8232) || (c =? 8233) || (c =? 8239) || (c =? 8287) || (c =? 12288).

(** *** Unicode data

    The character classes and the case mapping are those of the Unicode
    database CPython 3.11 is built with (Unicode 14.0), given as tables. *)

(** The code points [c] with [chr(c).isalnum()] or [c == '_'], as ranges
    [(first, last)] in increasing order (Unicode 14.0, the tables of
    CPython 3.11). *)
Definition word_ranges : list (N * N) :=
  [ (48, 57); (65, 90); (95, 95); (97, 122); (170, 170); (178, 179); (181, 181); (185, 186);
    (188, 190); (192, 214); (216, 246); (248, 705); (710, 721); (736, 740); (748, 748);
    (750, 750); (880, 884); (886, 887); (890, 893); (895, 895); (902, 902); (904, 906);
    (908, 908); (910, 929); (931, 1013); (1015, 1153); (1162, 1327); (1329, 1366); (1369, 1369);
    (1376, 1416); (1488, 1514); (1519, 1522); (1568, 1610); (1632, 1641); (1646, 1647);
    (1649, 1747); (1749, 1749); (1765, 1766); (1774, 1788); (1791, 1791); (1808, 1808);
    (1810, 1839); (1869, 1957); (1969, 1969); (1984, 2026); (2036, 2037); (2042, 2042);
    (2048, 2069); (2074, 2074); (2084, 2084); (2088, 2088); (2112, 2136); (2144, 2154);
    (2160, 2183); (2185, 2190); (2208, 2249); (2308, 2361); (2365, 2365); (2384, 2384);
    (2392, 2401); (2406, 2415); (2417, 2432); (2437, 2444); (2447, 2448); (2451, 2472);
    (2474, 2480); (2482, 2482); (2486, 2489); (2493, 2493); (2510, 2510); (2524, 2525);
    (2527, 2529); (2534, 2545); (2548, 2553); (2556, 2556); (2565, 2570); (2575, 2576);
    (2579, 2600); (2602, 2608); (2610, 2611); (2613, 2614); (2616, 2617); (2649, 2652);
    (2654, 2654); (2662, 2671); (2674, 2676); (2693, 2701); (2703, 2705); (2707, 2728);
    (2730, 2736); (2738, 2739); (2741, 2745); (2749, 2749); (2768, 2768); (2784, 2785);
    (2790, 2799); (2809, 2809); (2821, 2828); (2831, 2832); (2835, 2856); (2858, 2864);
    (2866, 2867); (2869, 2873); (2877, 2877); (2908, 2909); (2911, 2913); (2918, 2927);
    (2929, 2935); (2947, 2947); (2949, 2954); (2958, 2960); (2962, 2965); (2969, 2970);
    (2972, 2972); (2974, 2975); (2979, 2980); (2984, 2986); (2990, 3001); (3024, 3024);
    (3046, 3058); (3077, 3084); (3086, 3088); (3090, 3112); (3114, 3129); (3133, 3133);
    (3160, 3162); (3165, 3165); (3168, 3169); (3174, 3183); (3192, 3198); (3200, 3200);
    (3205, 3212); (3214, 3216); (3218, 3240); (3242, 3251); (3253, 3257); (3261, 3261);
    (3293, 3294); (3296, 3297); (3302, 3311); (3313, 3314); (3332, 3340); (3342, 3344);
    (3346, 3386); (3389, 3389); (3406, 3406); (3412, 3414); (3416, 3425); (3430, 3448);
    (3450, 3455); (3461, 3478); (3482, 3505); (3507, 3515); (3517, 3517); (3520, 3526);
    (3558, 3567); (3585, 3632); (3634, 3635); (3648, 3654); (3664, 3673); (3713, 3714);
    (3716, 3716); (3718, 3722); (3724, 3747); (3749, 3749); (3751, 3760); (3762, 3763);
    (3773, 3773); (3776, 3780); (3782, 3782); (3792, 3801); (3804, 3807); (3840, 3840);
    (3872, 3891); (3904, 3911); (3913, 3948); (3976, 3980); (4096, 4138); (4159, 4169);
    (4176, 4181); (4186, 4189); (4193, 4193); (4197, 4198); (4206, 4208); (4213, 4225);
    (4238, 4238); (4240, 4249); (4256, 4293); (4295, 4295); (4301, 4301); (4304, 4346);
    (4348, 4680); (4682, 4685); (4688, 4694); (4696, 4696); (4698, 4701); (4704, 4744);
    (4746, 4749); (4752, 4784); (4786, 4789); (4792, 4798); (4800, 4800); (4802, 4805);
    (4808, 4822); (4824, 4880); (4882, 4885); (4888, 4954); (4969, 4988); (4992, 5007);
    (5024, 5109); (5112, 5117); (5121, 5740); (5743, 5759); (5761, 5786); (5792, 5866);
    (5870, 5880); (5888, 5905); (5919, 5937); (5952, 5969); (5984, 5996); (5998, 6000);
    (6016, 6067); (6103, 6103); (6108, 6108); (6112, 6121); (6128, 6137); (6160, 6169);
    (6176, 6264); (6272, 6276); (6279, 6312); (6314, 6314); (6320, 6389); (6400, 6430);
    (6470, 6509); (6512, 6516); (6528, 6571); (6576, 6601); (6608, 6618); (6656, 6678);
    (6688, 6740); (6784, 6793); (6800, 6809); (6823, 6823); (6917, 6963); (6981, 6988);
    (6992, 7001); (7043, 7072); (7086, 7141); (7168, 7203); (7232, 7241); (7245, 7293);
    (7296, 7304); (7312, 7354); (7357, 7359); (7401, 7404); (7406, 7411); (7413, 7414);
    (7418, 7418); (7424, 7615); (7680, 7957); (7960, 7965); (7968, 8005); (8008, 8013);
    (8016, 8023); (8025, 8025); (8027, 8027); (8029, 8029); (8031, 8061); (8064, 8116);
    (8118, 8124); (8126, 8126); (8130, 8132); (8134, 8140); (8144, 8147); (8150, 8155);
    (8160, 8172); (8178, 8180); (8182, 8188); (8304, 8305); (8308, 8313); (8319, 8329);
    (8336, 8348); (8450, 8450); (8455, 8455); (8458, 8467); (8469, 8469); (8473, 8477);
    (8484, 8484); (8486, 8486); (8488, 8488); (8490, 8493); (8495, 8505); (8508, 8511);
    (8517, 8521); (8526, 8526); (8528, 8585); (9312, 9371); (9450, 9471); (10102, 10131);
    (11264, 11492); (11499, 11502); (11506, 11507); (11517, 11517); (11520, 11557);
    (11559, 11559); (11565, 11565); (11568, 11623); (11631, 11631); (11648, 11670);
    (11680, 11686); (11688, 11694); (11696, 11702); (11704, 11710); (11712, 11718);
    (11720, 11726); (11728, 11734); (11736, 11742); (11823, 11823); (12293, 12295);
    (12321, 12329); (12337, 12341); (12344, 12348); (12353, 12438); (12445, 12447);
    (12449, 12538); (12540, 12543); (12549, 12591); (12593, 12686); (12690, 12693);
    (12704, 12735); (12784, 12799); (12832, 12841); (12872, 12879); (12881, 12895);
    (12928, 12937); (12977, 12991); (13312, 19903); (19968, 42124); (42192, 42237);
    (42240, 42508); (42512, 42539); (42560, 42606); (42623, 42653); (42656, 42735);
    (42775, 42783); (42786, 42888); (42891, 42954); (42960, 42961); (42963, 42963);
    (42965, 42969); (42994, 43009); (43011, 43013); (43015, 43018); (43020, 43042);
    (43056, 43061); (43072, 43123); (43138, 43187); (43216, 43225); (43250, 43255);
    (43259, 43259); (43261, 43262); (43264, 43301); (43312, 43334); (43360, 43388);
    (43396, 43442); (43471, 43481); (43488, 43492); (43494, 43518); (43520, 43560);
    (43584, 43586); (43588, 43595); (43600, 43609); (43616, 43638); (43642, 43642);
    (43646, 43695); (43697, 43697); (43701, 43702); (43705, 43709); (43712, 43712);
    (43714, 43714); (43739, 43741); (43744, 43754); (43762, 43764); (43777, 43782);
    (43785, 43790); (43793, 43798); (43808, 43814); (43816, 43822); (43824, 43866);
    (43868, 43881); (43888, 44002); (44016, 44025); (44032, 55203); (55216, 55238);
    (55243, 55291); (63744, 64109); (64112, 64217); (64256, 64262); (64275, 64279);
    (64285, 64285); (64287, 64296); (64298, 64310); (64312, 64316); (64318, 64318);
    (64320, 64321); (64323, 64324); (64326, 64433); (64467, 64829); (64848, 64911);
    (64914, 64967); (65008, 65019); (65136, 65140); (65142, 65276); (65296, 65305);
    (65313, 65338); (65345, 65370); (65382, 65470); (65474, 65479); (65482, 65487);
    (65490, 65495); (65498, 65500); (65536, 65547); (65549, 65574); (65576, 65594);
    (65596, 65597); (65599, 65613); (65616, 65629); (65664, 65786); (65799, 65843);
    (65856, 65912); (65930, 65931); (66176, 66204); (66208, 66256); (66273, 66299);
    (66304, 66339); (66349, 66378); (66384, 66421); (66432, 66461); (66464, 66499);
    (66504, 66511); (66513, 66517); (66560, 66717); (66720, 66729); (66736, 66771);
    (66776, 66811); (66816, 66855); (66864, 66915); (66928, 66938); (66940, 66954);
    (66956, 66962); (66964, 66965); (66967, 66977); (66979, 66993); (66995, 67001);
    (67003, 67004); (67072, 67382); (67392, 67413); (67424, 67431); (67456, 67461);
    (67463, 67504); (67506, 67514); (67584, 67589); (67592, 67592); (67594, 67637);
    (67639, 67640); (67644, 67644); (67647, 67669); (67672, 67702); (67705, 67742);
    (67751, 67759); (67808, 67826); (67828, 67829); (67835, 67867); (67872, 67897);
    (67968, 68023); (68028, 68047); (68050, 68096); (68112, 68115); (68117, 68119);
    (68121, 68149); (68160, 68168); (68192, 68222); (68224, 68255); (68288, 68295);
    (68297, 68324); (68331, 68335); (68352, 68405); (68416, 68437); (68440, 68466);
    (68472, 68497); (68521, 68527); (68608, 68680); (68736, 68786); (68800, 68850);
    (68858, 68899); (68912, 68921); (69216, 69246); (69248, 69289); (69296, 69297);
    (69376, 69415); (69424, 69445); (69457, 69460); (69488, 69505); (69552, 69579);
    (69600, 69622); (69635, 69687); (69714, 69743); (69745, 69746); (69749, 69749);
    (69763, 69807); (69840, 69864); (69872, 69881); (69891, 69926); (69942, 69951);
    (69956, 69956); (69959, 69959); (69968, 70002); (70006, 70006); (70019, 70066);
    (70081, 70084); (70096, 70106); (70108, 70108); (70113, 70132); (70144, 70161);
    (70163, 70187); (70272, 70278); (70280, 70280); (70282, 70285); (70287, 70301);
    (70303, 70312); (70320, 70366); (70384, 70393); (70405, 70412); (70415, 70416);
    (70419, 70440); (70442, 70448); (70450, 70451); (70453, 70457); (70461, 70461);
    (70480, 70480); (70493, 70497); (70656, 70708); (70727, 70730); (70736, 70745);
    (70751, 70753); (70784, 70831); (70852, 70853); (70855, 70855); (70864, 70873);
    (71040, 71086); (71128, 71131); (71168, 71215); (71236, 71236); (71248, 71257);
    (71296, 71338); (71352, 71352); (71360, 71369); (71424, 71450); (71472, 71483);
    (71488, 71494); (71680, 71723); (71840, 71922); (71935, 71942); (71945, 71945);
    (71948, 71955); (71957, 71958); (71960, 71983); (71999, 71999); (72001, 72001);
    (72016, 72025); (72096, 72103); (72106, 72144); (72161, 72161); (72163, 72163);
    (72192, 72192); (72203, 72242); (72250, 72250); (72272, 72272); (72284, 72329);
    (72349, 72349); (72368, 72440); (72704, 72712); (72714, 72750); (72768, 72768);
    (72784, 72812); (72818, 72847); (72960, 72966); (72968, 72969); (72971, 73008);
    (73030, 73030); (73040, 73049); (73056, 73061); (73063, 73064); (73066, 73097);
    (73112, 73112); (73120, 73129); (73440, 73458); (73648, 73648); (73664, 73684);
    (73728, 74649); (74752, 74862); (74880, 75075); (77712, 77808); (77824, 78894);
    (82944, 83526); (92160, 92728); (92736, 92766); (92768, 92777); (92784, 92862);
    (92864, 92873); (92880, 92909); (92928, 92975); (92992, 92995); (93008, 93017);
    (93019, 93025); (93027, 93047); (93053, 93071); (93760, 93846); (93952, 94026);
    (94032, 94032); (94099, 94111); (94176, 94177); (94179, 94179); (94208, 100343);
    (100352, 101589); (101632, 101640); (110576, 110579); (110581, 110587); (110589, 110590);
    (110592, 110882); (110928, 110930); (110948, 110951); (110960, 111355); (113664, 113770);
    (113776, 113788); (113792, 113800); (113808, 113817); (119520, 119539); (119648, 119672);
    (119808, 119892); (119894, 119964); (119966, 119967); (119970, 119970); (119973, 119974);
    (119977, 119980); (119982, 119993); (119995, 119995); (119997, 120003); (120005, 120069);
    (120071, 120074); (120077, 120084); (120086, 120092); (120094, 120121); (120123, 120126);
    (120128, 120132); (120134, 120134); (120138, 120144); (120146, 120485); (120488, 120512);
    (120514, 120538); (120540, 120570); (120572, 120596); (120598, 120628); (120630, 120654);
    (120656, 120686); (120688, 120712); (120714, 120744); (120746, 120770); (120772, 120779);
    (120782, 120831); (122624, 122654); (123136, 123180); (123191, 123197); (123200, 123209);
    (123214, 123214); (123536, 123565); (123584, 123627); (123632, 123641); (124896, 124902);
    (124904, 124907); (124909, 124910); (124912, 124926); (124928, 125124); (125127, 125135);
    (125184, 125251); (125259, 125259); (125264, 125273); (126065, 126123); (126125, 126127);
    (126129, 126132); (126209, 126253); (126255, 126269); (126464, 126467); (126469, 126495);
    (126497, 126498); (126500, 126500); (126503, 126503); (126505, 126514); (126516, 126519);
    (126521, 126521); (126523, 126523); (126530, 126530); (126535, 126535); (126537, 126537);
    (126539, 126539); (126541, 126543); (126545, 126546); (126548, 126548); (126551, 126551);
    (126553, 126553); (126555, 126555); (126557, 126557); (126559, 126559); (126561, 126562);
    (126564, 126564); (126567, 126570); (126572, 126578); (126580, 126583); (126585, 126588);
    (126590, 126590); (126592, 126601); (126603, 126619); (126625, 126627); (126629, 126633);
    (126635, 126651); (127232, 127244); (130032, 130041); (131072, 173791); (173824, 177976);
    (177984, 178205); (178208, 183969); (183984, 191456); (194560, 195101); (196608, 201546) ].

(** The decimal digits ([str.isdecimal], category Nd), as ranges in
    increasing order.  Every range begins at a digit zero and holds whole
    runs of the ten digits of a script. *)
Definition digit_ranges : list (N * N) :=
  [ (48, 57); (1632, 1641); (1776, 1785); (1984, 1993); (2406, 2415); (2534, 2543);
    (2662, 2671); (2790, 2799); (2918, 2927); (3046, 3055); (3174, 3183); (3302, 3311);
    (3430, 3439); (3558, 3567); (3664, 3673); (3792, 3801); (3872, 3881); (4160, 4169);
    (4240, 4249); (6112, 6121); (6160, 6169); (6470, 6479); (6608, 6617); (6784, 6793);
    (6800, 6809); (6992, 7001); (7088, 7097); (7232, 7241); (7248, 7257); (42528, 42537);
    (43216, 43225); (43264, 43273); (43472, 43481); (43504, 43513); (43600, 43609);
    (44016, 44025); (65296, 65305); (66720, 66729); (68912, 68921); (69734, 69743);
    (69872, 69881); (69942, 69951); (70096, 70105); (70384, 70393); (70736, 70745);
    (70864, 70873); (71248, 71257); (71360, 71369); (71472, 71481); (71904, 71913);
    (72016, 72025); (72784, 72793); (73040, 73049); (73120, 73129); (92768, 92777);
    (92864, 92873); (93008, 93017); (120782, 120831); (123200, 123209); (123632, 123641);
    (125264, 125273); (130032, 130041) ].

(** The simple lower-case mappings: [(c, l)] when [chr(c).lower()] is the
    one character [chr(l)], other than [chr(c)]; in increasing order of [c]. *)
Definition lower_table : list (N * N) :=
  [ (65, 97); (66, 98); (67, 99); (68, 100); (69, 101); (70, 102); (71, 103); (72, 104);
    (73, 105); (74, 106); (75, 107); (76, 108); (77, 109); (78, 110); (79, 111); (80, 112);
    (81, 113); (82, 114); (83, 115); (84, 116); (85, 117); (86, 118); (87, 119); (88, 120);
    (89, 121); (90, 122); (192, 224); (193, 225); (194, 226); (195, 227); (196, 228);
    (197, 229); (198, 230); (199, 231); (200, 232); (201, 233); (202, 234); (203, 235);
    (204, 236); (205, 237); (206, 238); (207, 239); (208, 240); (209, 241); (210, 242);
    (211, 243); (212, 244); (213, 245); (214, 246); (216, 248); (217, 249); (218, 250);
    (219, 251); (220, 252); (221, 253); (222, 254); (256, 257); (258, 259); (260, 261);
    (262, 263); (264, 265); (266, 267); (268, 269); (270, 271); (272, 273); (274, 275);
    (276, 277); (278, 279); (280, 281); (282, 283); (284, 285); (286, 287); (288, 289);
    (290, 291); (292, 293); (294, 295); (296, 297); (298, 299); (300, 301); (302, 303);
    (306, 307); (308, 309); (310, 311); (313, 314); (315, 316); (317, 318); (319, 320);
    (321, 322); (323, 324); (325, 326); (327, 328); (330, 331); (332, 333); (334, 335);
    (336, 337); (338, 339); (340, 341); (342, 343); (344, 345); (346, 347); (348, 349);
    (350, 351); (352, 353); (354, 355); (356, 357); (358, 359); (360, 361); (362, 363);
    (364, 365); (366, 367); (368, 369); (370, 371); (372, 373); (374, 375); (376, 255);
    (377, 378); (379, 380); (381, 382); (385, 595); (386, 387); (388, 389); (390, 596);
    (391, 392); (393, 598); (394, 599); (395, 396); (398, 477); (399, 601); (400, 603);
    (401, 402); (403, 608); (404, 611); (406, 617); (407, 616); (408, 409); (412, 623);
    (413, 626); (415, 629); (416, 417); (418, 419); (420, 421); (422, 640); (423, 424);
    (425, 643); (428, 429); (430, 648); (431, 432); (433, 650); (434, 651); (435, 436);
    (437, 438); (439, 658); (440, 441); (444, 445); (452, 454); (453, 454); (455, 457);
    (456, 457); (458, 460); (459, 460); (461, 462); (463, 464); (465, 466); (467, 468);
    (469, 470); (471, 472); (473, 474); (475, 476); (478, 479); (480, 481); (482, 483);
    (484, 485); (486, 487); (488, 489); (490, 491); (492, 493); (494, 495); (497, 499);
    (498, 499); (500, 501); (502, 405); (503, 447); (504, 505); (506, 507); (508, 509);
    (510, 511); (512, 513); (514, 515); (516, 517); (518, 519); (520, 521); (522, 523);
    (524, 525); (526, 527); (528, 529); (530, 531); (532, 533); (534, 535); (536, 537);
    (538, 539); (540, 541); (542, 543); (544, 414); (546, 547); (548, 549); (550, 551);
    (552, 553); (554, 555); (556, 557); (558, 559); (560, 561); (562, 563); (570, 11365);
    (571, 572); (573, 410); (574, 11366); (577, 578); (579, 384); (580, 649); (581, 652);
    (582, 583); (584, 585); (586, 587); (588, 589); (590, 591); (880, 881); (882, 883);
    (886, 887); (895, 1011); (902, 940); (904, 941); (905, 942); (906, 943); (908, 972);
    (910, 973); (911, 974); (913, 945); (914, 946); (915, 947); (916, 948); (917, 949);
    (918, 950); (919, 951); (920, 952); (921, 953); (922, 954); (923, 955); (924, 956);
    (925, 957); (926, 958); (927, 959); (928, 960); (929, 961); (931, 963); (932, 964);
    (933, 965); (934, 966); (935, 967); (936, 968); (937, 969); (938, 970); (939, 971);
    (975, 983); (984, 985); (986, 987); (988, 989); (990, 991); (992, 993); (994, 995);
    (996, 997); (998, 999); (1000, 1001); (1002, 1003); (1004, 1005); (1006, 1007); (1012, 952);
    (1015, 1016); (1017, 1010); (1018, 1019); (1021, 891); (1022, 892); (1023, 893);
    (1024, 1104); (1025, 1105); (1026, 1106); (1027, 1107); (1028, 1108); (1029, 1109);
    (1030, 1110); (1031, 1111); (1032, 1112); (1033, 1113); (1034, 1114); (1035, 1115);
    (1036, 1116); (1037, 1117); (1038, 1118); (1039, 1119); (1040, 1072); (1041, 1073);
    (1042, 1074); (1043, 1075); (1044, 1076); (1045, 1077); (1046, 1078); (1047, 1079);
    (1048, 1080); (1049, 1081); (1050, 1082); (1051, 1083); (1052, 1084); (1053, 1085);
    (1054, 1086); (1055, 1087); (1056, 1088); (1057, 1089); (1058, 1090); (1059, 1091);
    (1060, 1092); (1061, 1093); (1062, 1094); (1063, 1095); (1064, 1096); (1065, 1097);
    (1066, 1098); (1067, 1099); (1068, 1100); (1069, 1101); (1070, 1102); (1071, 1103);
    (1120, 1121); (1122, 1123); (1124, 1125); (1126, 1127); (1128, 1129); (1130, 1131);
    (1132, 1133); (1134, 1135); (1136, 1137); (1138, 1139); (1140, 1141); (1142, 1143);
    (1144, 1145); (1146, 1147); (1148, 1149); (1150, 1151); (1152, 1153); (1162, 1163);
    (1164, 1165); (1166, 1167); (1168, 1169); (1170, 1171); (1172, 1173); (1174, 1175);
    (1176, 1177); (1178, 1179); (1180, 1181); (1182, 1183); (1184, 1185); (1186, 1187);
    (1188, 1189); (1190, 1191); (1192, 1193); (1194, 1195); (1196, 1197); (1198, 1199);
    (1200, 1201); (1202, 1203); (1204, 1205); (1206, 1207); (1208, 1209); (1210, 1211);
    (1212, 1213); (1214, 1215); (1216, 1231); (1217, 1218); (1219, 1220); (1221, 1222);
    (1223, 1224); (1225, 1226); (1227, 1228); (1229, 1230); (1232, 1233); (1234, 1235);
    (1236, 1237); (1238, 1239); (1240, 1241); (1242, 1243); (1244, 1245); (1246, 1247);
    (1248, 1249); (1250, 1251); (1252, 1253); (1254, 1255); (1256, 1257); (1258, 1259);
    (1260, 1261); (1262, 1263); (1264, 1265); (1266, 1267); (1268, 1269); (1270, 1271);
    (1272, 1273); (1274, 1275); (1276, 1277); (1278, 1279); (1280, 1281); (1282, 1283);
    (1284, 1285); (1286, 1287); (1288, 1289); (1290, 1291); (1292, 1293); (1294, 1295);
    (1296, 1297); (1298, 1299); (1300, 1301); (1302, 1303); (1304, 1305); (1306, 1307);
    (1308, 1309); (1310, 1311); (1312, 1313); (1314, 1315); (1316, 1317); (1318, 1319);
    (1320, 1321); (1322, 1323); (1324, 1325); (1326, 1327); (1329, 1377); (1330, 1378);
    (1331, 1379); (1332, 1380); (1333, 1381); (1334, 1382); (1335, 1383); (1336, 1384);
    (1337, 1385); (1338, 1386); (1339, 1387); (1340, 1388); (1341, 1389); (1342, 1390);
    (1343, 1391); (1344, 1392); (1345, 1393); (1346, 1394); (1347, 1395); (1348, 1396);
    (1349, 1397); (1350, 1398); (1351, 1399); (1352, 1400); (1353, 1401); (1354, 1402);
    (1355, 1403); (1356, 1404); (1357, 1405); (1358, 1406); (1359, 1407); (1360, 1408);
    (1361, 1409); (1362, 1410); (1363, 1411); (1364, 1412); (1365, 1413); (1366, 1414);
    (4256, 11520); (4257, 11521); (4258, 11522); (4259, 11523); (4260, 11524); (4261, 11525);
    (4262, 11526); (4263, 11527); (4264, 11528); (4265, 11529); (4266, 11530); (4267, 11531);
    (4268, 11532); (4269, 11533); (4270, 11534); (4271, 11535); (4272, 11536); (4273, 11537);
    (4274, 11538); (4275, 11539); (4276, 11540); (4277, 11541); (4278, 11542); (4279, 11543);
    (4280, 11544); (4281, 11545); (4282, 11546); (4283, 11547); (4284, 11548); (4285, 11549);
    (4286, 11550); (4287, 11551); (4288, 11552); (4289, 11553); (4290, 11554); (4291, 11555);
    (4292, 11556); (4293, 11557); (4295, 11559); (4301, 11565); (5024, 43888); (5025, 43889);
    (5026, 43890); (5027, 43891); (5028, 43892); (5029, 43893); (5030, 43894); (5031, 43895);
    (5032, 43896); (5033, 43897); (5034, 43898); (5035, 43899); (5036, 43900); (5037, 43901);
    (5038, 43902); (5039, 43903); (5040, 43904); (5041, 43905); (5042, 43906); (5043, 43907);
    (5044, 43908); (5045, 43909); (5046, 43910); (5047, 43911); (5048, 43912); (5049, 43913);
    (5050, 43914); (5051, 43915); (5052, 43916); (5053, 43917); (5054, 43918); (5055, 43919);
    (5056, 43920); (5057, 43921); (5058, 43922); (5059, 43923); (5060, 43924); (5061, 43925);
    (5062, 43926); (5063, 43927); (5064, 43928); (5065, 43929); (5066, 43930); (5067, 43931);
    (5068, 43932); (5069, 43933); (5070, 43934); (5071, 43935); (5072, 43936); (5073, 43937);
    (5074, 43938); (5075, 43939); (5076, 43940); (5077, 43941); (5078, 43942); (5079, 43943);
    (5080, 43944); (5081, 43945); (5082, 43946); (5083, 43947); (5084, 43948); (5085, 43949);
    (5086, 43950); (5087, 43951); (5088, 43952); (5089, 43953); (5090, 43954); (5091, 43955);
    (5092, 43956); (5093, 43957); (5094, 43958); (5095, 43959); (5096, 43960); (5097, 43961);
    (5098, 43962); (5099, 43963); (5100, 43964); (5101, 43965); (5102, 43966); (5103, 43967);
    (5104, 5112); (5105, 5113); (5106, 5114); (5107, 5115); (5108, 5116); (5109, 5117);
    (7312, 4304); (7313, 4305); (7314, 4306); (7315, 4307); (7316, 4308); (7317, 4309);
    (7318, 4310); (7319, 4311); (7320, 4312); (7321, 4313); (7322, 4314); (7323, 4315);
    (7324, 4316); (7325, 4317); (7326, 4318); (7327, 4319); (7328, 4320); (7329, 4321);
    (7330, 4322); (7331, 4323); (7332, 4324); (7333, 4325); (7334, 4326); (7335, 4327);
    (7336, 4328); (7337, 4329); (7338, 4330); (7339, 4331); (7340, 4332); (7341, 4333);
    (7342, 4334); (7343, 4335); (7344, 4336); (7345, 4337); (7346, 4338); (7347, 4339);
    (7348, 4340); (7349, 4341); (7350, 4342); (7351, 4343); (7352, 4344); (7353, 4345);
    (7354, 4346); (7357, 4349); (7358, 4350); (7359, 4351); (7680, 7681); (7682, 7683);
    (7684, 7685); (7686, 7687); (7688, 7689); (7690, 7691); (7692, 7693); (7694, 7695);
    (7696, 7697); (7698, 7699); (7700, 7701); (7702, 7703); (7704, 7705); (7706, 7707);
    (7708, 7709); (7710, 7711); (7712, 7713); (7714, 7715); (7716, 7717); (7718, 7719);
    (7720, 7721); (7722, 7723); (7724, 7725); (7726, 7727); (7728, 7729); (7730, 7731);
    (7732, 7733); (7734, 7735); (7736, 7737); (7738, 7739); (7740, 7741); (7742, 7743);
    (7744, 7745); (7746, 7747); (7748, 7749); (7750, 7751); (7752, 7753); (7754, 7755);
    (7756, 7757); (7758, 7759); (7760, 7761); (7762, 7763); (7764, 7765); (7766, 7767);
    (7768, 7769); (7770, 7771); (7772, 7773); (7774, 7775); (7776, 7777); (7778, 7779);
    (7780, 7781); (7782, 7783); (7784, 7785); (7786, 7787); (7788, 7789); (7790, 7791);
    (7792, 7793); (7794, 7795); (7796, 7797); (7798, 7799); (7800, 7801); (7802, 7803);
    (7804, 7805); (7806, 7807); (7808, 7809); (7810, 7811); (7812, 7813); (7814, 7815);
    (7816, 7817); (7818, 7819); (7820, 7821); (7822, 7823); (7824, 7825); (7826, 7827);
    (7828, 7829); (7838, 223); (7840, 7841); (7842, 7843); (7844, 7845); (7846, 7847);
    (7848, 7849); (7850, 7851); (7852, 7853); (7854, 7855); (7856, 7857); (7858, 7859);
    (7860, 7861); (7862, 7863); (7864, 7865); (7866, 7867); (7868, 7869); (7870, 7871);
    (7872, 7873); (7874, 7875); (7876, 7877); (7878, 7879); (7880, 7881); (7882, 7883);
    (7884, 7885); (7886, 7887); (7888, 7889); (7890, 7891); (7892, 7893); (7894, 7895);
    (7896, 7897); (7898, 7899); (7900, 7901); (7902, 7903); (7904, 7905); (7906, 7907);
    (7908, 7909); (7910, 7911); (7912, 7913); (7914, 7915); (7916, 7917); (7918, 7919);
    (7920, 7921); (7922, 7923); (7924, 7925); (7926, 7927); (7928, 7929); (7930, 7931);
    (7932, 7933); (7934, 7935); (7944, 7936); (7945, 7937); (7946, 7938); (7947, 7939);
    (7948, 7940); (7949, 7941); (7950, 7942); (7951, 7943); (7960, 7952); (7961, 7953);
    (7962, 7954); (7963, 7955); (7964, 7956); (7965, 7957); (7976, 7968); (7977, 7969);
    (7978, 7970); (7979, 7971); (7980, 7972); (7981, 7973); (7982, 7974); (7983, 7975);
    (7992, 7984); (7993, 7985); (7994, 7986); (7995, 7987); (7996, 7988); (7997, 7989);
    (7998, 7990); (7999, 7991); (8008, 8000); (8009, 8001); (8010, 8002); (8011, 8003);
    (8012, 8004); (8013, 8005); (8025, 8017); (8027, 8019); (8029, 8021); (8031, 8023);
    (8040, 8032); (8041, 8033); (8042, 8034); (8043, 8035); (8044, 8036); (8045, 8037);
    (8046, 8038); (8047, 8039); (8072, 8064); (8073, 8065); (8074, 8066); (8075, 8067);
    (8076, 8068); (8077, 8069); (8078, 8070); (8079, 8071); (8088, 8080); (8089, 8081);
    (8090, 8082); (8091, 8083); (8092, 8084); (8093, 8085); (8094, 8086); (8095, 8087);
    (8104, 8096); (8105, 8097); (8106, 8098); (8107, 8099); (8108, 8100); (8109, 8101);
    (8110, 8102); (8111, 8103); (8120, 8112); (8121, 8113); (8122, 8048); (8123, 8049);
    (8124, 8115); (8136, 8050); (8137, 8051); (8138, 8052); (8139, 8053); (8140, 8131);
    (8152, 8144); (8153, 8145); (8154, 8054); (8155, 8055); (8168, 8160); (8169, 8161);
    (8170, 8058); (8171, 8059); (8172, 8165); (8184, 8056); (8185, 8057); (8186, 8060);
    (8187, 8061); (8188, 8179); (8486, 969); (8490, 107); (8491, 229); (8498, 8526);
    (8544, 8560); (8545, 8561); (8546, 8562); (8547, 8563); (8548, 8564); (8549, 8565);
    (8550, 8566); (8551, 8567); (8552, 8568); (8553, 8569); (8554, 8570); (8555, 8571);
    (8556, 8572); (8557, 8573); (8558, 8574); (8559, 8575); (8579, 8580); (9398, 9424);
    (9399, 9425); (9400, 9426); (9401, 9427); (9402, 9428); (9403, 9429); (9404, 9430);
    (9405, 9431); (9406, 9432); (9407, 9433); (9408, 9434); (9409, 9435); (9410, 9436);
    (9411, 9437); (9412, 9438); (9413, 9439); (9414, 9440); (9415, 9441); (9416, 9442);
    (9417, 9443); (9418, 9444); (9419, 9445); (9420, 9446); (9421, 9447); (9422, 9448);
    (9423, 9449); (11264, 11312); (11265, 11313); (11266, 11314); (11267, 11315);
    (11268, 11316); (11269, 11317); (11270, 11318); (11271, 11319); (11272, 11320);
    (11273, 11321); (11274, 11322); (11275, 11323); (11276, 11324); (11277, 11325);
    (11278, 11326); (11279, 11327); (11280, 11328); (11281, 11329); (11282, 11330);
    (11283, 11331); (11284, 11332); (11285, 11333); (11286, 11334); (11287, 11335);
    (11288, 11336); (11289, 11337); (11290, 11338); (11291, 11339); (11292, 11340);
    (11293, 11341); (11294, 11342); (11295, 11343); (11296, 11344); (11297, 11345);
    (11298, 11346); (11299, 11347); (11300, 11348); (11301, 11349); (11302, 11350);
    (11303, 11351); (11304, 11352); (11305, 11353); (11306, 11354); (11307, 11355);
    (11308, 11356); (11309, 11357); (11310, 11358); (11311, 11359); (11360, 11361);
    (11362, 619); (11363, 7549); (11364, 637); (11367, 11368); (11369, 11370); (11371, 11372);
    (11373, 593); (11374, 625); (11375, 592); (11376, 594); (11378, 11379); (11381, 11382);
    (11390, 575); (11391, 576); (11392, 11393); (11394, 11395); (11396, 11397); (11398, 11399);
    (11400, 11401); (11402, 11403); (11404, 11405); (11406, 11407); (11408, 11409);
    (11410, 11411); (11412, 11413); (11414, 11415); (11416, 11417); (11418, 11419);
    (11420, 11421); (11422, 11423); (11424, 11425); (11426, 11427); (11428, 11429);
    (11430, 11431); (11432, 11433); (11434, 11435); (11436, 11437); (11438, 11439);
    (11440, 11441); (11442, 11443); (11444, 11445); (11446, 11447); (11448, 11449);
    (11450, 11451); (11452, 11453); (11454, 11455); (11456, 11457); (11458, 11459);
    (11460, 11461); (11462, 11463); (11464, 11465); (11466, 11467); (11468, 11469);
    (11470, 11471); (11472, 11473); (11474, 11475); (11476, 11477); (11478, 11479);
    (11480, 11481); (11482, 11483); (11484, 11485); (11486, 11487); (11488, 11489);
    (11490, 11491); (11499, 11500); (11501, 11502); (11506, 11507); (42560, 42561);
    (42562, 42563); (42564, 42565); (42566, 42567); (42568, 42569); (42570, 42571);
    (42572, 42573); (42574, 42575); (42576, 42577); (42578, 42579); (42580, 42581);
    (42582, 42583); (42584, 42585); (42586, 42587); (42588, 42589); (42590, 42591);
    (42592, 42593); (42594, 42595); (42596, 42597); (42598, 42599); (42600, 42601);
    (42602, 42603); (42604, 42605); (42624, 42625); (42626, 42627); (42628, 42629);
    (42630, 42631); (42632, 42633); (42634, 42635); (42636, 42637); (42638, 42639);
    (42640, 42641); (42642, 42643); (42644, 42645); (42646, 42647); (42648, 42649);
    (42650, 42651); (42786, 42787); (42788, 42789); (42790, 42791); (42792, 42793);
    (42794, 42795); (42796, 42797); (42798, 42799); (42802, 42803); (42804, 42805);
    (42806, 42807); (42808, 42809); (42810, 42811); (42812, 42813); (42814, 42815);
    (42816, 42817); (42818, 42819); (42820, 42821); (42822, 42823); (42824, 42825);
    (42826, 42827); (42828, 42829); (42830, 42831); (42832, 42833); (42834, 42835);
    (42836, 42837); (42838, 42839); (42840, 42841); (42842, 42843); (42844, 42845);
    (42846, 42847); (42848, 42849); (42850, 42851); (42852, 42853); (42854, 42855);
    (42856, 42857); (42858, 42859); (42860, 42861); (42862, 42863); (42873, 42874);
    (42875, 42876); (42877, 7545); (42878, 42879); (42880, 42881); (42882, 42883);
    (42884, 42885); (42886, 42887); (42891, 42892); (42893, 613); (42896, 42897);
    (42898, 42899); (42902, 42903); (42904, 42905); (42906, 42907); (42908, 42909);
    (42910, 42911); (42912, 42913); (42914, 42915); (42916, 42917); (42918, 42919);
    (42920, 42921); (42922, 614); (42923, 604); (42924, 609); (42925, 620); (42926, 618);
    (42928, 670); (42929, 647); (42930, 669); (42931, 43859); (42932, 42933); (42934, 42935);
    (42936, 42937); (42938, 42939); (42940, 42941); (42942, 42943); (42944, 42945);
    (42946, 42947); (42948, 42900); (42949, 642); (42950, 7566); (42951, 42952); (42953, 42954);
    (42960, 42961); (42966, 42967); (42968, 42969); (42997, 42998); (65313, 65345);
    (65314, 65346); (65315, 65347); (65316, 65348); (65317, 65349); (65318, 65350);
    (65319, 65351); (65320, 65352); (65321, 65353); (65322, 65354); (65323, 65355);
    (65324, 65356); (65325, 65357); (65326, 65358); (65327, 65359); (65328, 65360);
    (65329, 65361); (65330, 65362); (65331, 65363); (65332, 65364); (65333, 65365);
    (65334, 65366); (65335, 65367); (65336, 65368); (65337, 65369); (65338, 65370);
    (66560, 66600); (66561, 66601); (66562, 66602); (66563, 66603); (66564, 66604);
    (66565, 66605); (66566, 66606); (66567, 66607); (66568, 66608); (66569, 66609);
    (66570, 66610); (66571, 66611); (66572, 66612); (66573, 66613); (66574, 66614);
    (66575, 66615); (66576, 66616); (66577, 66617); (66578, 66618); (66579, 66619);
    (66580, 66620); (66581, 66621); (66582, 66622); (66583, 66623); (66584, 66624);
    (66585, 66625); (66586, 66626); (66587, 66627); (66588, 66628); (66589, 66629);
    (66590, 66630); (66591, 66631); (66592, 66632); (66593, 66633); (66594, 66634);
    (66595, 66635); (66596, 66636); (66597, 66637); (66598, 66638); (66599, 66639);
    (66736, 66776); (66737, 66777); (66738, 66778); (66739, 66779); (66740, 66780);
    (66741, 66781); (66742, 66782); (66743, 66783); (66744, 66784); (66745, 66785);
    (66746, 66786); (66747, 66787); (66748, 66788); (66749, 66789); (66750, 66790);
    (66751, 66791); (66752, 66792); (66753, 66793); (66754, 66794); (66755, 66795);
    (66756, 66796); (66757, 66797); (66758, 66798); (66759, 66799); (66760, 66800);
    (66761, 66801); (66762, 66802); (66763, 66803); (66764, 66804); (66765, 66805);
    (66766, 66806); (66767, 66807); (66768, 66808); (66769, 66809); (66770, 66810);
    (66771, 66811); (66928, 66967); (66929, 66968); (66930, 66969); (66931, 66970);
    (66932, 66971); (66933, 66972); (66934, 66973); (66935, 66974); (66936, 66975);
    (66937, 66976); (66938, 66977); (66940, 66979); (66941, 66980); (66942, 66981);
    (66943, 66982); (66944, 66983); (66945, 66984); (66946, 66985); (66947, 66986);
    (66948, 66987); (66949, 66988); (66950, 66989); (66951, 66990); (66952, 66991);
    (66953, 66992); (66954, 66993); (66956, 66995); (66957, 66996); (66958, 66997);
    (66959, 66998); (66960, 66999); (66961, 67000); (66962, 67001); (66964, 67003);
    (66965, 67004); (68736, 68800); (68737, 68801); (68738, 68802); (68739, 68803);
    (68740, 68804); (68741, 68805); (68742, 68806); (68743, 68807); (68744, 68808);
    (68745, 68809); (68746, 68810); (68747, 68811); (68748, 68812); (68749, 68813);
    (68750, 68814); (68751, 68815); (68752, 68816); (68753, 68817); (68754, 68818);
    (68755, 68819); (68756, 68820); (68757, 68821); (68758, 68822); (68759, 68823);
    (68760, 68824); (68761, 68825); (68762, 68826); (68763, 68827); (68764, 68828);
    (68765, 68829); (68766, 68830); (68767, 68831); (68768, 68832); (68769, 68833);
    (68770, 68834); (68771, 68835); (68772, 68836); (68773, 68837); (68774, 68838);
    (68775, 68839); (68776, 68840); (68777, 68841); (68778, 68842); (68779, 68843);
    (68780, 68844); (68781, 68845); (68782, 68846); (68783, 68847); (68784, 68848);
    (68785, 68849); (68786, 68850); (71840, 71872); (71841, 71873); (71842, 71874);
    (71843, 71875); (71844, 71876); (71845, 71877); (71846, 71878); (71847, 71879);
    (71848, 71880); (71849, 71881); (71850, 71882); (71851, 71883); (71852, 71884);
    (71853, 71885); (71854, 71886); (71855, 71887); (71856, 71888); (71857, 71889);
    (71858, 71890); (71859, 71891); (71860, 71892); (71861, 71893); (71862, 71894);
    (71863, 71895); (71864, 71896); (71865, 71897); (71866, 71898); (71867, 71899);
    (71868, 71900); (71869, 71901); (71870, 71902); (71871, 71903); (93760, 93792);
    (93761, 93793); (93762, 93794); (93763, 93795); (93764, 93796); (93765, 93797);
    (93766, 93798); (93767, 93799); (93768, 93800); (93769, 93801); (93770, 93802);
    (93771, 93803); (93772, 93804); (93773, 93805); (93774, 93806); (93775, 93807);
    (93776, 93808); (93777, 93809); (93778, 93810); (93779, 93811); (93780, 93812);
    (93781, 93813); (93782, 93814); (93783, 93815); (93784, 93816); (93785, 93817);
    (93786, 93818); (93787, 93819); (93788, 93820); (93789, 93821); (93790, 93822);
    (93791, 93823); (125184, 125218); (125185, 125219); (125186, 125220); (125187, 125221);
    (125188, 125222); (125189, 125223); (125190, 125224); (125191, 125225); (125192, 125226);
    (125193, 125227); (125194, 125228); (125195, 125229); (125196, 125230); (125197, 125231);
    (125198, 125232); (125199, 125233); (125200, 125234); (125201, 125235); (125202, 125236);
    (125203, 125237); (125204, 125238); (125205, 125239); (125206, 125240); (125207, 125241);
    (125208, 125242); (125209, 125243); (125210, 125244); (125211, 125245); (125212, 125246);
    (125213, 125247); (125214, 125248); (125215, 125249); (125216, 125250); (125217, 125251) ].

(** The cased characters that are not case-ignorable. *)
Definition cased_ranges : list (N * N) :=
  [ (65, 90); (97, 122); (170, 170); (181, 181); (186, 186); (192, 214); (216, 246); (248, 442);
    (444, 447); (452, 659); (661, 687); (880, 883); (886, 887); (891, 893); (895, 895);
    (902, 902); (904, 906); (908, 908); (910, 929); (931, 1013); (1015, 1153); (1162, 1327);
    (1329, 1366); (1376, 1416); (4256, 4293); (4295, 4295); (4301, 4301); (4304, 4346);
    (4349, 4351); (5024, 5109); (5112, 5117); (7296, 7304); (7312, 7354); (7357, 7359);
    (7424, 7467); (7531, 7543); (7545, 7578); (7680, 7957); (7960, 7965); (7968, 8005);
    (8008, 8013); (8016, 8023); (8025, 8025); (8027, 8027); (8029, 8029); (8031, 8061);
    (8064, 8116); (8118, 8124); (8126, 8126); (8130, 8132); (8134, 8140); (8144, 8147);
    (8150, 8155); (8160, 8172); (8178, 8180); (8182, 8188); (8450, 8450); (8455, 8455);
    (8458, 8467); (8469, 8469); (8473, 8477); (8484, 8484); (8486, 8486); (8488, 8488);
    (8490, 8493); (8495, 8500); (8505, 8505); (8508, 8511); (8517, 8521); (8526, 8526);
    (8544, 8575); (8579, 8580); (9398, 9449); (11264, 11387); (11390, 11492); (11499, 11502);
    (11506, 11507); (11520, 11557); (11559, 11559); (11565, 11565); (42560, 42605);
    (42624, 42651); (42786, 42863); (42865, 42887); (42891, 42894); (42896, 42954);
    (42960, 42961); (42963, 42963); (42965, 42969); (42997, 42998); (43002, 43002);
    (43824, 43866); (43872, 43880); (43888, 43967); (64256, 64262); (64275, 64279);
    (65313, 65338); (65345, 65370); (66560, 66639); (66736, 66771); (66776, 66811);
    (66928, 66938); (66940, 66954); (66956, 66962); (66964, 66965); (66967, 66977);
    (66979, 66993); (66995, 67001); (67003, 67004); (68736, 68786); (68800, 68850);
    (71840, 71903); (93760, 93823); (119808, 119892); (119894, 119964); (119966, 119967);
    (119970, 119970); (119973, 119974); (119977, 119980); (119982, 119993); (119995, 119995);
    (119997, 120003); (120005, 120069); (120071, 120074); (120077, 120084); (120086, 120092);
    (120094, 120121); (120123, 120126); (120128, 120132); (120134, 120134); (120138, 120144);
    (120146, 120485); (120488, 120512); (120514, 120538); (120540, 120570); (120572, 120596);
    (120598, 120628); (120630, 120654); (120656, 120686); (120688, 120712); (120714, 120744);
    (120746, 120770); (120772, 120779); (122624, 122633); (122635, 122654); (125184, 125251);
    (127280, 127305); (127312, 127337); (127344, 127369) ].

(** The case-ignorable characters. *)
Definition case_ignorable_ranges : list (N * N) :=
  [ (39, 39); (46, 46); (58, 58); (94, 94); (96, 96); (168, 168); (173, 173); (175, 175);
    (180, 180); (183, 184); (688, 879); (884, 885); (890, 890); (900, 901); (903, 903);
    (1155, 1161); (1369, 1369); (1375, 1375); (1425, 1469); (1471, 1471); (1473, 1474);
    (1476, 1477); (1479, 1479); (1524, 1524); (1536, 1541); (1552, 1562); (1564, 1564);
    (1600, 1600); (1611, 1631); (1648, 1648); (1750, 1757); (1759, 1768); (1770, 1773);
    (1807, 1807); (1809, 1809); (1840, 1866); (1958, 1968); (2027, 2037); (2042, 2042);
    (2045, 2045); (2070, 2093); (2137, 2139); (2184, 2184); (2192, 2193); (2200, 2207);
    (2249, 2306); (2362, 2362); (2364, 2364); (2369, 2376); (2381, 2381); (2385, 2391);
    (2402, 2403); (2417, 2417); (2433, 2433); (2492, 2492); (2497, 2500); (2509, 2509);
    (2530, 2531); (2558, 2558); (2561, 2562); (2620, 2620); (2625, 2626); (2631, 2632);
    (2635, 2637); (2641, 2641); (2672, 2673); (2677, 2677); (2689, 2690); (2748, 2748);
    (2753, 2757); (2759, 2760); (2765, 2765); (2786, 2787); (2810, 2815); (2817, 2817);
    (2876, 2876); (2879, 2879); (2881, 2884); (2893, 2893); (2901, 2902); (2914, 2915);
    (2946, 2946); (3008, 3008); (3021, 3021); (3072, 3072); (3076, 3076); (3132, 3132);
    (3134, 3136); (3142, 3144); (3146, 3149); (3157, 3158); (3170, 3171); (3201, 3201);
    (3260, 3260); (3263, 3263); (3270, 3270); (3276, 3277); (3298, 3299); (3328, 3329);
    (3387, 3388); (3393, 3396); (3405, 3405); (3426, 3427); (3457, 3457); (3530, 3530);
    (3538, 3540); (3542, 3542); (3633, 3633); (3636, 3642); (3654, 3662); (3761, 3761);
    (3764, 3772); (3782, 3782); (3784, 3789); (3864, 3865); (3893, 3893); (3895, 3895);
    (3897, 3897); (3953, 3966); (3968, 3972); (3974, 3975); (3981, 3991); (3993, 4028);
    (4038, 4038); (4141, 4144); (4146, 4151); (4153, 4154); (4157, 4158); (4184, 4185);
    (4190, 4192); (4209, 4212); (4226, 4226); (4229, 4230); (4237, 4237); (4253, 4253);
    (4348, 4348); (4957, 4959); (5906, 5908); (5938, 5939); (5970, 5971); (6002, 6003);
    (6068, 6069); (6071, 6077); (6086, 6086); (6089, 6099); (6103, 6103); (6109, 6109);
    (6155, 6159); (6211, 6211); (6277, 6278); (6313, 6313); (6432, 6434); (6439, 6440);
    (6450, 6450); (6457, 6459); (6679, 6680); (6683, 6683); (6742, 6742); (6744, 6750);
    (6752, 6752); (6754, 6754); (6757, 6764); (6771, 6780); (6783, 6783); (6823, 6823);
    (6832, 6862); (6912, 6915); (6964, 6964); (6966, 6970); (6972, 6972); (6978, 6978);
    (7019, 7027); (7040, 7041); (7074, 7077); (7080, 7081); (7083, 7085); (7142, 7142);
    (7144, 7145); (7149, 7149); (7151, 7153); (7212, 7219); (7222, 7223); (7288, 7293);
    (7376, 7378); (7380, 7392); (7394, 7400); (7405, 7405); (7412, 7412); (7416, 7417);
    (7468, 7530); (7544, 7544); (7579, 7679); (8125, 8125); (8127, 8129); (8141, 8143);
    (8157, 8159); (8173, 8175); (8189, 8190); (8203, 8207); (8216, 8217); (8228, 8228);
    (8231, 8231); (8234, 8238); (8288, 8292); (8294, 8303); (8305, 8305); (8319, 8319);
    (8336, 8348); (8400, 8432); (11388, 11389); (11503, 11505); (11631, 11631); (11647, 11647);
    (11744, 11775); (11823, 11823); (12293, 12293); (12330, 12333); (12337, 12341);
    (12347, 12347); (12441, 12446); (12540, 12542); (40981, 40981); (42232, 42237);
    (42508, 42508); (42607, 42610); (42612, 42621); (42623, 42623); (42652, 42655);
    (42736, 42737); (42752, 42785); (42864, 42864); (42888, 42890); (42994, 42996);
    (43000, 43001); (43010, 43010); (43014, 43014); (43019, 43019); (43045, 43046);
    (43052, 43052); (43204, 43205); (43232, 43249); (43263, 43263); (43302, 43309);
    (43335, 43345); (43392, 43394); (43443, 43443); (43446, 43449); (43452, 43453);
    (43471, 43471); (43493, 43494); (43561, 43566); (43569, 43570); (43573, 43574);
    (43587, 43587); (43596, 43596); (43632, 43632); (43644, 43644); (43696, 43696);
    (43698, 43700); (43703, 43704); (43710, 43711); (43713, 43713); (43741, 43741);
    (43756, 43757); (43763, 43764); (43766, 43766); (43867, 43871); (43881, 43883);
    (44005, 44005); (44008, 44008); (44013, 44013); (64286, 64286); (64434, 64450);
    (65024, 65039); (65043, 65043); (65056, 65071); (65106, 65106); (65109, 65109);
    (65279, 65279); (65287, 65287); (65294, 65294); (65306, 65306); (65342, 65342);
    (65344, 65344); (65392, 65392); (65438, 65439); (65507, 65507); (65529, 65531);
    (66045, 66045); (66272, 66272); (66422, 66426); (67456, 67461); (67463, 67504);
    (67506, 67514); (68097, 68099); (68101, 68102); (68108, 68111); (68152, 68154);
    (68159, 68159); (68325, 68326); (68900, 68903); (69291, 69292); (69446, 69456);
    (69506, 69509); (69633, 69633); (69688, 69702); (69744, 69744); (69747, 69748);
    (69759, 69761); (69811, 69814); (69817, 69818); (69821, 69821); (69826, 69826);
    (69837, 69837); (69888, 69890); (69927, 69931); (69933, 69940); (70003, 70003);
    (70016, 70017); (70070, 70078); (70089, 70092); (70095, 70095); (70191, 70193);
    (70196, 70196); (70198, 70199); (70206, 70206); (70367, 70367); (70371, 70378);
    (70400, 70401); (70459, 70460); (70464, 70464); (70502, 70508); (70512, 70516);
    (70712, 70719); (70722, 70724); (70726, 70726); (70750, 70750); (70835, 70840);
    (70842, 70842); (70847, 70848); (70850, 70851); (71090, 71093); (71100, 71101);
    (71103, 71104); (71132, 71133); (71219, 71226); (71229, 71229); (71231, 71232);
    (71339, 71339); (71341, 71341); (71344, 71349); (71351, 71351); (71453, 71455);
    (71458, 71461); (71463, 71467); (71727, 71735); (71737, 71738); (71995, 71996);
    (71998, 71998); (72003, 72003); (72148, 72151); (72154, 72155); (72160, 72160);
    (72193, 72202); (72243, 72248); (72251, 72254); (72263, 72263); (72273, 72278);
    (72281, 72283); (72330, 72342); (72344, 72345); (72752, 72758); (72760, 72765);
    (72767, 72767); (72850, 72871); (72874, 72880); (72882, 72883); (72885, 72886);
    (73009, 73014); (73018, 73018); (73020, 73021); (73023, 73029); (73031, 73031);
    (73104, 73105); (73109, 73109); (73111, 73111); (73459, 73460); (78896, 78904);
    (92912, 92916); (92976, 92982); (92992, 92995); (94031, 94031); (94095, 94111);
    (94176, 94177); (94179, 94180); (110576, 110579); (110581, 110587); (110589, 110590);
    (113821, 113822); (113824, 113827); (118528, 118573); (118576, 118598); (119143, 119145);
    (119155, 119170); (119173, 119179); (119210, 119213); (119362, 119364); (121344, 121398);
    (121403, 121452); (121461, 121461); (121476, 121476); (121499, 121503); (121505, 121519);
    (122880, 122886); (122888, 122904); (122907, 122913); (122915, 122916); (122918, 122922);
    (123184, 123197); (123566, 123566); (123628, 123631); (125136, 125142); (125252, 125259);
    (127995, 127999); (917505, 917505); (917536, 917631); (917760, 917999) ].

(** Whether [c] lies in one of the ranges of a table in increasing order. *)
Fixpoint in_ranges (ranges : list (N * N)) (c : char) : bool :=
  match ranges with
  | [] => false
  | (lo, hi) :: rest =>
    if c <? lo then false else if c <=? hi then true else in_ranges rest c
  end.

(** The first code point of the range [c] lies in. *)
Fixpoint range_start (ranges : list (N * N)) (c : char) : option N :=
  match ranges with
  | [] => None
  | (lo, hi) :: rest =>
    if c <? lo then None else if c <=? hi then Some lo else range_start rest c
  end.

(** The entry of [c] in a table of pairs in increasing order of their first
    components. *)
Fixpoint table_lookup (table : list (N * N)) (c : char) : option N :=
  match table with
  | [] => None
  | (k, v) :: rest =>
    if c <? k then None else if c =? k then Some v else table_lookup rest c
  end.

(** [\d]: the decimal digits of every script. *)
Definition is_digit (c : char) : bool := in_ranges digit_ranges c.

(** The value of a decimal digit, as [int] reads it. *)
Definition digit_value (c : char) : option N :=
  match range_start digit_ranges c with
  | Some lo => Some ((c - lo) mod 10)
  | None => None
  end.

(** The digits "0123456789", which the pattern syntax reads a repeat count
    from. *)
Definition is_ascii_digit (c : char) : bool := (48 <=? c) && (c <=? 57).

(** [\w]: alphanumeric or underscore. *)
Definition is_word (c : char) : bool := in_ranges word_ranges c.

(** [str.lower] on one character, capital sigma apart: U+0130 becomes the
    two characters "i" and the combining dot above. *)
Definition to_lower_full (c : char) : pystr :=
  if c =? 304 then [105; 775]
  else match table_lookup lower_table c with
       | Some l => [l]
       | None => [c]
       end.

Definition is_case_ignorable (c : char) : bool := in_ranges case_ignorable_ranges c.

(** For a character that is not case-ignorable: whether it is cased. *)
Definition is_cased (c : char) : bool := in_ranges cased_ranges c.

(** Whether a cased character follows, the case-ignorable ones passed over. *)
Fixpoint cased_follows (s : pystr) : bool :=
  match s with
  | [] => false
  | c :: r => if is_case_ignorable c then cased_follows r else is_cased c
  end.

(** [s.lower()] from some position on; [after_cased] tells whether the last
    character before it that is not case-ignorable is cased.  A capital
    sigma (931) becomes the final sigma (962) when it comes after a cased
    character and no cased character follows, the small sigma (963)
    otherwise. *)
Fixpoint lower_from (after_cased : bool) (s : pystr) : pystr :=
  match s with
  | [] => []
  | c :: r =>
    (if c =? 931
     then [if after_cased && negb (cased_follows r) then 962 else 963]
     else to_lower_full c)
    ++ lower_from (if is_case_ignorable c then after_cased else is_cased c) r
  end.

(** [s.lower()] *)
Definition lower (s : pystr) : pystr := lower_from false s.

(** [s.lstrip()], [s.rstrip()], [s.strip()] *)
Fixpoint lstrip (s : pystr) : pystr :=
  match s with
  | c :: r => if is_space c then lstrip r else s
  | [] => []
  end.

Definition rstrip (s : pystr) : pystr := rev (lstrip (rev s)).

Definition strip (s : pystr) : pystr := rstrip (lstrip s).

(** [t.startswith(p)] *)
Fixpoint startswith (p t : pystr) : bool :=
  match p, t with
  | [], _ => true
  | a :: p', b :: t' => (a =? b) && startswith p' t'
  | _ :: _, [] => false
  end.

(** [p in t]: [p] occurs in [t] as a contiguous substring. *)
Fixpoint contains (p t : pystr) : bool :=
  startswith p t ||
  match t with
  | [] => false
  | _ :: t' => contains p t'
  end.

(** [s.split()]: the maximal runs of non-whitespace characters.  [cur] is
    the word being read, in reverse. *)
Fixpoint split_aux (cur : pystr) (s : pystr) : list pystr :=
  match s with
  | [] => match cur with [] => [] | _ => [rev cur] end
  | c :: r =>
    if is_space c
    then match cur with [] => split_aux [] r | _ => rev cur :: split_aux [] r end
    else split_aux (c :: cur) r
  end.

Definition split (s : pystr) : list pystr := split_aux [] s.

(** Equality of strings, [a == b]. *)
Fixpoint eqb (a b : pystr) : bool :=
  match a, b with
  | [], [] => true
  | x :: a', y :: b' => (x =? y) && eqb a' b'
  | _, _ => false
  end.

(** [x in [l1, l2, ...]] for a list of strings. *)
Definition in_list (x : pystr) (l : list pystr) : bool := existsb (eqb x) l.

(** [any(w in s for w in words)] *)
Definition any_in (words : list pystr) (s : pystr) : bool :=
  existsb (fun w => contains w s) words.

End PyStr.
Export PyStr.


(** ** Regular expressions (Python's [re] on [str] patterns) *)

Module Re.

(** One item of a bracketed character set. *)
Inductive cset :=
  | CChar (c : char)
  | CRange (lo hi : char)
  | CSpace          (* \s *)
  | CWord           (* \w *)
  | CDigit.         (* \d *)

Inductive regex :=
  | REmpty
  | RChar (c : char)
  | RAny                               (* .  : any character but a newline *)
  | RSet (neg : bool) (items : list cset)
  | RBol                               (* ^  *)
  | RSeq (r1 r2 : regex)
  | RAlt (r1 r2 : regex)               (* r1|r2, the left branch preferred *)
  | RStar (r : regex)                  (* r*, greedy *)
  | RPlus (r : regex)                  (* r+, greedy *)
  | ROpt (r : regex)                   (* r?, greedy *)
  | RGroup (i : nat) (r : regex).      (* capturing group number i+1 *)

Definition in_cset (x : char) (it : cset) : bool :=
  match it with
  | CChar c => x =? c
  | CRange lo hi => (lo <=? x) && (x <=? hi)
  | CSpace => is_space x
  | CWord => is_word x
  | CDigit => is_digit x
  end.

Definition in_set (x : char) (items : list cset) : bool := existsb (in_cset x) items.

(** *** Parsing the pattern syntax *)

(** Is [c] an ASCII letter or digit?  (A backslash before one of these is a
    special sequence; before anything else it quotes the character.) *)
Definition ascii_alnum (c : char) : bool :=
  ((48 <=? c) && (c <=? 57)) || ((65 <=? c) && (c <=? 90)) || ((97 <=? c) && (c <=? 122)).

(** The set denoted by backslash-[c], where this model supports it. *)
Definition escape_set (c : char) : option (bool * cset) :=
  if c =? 115 then Some (false, CSpace)        (* \s *)
  else if c =? 119 then Some (false, CWord)    (* \w *)
  else if c =? 100 then Some (false, CDigit)   (* \d *)
  else if c =? 83 then Some (true, CSpace)     (* \S *)
  else if c =? 87 then Some (true, CWord)      (* \W *)
  else if c =? 68 then Some (true, CDigit)     (* \D *)
  else None.

(** The items of a bracketed set, up to and including the closing bracket. *)
Fixpoint parse_class (fuel : nat) (s : pystr) : option (list cset * pystr) :=
  match fuel with
  | O => None
  | S f =>
    match s with
    | [] => None
    | 93 :: s1 => Some ([], s1)                                  (* ] *)
    | 92 :: c :: s1 =>                                           (* \c *)
      match escape_set c with
      | Some (false, it) =>
        '(its, s2) ← parse_class f s1; Some (it :: its, s2)
      | Some (true, _) => None
      | None =>
        if ascii_alnum c then None
        else '(its, s2) ← parse_class f s1; Some (CChar c :: its, s2)
      end
    | 92 :: [] => None
    | lo :: 45 :: hi :: s1 =>                                    (* lo-hi *)
      if hi =? 93 then '(its, s2) ← parse_class f (45 :: hi :: s1); Some (CChar lo :: its, s2)
      else if hi =? 92 then None
      else '(its, s2) ← parse_class f s1; Some (CRange lo hi :: its, s2)
    | c :: s1 => '(its, s2) ← parse_class f s1; Some (CChar c :: its, s2)
    end
  end.

(** A postfix quantifier, if one follows the atom [a]. *)
Definition parse_quant (a : regex) (s : pystr) : regex * pystr :=
  match s with
  | 42 :: s1 => (RStar a, s1)      (* * *)
  | 43 :: s1 => (RPlus a, s1)      (* + *)
  | 63 :: s1 => (ROpt a, s1)       (* ? *)
  | _ => (a, s)
  end.

(** Does a quantifier start here?  Used to reject a quantifier that follows
    another one (lazy and possessive forms are not modelled). *)
Definition quant_next (s : pystr) : bool :=
  match s with
  | c :: _ => (c =? 42) || (c =? 43) || (c =? 63)
  | [] => false
  end.

(** Recursive descent: alternation, then concatenation, then atoms.  [ng]
    is the number of capturing groups opened so far. *)
Fixpoint parse_alt (fuel : nat) (ng : nat) (s : pystr) : option (regex * nat * pystr) :=
  match fuel with
  | O => None
  | S f =>
    '(r1, ng1, s1) ← parse_seq f ng s;
    match s1 with
    | 124 :: s2 =>                                               (* | *)
      '(r2, ng2, s3) ← parse_alt f ng1 s2; Some (RAlt r1 r2, ng2, s3)
    | _ => Some (r1, ng1, s1)
    end
  end
with parse_seq (fuel : nat) (ng : nat) (s : pystr) : option (regex * nat * pystr) :=
  match fuel with
  | O => None
  | S f =>
    match s with
    | [] => Some (REmpty, ng, [])
    | c :: _ =>
      if (c =? 124) || (c =? 41) then Some (REmpty, ng, s)       (* | or ) *)
      else
        '(a, ng1, s1) ← parse_atom f ng s;
        let '(q, s2) := parse_quant a s1 in
        if quant_next s1 && quant_next s2 then None
        else
          '(rest, ng2, s3) ← parse_seq f ng1 s2;
          Some (match rest with REmpty => q | _ => RSeq q rest end, ng2, s3)
    end
  end
with parse_atom (fuel : nat) (ng : nat) (s : pystr) : option (regex * nat * pystr) :=
  match fuel with
  | O => None
  | S f =>
    match s with
    | [] => None
    | 40 :: 63 :: 58 :: s1 =>                                    (* (?: ... ) *)
      '(r, ng1, s2) ← parse_alt f ng s1;
      match s2 with 41 :: s3 => Some (r, ng1, s3) | _ => None end
    | 40 :: 63 :: _ => None
    | 40 :: s1 =>                                                (* ( ... ) *)
      '(r, ng1, s2) ← parse_alt f (S ng) s1;
      match s2 with 41 :: s3 => Some (RGroup ng r, ng1, s3) | _ => None end
    | 91 :: 94 :: s1 =>                                          (* [^ ... ] *)
      '(its, s2) ← parse_class f s1;
      match its with [] => None | _ => Some (RSet true its, ng, s2) end
    | 91 :: s1 =>                                                (* [ ... ] *)
      '(its, s2) ← parse_class f s1;
      match its with [] => None | _ => Some (RSet false its, ng, s2) end
    | 92 :: c :: s1 =>                                           (* \c *)
      match escape_set c with
      | Some (neg, it) => Some (RSet neg [it], ng, s1)
      | None => if ascii_alnum c then None else Some (RChar c, ng, s1)
      end
    | 92 :: [] => None
    | 46 :: s1 => Some (RAny, ng, s1)                            (* . *)
    | 94 :: s1 => Some (RBol, ng, s1)                            (* ^ *)
    | 123 :: d :: s1 =>                                          (* { *)
      if is_ascii_digit d || (d =? 44) then None else Some (RChar 123, ng, d :: s1)
    | c :: s1 =>
      if (c =? 42) || (c =? 43) || (c =? 63) || (c =? 36) || (c =? 41) || (c =? 124)
      then None
      else Some (RChar c, ng, s1)
    end
  end.

(** [re.compile(pattern)]: the expression and its number of groups.  [None]
    stands for a pattern outside the modelled syntax. *)
Definition compile (pattern : pystr) : option (regex * nat) :=
  match parse_alt (4 * length pattern + 4) 0 pattern with
  | Some (r, ng, []) => Some (r, ng)
  | _ => None
  end.

(** *** Matching

    A backtracking matcher in continuation-passing style, with Python's
    priorities: the left branch of an alternation first, as many repetitions
    as possible first.  [n0] is the length of the whole subject string, [s]
    what is left of it at the current position, [caps] the text captured by
    each group so far ([None]: the group has not taken part), and [k] what
    remains to be matched after [r]. *)

Definition captures := list (option pystr).

(** Greedy iteration of [body]: at most [fuel] rounds, each of which has to
    consume at least one character. *)
Definition iterate {A} (body : pystr -> captures -> (pystr -> captures -> option A) -> option A)
    (k : pystr -> captures -> option A) : nat -> pystr -> captures -> option A :=
  fix loop (fuel : nat) (s : pystr) (caps : captures) : option A :=
    match fuel with
    | O => k s caps
    | S f =>
      match body s caps (fun s' caps' =>
              if (length s' <? length s)%nat then loop f s' caps' else None) with
      | Some a => Some a
      | None => k s caps
      end
    end.

Fixpoint rmatch {A} (r : regex) (n0 : nat) (s : pystr) (caps : captures)
    (k : pystr -> captures -> option A) : option A :=
  match r with
  | REmpty => k s caps
  | RChar c =>
    match s with
    | x :: s' => if x =? c then k s' caps else None
    | [] => None
    end
  | RAny =>
    match s with
    | x :: s' => if x =? 10 then None else k s' caps
    | [] => None
    end
  | RSet neg items =>
    match s with
    | x :: s' => if xorb neg (in_set x items) then k s' caps else None
    | [] => None
    end
  | RBol => if (length s =? n0)%nat then k s caps else None
  | RSeq r1 r2 => rmatch r1 n0 s caps (fun s' caps' => rmatch r2 n0 s' caps' k)
  | RAlt r1 r2 =>
    match rmatch r1 n0 s caps k with
    | Some a => Some a
    | None => rmatch r2 n0 s caps k
    end
  | RStar r1 => iterate (rmatch r1 n0) k (length s) s caps
  | RPlus r1 =>
    rmatch r1 n0 s caps (fun s' caps' => iterate (rmatch r1 n0) k (length s') s' caps')
  | ROpt r1 =>
    match rmatch r1 n0 s caps k with
    | Some a => Some a
    | None => k s caps
    end
  | RGroup i r1 =>
    rmatch r1 n0 s caps (fun s' caps' =>
      k s' (<[i := Some (take (length s - length s') s)]> caps'))
  end.

(** A match: what follows the matched text, and [m.groups()]. *)
Definition rmatch_at (r : regex) (ng : nat) (n0 : nat) (s : pystr) : option (pystr * captures) :=
  rmatch r n0 s (replicate ng None) (fun s' caps => Some (s', caps)).

(** The leftmost match at or after the current position. *)
Fixpoint search_from (r : regex) (ng : nat) (n0 : nat) (s : pystr) : option (pystr * captures) :=
  match rmatch_at r ng n0 s with
  | Some m => Some m
  | None =>
    match s with
    | [] => None
    | _ :: s' => search_from r ng n0 s'
    end
  end.

(** [re.search(pattern, s)], as [m.groups()] of the match found.  A pattern
    outside the modelled syntax matches nothing. *)
Definition search (pattern : string) (s : pystr) : option captures :=
  '(r, ng) ← compile (u pattern);
  snd <$> search_from r ng (length s) s.

(** [re.sub(pattern, '', s)]: every match, left to right, is removed.  (With
    the empty replacement an empty match removes nothing; the positions tried
    after one are those of patterns that match no empty string, which is what
    the program's patterns are.) *)
Fixpoint sub_loop (r : regex) (ng : nat) (n0 : nat) (fuel : nat) (s : pystr) : pystr :=
  match fuel with
  | O => s
  | S f =>
    match rmatch_at r ng n0 s with
    | Some (s', _) =>
      if (length s' <? length s)%nat then sub_loop r ng n0 f s'
      else match s with [] => [] | c :: t => c :: sub_loop r ng n0 f t end
    | None =>
      match s with [] => [] | c :: t => c :: sub_loop r ng n0 f t end
    end
  end.

Definition sub_empty (pattern : string) (s : pystr) : pystr :=
  match compile (u pattern) with
  | Some (r, ng) => sub_loop r ng (length s) (S (length s)) s
  | None => s
  end.

End Re.

(** ** Python values and exceptions *)

(** The values the analyzer stores and returns ([Any] in its annotations). *)
#[local] Set Warnings "-register-all".
Inductive pyval :=
  | PyNone
  | PyBool (b : bool)
  | PyInt (z : Z)
  | PyStr (s : pystr)
  | PyList (l : list pyval)
  | PyDict (d : gmap string pyval).

(** The exceptions an expression of the analyzer can raise. *)
Inductive pyexc :=
  | AttributeError
  | ValueError.

Inductive result (A : Type) :=
  | Ok (a : A)
  | Raise (e : pyexc).
Arguments Ok {A} a.
Arguments Raise {A} e.

(** Sequencing: an exception raised by the first computation skips the
    rest.  Written [x ← c; k]. *)
#[global] Instance result_bind : MBind result := fun A B f x =>
  match x with
  | Ok a => f a
  | Raise e => Raise e
  end.

(** Truth value of an object ([if v:], [a and b]). *)
Definition truthy (v : pyval) : bool :=
  match v with
  | PyNone => false
  | PyBool b => b
  | PyInt z => negb (z =? 0)%Z
  | PyStr s => match s with [] => false | _ => true end
  | PyList l => match l with [] => false | _ => true end
  | PyDict d => negb (size d =? 0)%nat
  end.

(** [v == 'text'] for a string literal on the right. *)
Definition eq_str (v : pyval) (s : pystr) : bool :=
  match v with
  | PyStr t => PyStr.eqb t s
  | _ => false
  end.

(** [v.get(key)]: [dict.get] with the default [None]; any other object of
    the model has no attribute [get]. *)
Definition py_get (v : pyval) (key : string) : result pyval :=
  match v with
  | PyDict d => Ok (default PyNone (d !! key))
  | _ => Raise AttributeError
  end.

(** [int(s)] for a string of decimal digits, of any script. *)
Fixpoint digits_value (acc : Z) (s : pystr) : option Z :=
  match s with
  | [] => Some acc
  | c :: r =>
    match digit_value c with
    | Some d => digits_value (10 * acc + Z.of_N d)%Z r
    | None => None
    end
  end.

(** [int(s)] where the program calls it: on one of "1" to "5", and on the
    digits a pattern has matched. *)
Definition py_int (s : pystr) : result Z :=
  match s with
  | [] => Raise ValueError
  | _ => match digits_value 0 s with Some z => Ok z | None => Raise ValueError end
  end.

(** ** The intent analyzer ([intent_analyzer.py]) *)

Module IntentAnalyzer.
Import Re.

(** [self.intent_patterns]: a dict literal, iterated in the order written. *)
Definition intent_patterns : list (string * list string) :=
  [ ("refactor_file",
      [ "(исправь|поправь|отформатируй|улучши|fix|format|refactor)\s+.*(?:в\s+файле|in\s+file)\s+([\w\._-]+)" ]);
    ("create_file",
      [ "(?:создай|создать|сделай|новый)\s+(?:excel\s+)?файл\s+([^\s]+)";
        "(?:создай|создать)\s+([^\s]*\.xlsx?)";
        "(?:create|make)\s+(?:excel\s+)?file\s+([^\s]+)" ]);
    ("create_directory",
      [ "(?:создай|создать)\s+(?:папку|директорию)\s+([^\s]+)";
        "новая\s+папка\s+([^\s]+)";
        "(?:create\s+folder|make\s+directory|mkdir)\s+([^\s]+)" ]);
    ("list_directory",
      [ "покажи\s+файлы";
        "список\s+файлов";
        "что\s+в\s+папке";
        "содержимое\s+папки\s*([^\s]*)";
        "(?:ls|dir)\s*([^\s]*)";
        "list\s+files" ]);
    ("read_file",
      [ "(?:покажи|читай|прочитай|открой|read|show|cat)\s+(?:файл|содержимое)?\s*([^\s]+)" ]);
    ("delete_file",
      [ "(?:удали|удалить|убери|delete|remove|rm)\s+(?:файл)?\s*(.+)" ]);
    ("search",
      [ "(?:найди|поиск|ищи|search|find)\s+(.+)" ]);
    ("web_search",
      [ "(?:найди\s+в\s+интернете|поиск\s+в\s+сети|гугли|web\s+search|google)\s+(.+)" ]) ].

(** [self.context_memory] *)
Abbreviation context := (gmap string pyval).

(** An optional string as a Python value. *)
Definition of_opt (o : option pystr) : pyval :=
  match o with
  | Some t => PyStr t
  | None => PyNone
  end.

(** [g is not None] *)
Definition is_not_none (g : option pystr) : bool :=
  match g with
  | Some _ => true
  | None => false
  end.

(** [next((g for g in reversed(groups) if g is not None), None)] *)
Definition last_not_none (groups : captures) : option pystr :=
  mjoin (find is_not_none (rev groups)).

(** The target as the pattern's groups give it, before the cleanup. *)
Definition raw_target (groups : captures) : option pystr :=
  match groups with
  | [] => None
  | _ => last_not_none groups
  end.

(** The cleanup, applied [if target:]. *)
Definition clean_target (target : option pystr) : option pystr :=
  match target with
  | Some (c :: t) =>
    let target := strip (c :: t) in
    let target := sub_empty "^(файл|файла|file)\s+" target in
    let target := sub_empty "^(папку|папка|folder|directory)\s+" target in
    Some target
  | _ => target
  end.

(** [m.group(i)] for [i >= 1]. *)
Definition group (m : captures) (i : nat) : pyval :=
  of_opt (mjoin (m !! (i - 1)%nat)).

(** [a or b] *)
Definition py_or (a b : pyval) : pyval := if truthy a then a else b.

(** The body of the inner loop once [pattern] has matched with [groups]. *)
Definition on_match (intent : string) (groups : captures) (user_input_lower : pystr)
    : pyval * pyval :=
  let target := clean_target (raw_target groups) in
  let params : gmap string pyval := {[ "target" := of_opt target ]} in
  let params :=
    if String.eqb intent "create_file" then
      match search "с содержимым\s+(.+)|с текстом\s+(.+)|with content\s+(.+)" user_input_lower with
      | Some content_match =>
        <[ "content" := py_or (py_or (group content_match 1) (group content_match 2))
                              (group content_match 3) ]> params
      | None => params
      end
    else params in
  (PyStr (u intent), PyDict params).

(** [for pattern in pattern_list: ...] *)
Fixpoint scan_patterns (intent : string) (pattern_list : list string) (user_input_lower : pystr)
    : option (pyval * pyval) :=
  match pattern_list with
  | [] => None
  | pattern :: rest =>
    match search pattern user_input_lower with
    | Some groups => Some (on_match intent groups user_input_lower)
    | None => scan_patterns intent rest user_input_lower
    end
  end.

(** [for intent, pattern_list in self.intent_patterns.items(): ...] *)
Fixpoint scan_intents (table : list (string * list string)) (user_input_lower : pystr)
    : option (pyval * pyval) :=
  match table with
  | [] => None
  | (intent, pattern_list) :: rest =>
    match scan_patterns intent pattern_list user_input_lower with
    | Some r => Some r
    | None => scan_intents rest user_input_lower
    end
  end.

(** [_analyze_fallback_keywords] *)
Definition keyword_patterns : list (list pystr * list pystr * string) :=
  [ ([u "файл"; u "file"], [u "создай"; u "create"; u "новый"], "create_file");
    ([u "папка"; u "folder"; u "директория"; u "directory"],
       [u "создай"; u "create"; u "новая"], "create_directory");
    ([u "читай"; u "read"; u "покажи"; u "show"; u "открой"], [], "read_file");
    ([u "удали"; u "delete"; u "убери"; u "remove"], [], "delete_file");
    ([u "список"; u "файлы"; u "содержимое"; u "ls"; u "dir"], [], "list_directory") ].

Fixpoint scan_keywords (table : list (list pystr * list pystr * string)) (user_input_lower : pystr)
    : option (pyval * pyval) :=
  match table with
  | [] => None
  | (primary_words, secondary_words, intent) :: rest =>
    let has_primary := any_in primary_words user_input_lower in
    let has_secondary :=
      match secondary_words with
      | [] => true
      | _ => any_in secondary_words user_input_lower
      end in
    if has_primary && has_secondary
    then Some (PyStr (u intent), PyDict {[ "target" := PyNone ]})
    else scan_keywords rest user_input_lower
  end.

Definition analyze_fallback_keywords (user_input_lower : pystr) : option (pyval * pyval) :=
  scan_keywords keyword_patterns user_input_lower.

Definition numeric_refs : list pystr := [u "1"; u "2"; u "3"; u "4"; u "5"].

Definition context_keywords : list pystr :=
  [ u "первый"; u "второй"; u "третий"; u "четвертый"; u "пятый";
    u "первый вариант"; u "второй вариант"; u "третий вариант";
    u "да"; u "давай"; u "сделай это"; u "выполни" ].

(** [self.context_memory.get(key)] and [self.context_memory.get(key, dflt)] *)
Definition cm_get (cm : context) (key : string) (dflt : pyval) : pyval :=
  default dflt (cm !! key).

(** [_is_context_reference] *)
Definition is_context_reference (cm : context) (user_input : pystr) : bool :=
  if in_list user_input numeric_refs then true
  else if (length (split user_input) <=? 2)%nat
          && negb (any_in [u "."; u "файл"] user_input)
  then any_in context_keywords user_input
  else if (length (split user_input) <=? 2)%nat && any_in [u "переименуй"] user_input
  then eq_str (cm_get cm "last_intent" PyNone) (u "delete_file")
  else false.

Definition rename_to_backup (target : pyval) : pyval * pyval :=
  (PyStr (u "move_file"),
   PyDict {[ "target" := target;
             "action" := PyStr (u "rename_to_backup");
             "context_action" := PyStr (u "rename_for_deletion") ]}).

Definition move_to_delete_folder (target : pyval) : pyval * pyval :=
  (PyStr (u "move_file"),
   PyDict {[ "target" := target;
             "action" := PyStr (u "move_to_delete_folder");
             "context_action" := PyStr (u "move_for_deletion") ]}).

Definition clear_content (target : pyval) : pyval * pyval :=
  (PyStr (u "write_file"),
   PyDict {[ "target" := target;
             "content" := PyStr [];
             "context_action" := PyStr (u "clear_content") ]}).

(** [_handle_context_reference], from the rename test on: what runs when the
    numeric branch has returned nothing. *)
Definition handle_textual_reference (last_intent last_params : pyval) (user_input : pystr)
    : result (pyval * pyval) :=
  let generic :=
    if any_in [u "да"; u "давай"; u "сделай"; u "выполни"] user_input
       && (truthy last_intent && truthy last_params)
    then Ok (last_intent, last_params)
    else Ok (PyStr (u "general"),
             PyDict {[ "context_reference" := PyBool true;
                       "original_input" := PyStr user_input ]}) in
  if any_in [u "переименуй"; u "rename"] user_input
     && eq_str last_intent (u "delete_file")
  then target ← py_get last_params "target"; Ok (rename_to_backup target)
  else generic.

(** [_handle_context_reference] *)
Definition handle_context_reference (cm : context) (user_input : pystr)
    : result (pyval * pyval) :=
  let last_intent := cm_get cm "last_intent" PyNone in
  let last_params := cm_get cm "last_params" (PyDict ∅) in
  let last_suggestions := cm_get cm "last_suggestions" (PyList []) in
  if in_list user_input numeric_refs then
    n ← py_int user_input;
    let option_num := (n - 1)%Z in
    if eq_str last_intent (u "delete_file") && truthy last_suggestions then
      target_file ← py_get last_params "target";
      if (option_num =? 0)%Z then Ok (rename_to_backup target_file)
      else if (option_num =? 1)%Z then Ok (move_to_delete_folder target_file)
      else if (option_num =? 2)%Z then Ok (clear_content target_file)
      else handle_textual_reference last_intent last_params user_input
    else handle_textual_reference last_intent last_params user_input
  else handle_textual_reference last_intent last_params user_input.

(** [analyze_intent] *)
Definition analyze_intent (cm : context) (user_input : pystr) : result (pyval * pyval) :=
  let user_input_lower := strip (lower user_input) in
  if is_context_reference cm user_input_lower
  then handle_context_reference cm user_input_lower
  else
    match scan_intents intent_patterns user_input_lower with
    | Some r => Ok r
    | None =>
      match analyze_fallback_keywords user_input_lower with
      | Some fallback_intent => Ok fallback_intent
      | None => Ok (PyStr (u "general"), PyDict ∅)
      end
    end.

(** [update_context_memory]: [dict.update] with the three keys. *)
Definition update_context_memory (cm : context) (intent : pystr)
    (params : gmap string pyval) (response : pyval) : context :=
  <[ "last_response" := response ]>
    (<[ "last_params" := PyDict params ]>
      (<[ "last_intent" := PyStr intent ]> cm)).

(** [get_context_memory]: a copy. *)
Definition get_context_memory (cm : context) : context := cm.

(** [clear_context_memory] *)
Definition clear_context_memory (cm : context) : context := ∅.

End IntentAnalyzer.

(** ** The retry decorators ([decorators.py])

    The decorated operation is a function of the state of the world [St]:
    every call gives an outcome and the next state, so an operation that
    fails twice and then succeeds is one whose third state answers.  The
    exceptions handled are those [except Exception] catches.  What the
    wrapper does besides returning is recorded as a trace of events. *)

Module Retry.
Import Re.

(** The outcome of awaiting the operation once. *)
Inductive outcome (E V : Type) :=
  | Return (v : V)
  | Throw (e : E).
Arguments Return {E V} v.
Arguments Throw {E V} e.

(** What a caller of the single-call wrapper observes. *)
Inductive wres (E V : Type) :=
  | Returned (v : V)          (* [return await func(...)] *)
  | ReturnedNone              (* falling off the end of the wrapper *)
  | Raised (e : E).
Arguments Returned {E V} v.
Arguments ReturnedNone {E V}.
Arguments Raised {E V} e.

(** What a consumer of the streaming wrapper observes at its end. *)
Inductive gres (E : Type) :=
  | Finished                  (* the generator is exhausted *)
  | GenRaised (e : E).
Arguments Finished {E}.
Arguments GenRaised {E} e.

(** Events of a run of the single-call wrapper: a call of [func], an
    [asyncio.sleep]. *)
Inductive event :=
  | Call
  | Sleep (secs : Q).

(** Events of a run of the streaming wrapper: those, and an item yielded to
    the consumer. *)
Inductive gen_event (A : Type) :=
  | GenCall
  | GenSleep (secs : Q)
  | Yield (item : A).
Arguments GenCall {A}.
Arguments GenSleep {A} secs.
Arguments Yield {A} item.

(** ["429" in error_text or "ResourceExhausted" in error_text] *)
Definition is_rate_limit (error_text : pystr) : bool :=
  contains (u "429") error_text || contains (u "ResourceExhausted") error_text.

(** [retry_secs]: [int(m.group(1))] when the pattern is found, else [None]. *)
Definition retry_secs (error_text : pystr) : option Z :=
  m ← search "retry_delay\s*{\s*seconds:\s*(\d+)" error_text;
  g ← mjoin (m !! 0%nat);
  digits_value 0 g.

(** [wait_time = retry_secs if retry_secs else delay] *)
Definition wait_time (delay : Q) (error_text : pystr) : Q :=
  match retry_secs error_text with
  | Some n => if (n =? 0)%Z then delay else inject_Z n
  | None => delay
  end.

(** Prefix the trace of a run with earlier events. *)
Definition after {R Ev St} (evs : list Ev) (run : R * list Ev * St) : R * list Ev * St :=
  let '(r, tr, st) := run in (r, evs ++ tr, st).

Section Wrappers.
Context {E St : Type}.

(** [str(e)] *)
Variable str : E -> pystr.

(** The decorator's arguments. *)
Variable max_retries : Z.
Variable delay : Q.

(** *** [retry_on_failure] *)

Section Single.
Context {V : Type}.
Variable func : St -> outcome E V * St.

(** The [for attempt in range(max_retries)] loop with [todo] rounds
    left, followed by the statements after it. *)
Fixpoint attempts (todo : nat) (attempt : Z) (last_exception : option E) (st : St)
    : wres E V * list event * St :=
  match todo with
  | O =>
    match last_exception with
    | Some e => (Raised e, [], st)
    | None => (ReturnedNone, [], st)
    end
  | S todo' =>
    match func st with
    | (Return v, st') => (Returned v, [Call], st')
    | (Throw e, st') =>
      let error_text := str e in
      if is_rate_limit error_text then
        after [Call; Sleep (wait_time delay error_text)]
              (attempts todo' (attempt + 1)%Z (Some e) st')
      else if (attempt <? max_retries - 1)%Z then
        after [Call; Sleep delay] (attempts todo' (attempt + 1)%Z (Some e) st')
      else (Raised e, [Call], st')
    end
  end.

Definition retry_on_failure (st : St) : wres E V * list event * St :=
  attempts (Z.to_nat max_retries) 0%Z None st.
End Single.

(** *** [retry_on_failure_async_gen]

    One call of the decorated function makes a fresh generator; iterating
    it gives the items it yields and then how it ends: exhausted ([None])
    or with an exception. *)

Section Streaming.
Context {A : Type}.
Variable func : St -> (list A * option E) * St.

Fixpoint gen_attempts (todo : nat) (attempt : Z) (last_exception : option E) (st : St)
    : gres E * list (gen_event A) * St :=
  match todo with
  | O =>
    match last_exception with
    | Some e => (GenRaised e, [], st)
    | None => (Finished, [], st)
    end
  | S todo' =>
    match func st with
    | ((items, None), st') => (Finished, GenCall :: map Yield items, st')
    | ((items, Some e), st') =>
      let error_text := str e in
      if is_rate_limit error_text then
        after (GenCall :: map Yield items ++ [GenSleep (wait_time delay error_text)])
              (gen_attempts todo' (attempt + 1)%Z (Some e) st')
      else if (attempt <? max_retries - 1)%Z then
        after (GenCall :: map Yield items ++ [GenSleep delay])
              (gen_attempts todo' (attempt + 1)%Z (Some e) st')
      else (GenRaised e, GenCall :: map Yield items, st')
    end
  end.

Definition retry_on_failure_async_gen (st : St) : gres E * list (gen_event A) * St :=
  gen_attempts (Z.to_nat max_retries) 0%Z None st.
End Streaming.
End Wrappers.

(** The items a run has yielded, in order. *)
Definition yielded {A} (tr : list (gen_event A)) : list A :=
  omap (fun ev => match ev with Yield x => Some x | _ => None end) tr.

(** The sleeps of a run, in order. *)
Definition sleeps (tr : list event) : list Q :=
  omap (fun ev => match ev with Sleep q => Some q | _ => None end) tr.

End Retry.

(** ** The chat history ([rich_chat.py], [display_utils.py]) *)

Module ChatHistory.

(** An entry of [self.history]: the dict [add_to_history] appends. *)
Record entry := Entry {
  entry_timestamp : pystr;
  entry_type : pystr;
  entry_content : pystr
}.

(** [l[start:]]: a negative [start] counts from the end, and both ends are
    clamped to the list. *)
Definition slice_from {X} (start : Z) (l : list X) : list X :=
  let n := Z.of_nat (length l) in
  let i := if (start <? 0)%Z then Z.max (n + start) 0 else Z.min start n in
  drop (Z.to_nat i) l.

(** [RichInteractiveChat.add_to_history]: [now] is what
    [datetime.now().strftime("%H:%M:%S")] gives at the call. *)
Definition add_to_history (show_timestamps : bool) (now : pystr) (history : list entry)
    (content entry_type : pystr) : list entry :=
  let timestamp := if show_timestamps then now else [] in
  let history := history ++ [Entry timestamp entry_type content] in
  if (1000 <? length history)%nat then slice_from (-500) history else history.

(** [str(i)] for a natural number: its decimal digits.  [fuel] bounds the
    number of digits. *)
Fixpoint decimal_digits (fuel : nat) (n : N) (acc : pystr) : pystr :=
  match fuel with
  | O => acc
  | S f =>
    let acc' := (48 + n mod 10) :: acc in
    if n <? 10 then acc' else decimal_digits f (n / 10) acc'
  end.

Definition str_of_N (n : N) : pystr := decimal_digits (S (N.to_nat (N.log2 n))) n [].

(** A row of the table [display_history] prints: its four cells. *)
Record row := Row {
  row_number : pystr;
  row_time : pystr;
  row_type : pystr;
  row_content : pystr
}.

(** What [display_history] prints. *)
Inductive printed :=
  | EmptyNotice                 (* "История пуста" *)
  | HistoryTable (rows : list row).

(** [history[-limit:] if len(history) > limit else history] *)
Definition recent_history (history : list entry) (limit : Z) : list entry :=
  if (limit <? Z.of_nat (length history))%Z then slice_from (- limit) history else history.

(** The content cell: [content[:77] + "..."] when longer than 80. *)
Definition shown_content (content : pystr) : pystr :=
  if (80 <? length content)%nat then take 77 content ++ u "..." else content.

(** The style of the type cell. *)
Definition type_style (entry_type : pystr) : pystr :=
  if PyStr.eqb entry_type (u "user") then u "green"
  else if PyStr.eqb entry_type (u "agent") then u "blue"
  else if PyStr.eqb entry_type (u "error") then u "red"
  else u "white".

(** The rows, numbered from [i] on ([enumerate(recent_history, 1)]). *)
Fixpoint table_rows (i : N) (entries : list entry) : list row :=
  match entries with
  | [] => []
  | e :: rest =>
    let style := type_style (entry_type e) in
    Row (str_of_N i) (entry_timestamp e)
        (u "[" ++ style ++ u "]" ++ entry_type e ++ u "[/" ++ style ++ u "]")
        (shown_content (entry_content e))
      :: table_rows (i + 1) rest
  end.

(** [DisplayUtils.display_history] *)
Definition display_history (history : list entry) (limit : Z) : printed :=
  match history with
  | [] => EmptyNotice
  | _ => HistoryTable (table_rows 1 (recent_history history limit))
  end.

End ChatHistory.

(** ** File icons ([display_utils.py]) *)

Module FileIcons.

(** [s.split(sep)] for a one-character separator; [cur] is the piece being
    read, in reverse. *)
Fixpoint split_on (sep : char) (cur : pystr) (s : pystr) : list pystr :=
  match s with
  | [] => [rev cur]
  | c :: r =>
    if c =? sep then rev cur :: split_on sep [] r
    else split_on sep (c :: cur) r
  end.

(** [filename.lower().split('.')[-1] if '.' in filename else ''] *)
Definition extension (filename : pystr) : pystr :=
  if contains (u ".") filename
  then default [] (last (split_on 46 [] (lower filename)))
  else [].

Definition emoji_map : list (string * string) :=
  [ ("py", "🐍"); ("js", "📜"); ("ts", "📘"); ("json", "📋");
    ("md", "📝"); ("txt", "📄"); ("pdf", "📕"); ("doc", "📘"); ("docx", "📘");
    ("xls", "📊"); ("xlsx", "📊"); ("csv", "📊");
    ("jpg", "🖼️"); ("jpeg", "🖼️"); ("png", "🖼️"); ("gif", "🖼️"); ("svg", "🖼️");
    ("mp4", "🎬"); ("avi", "🎬"); ("mov", "🎬");
    ("mp3", "🎵"); ("wav", "🎵"); ("flac", "🎵");
    ("zip", "📦"); ("rar", "📦"); ("7z", "📦"); ("tar", "📦");
    ("exe", "⚙️"); ("msi", "⚙️"); ("deb", "⚙️"); ("rpm", "⚙️");
    ("html", "🌐"); ("css", "🎨"); ("xml", "📰");
    ("sql", "🗃️"); ("db", "🗃️"); ("sqlite", "🗃️");
    ("log", "📜"); ("cfg", "⚙️"); ("conf", "⚙️"); ("ini", "⚙️") ].

Definition color_map : list (string * string) :=
  [ ("py", "green"); ("js", "yellow"); ("ts", "blue"); ("json", "cyan");
    ("md", "magenta"); ("txt", "white");
    ("jpg", "bright_magenta"); ("jpeg", "bright_magenta"); ("png", "bright_magenta");
    ("mp4", "red"); ("mp3", "bright_green");
    ("zip", "bright_yellow"); ("exe", "bright_red");
    ("html", "bright_blue"); ("css", "bright_cyan");
    ("log", "dim white") ].

(** [table.get(key, dflt)] for a dict literal without repeated keys. *)
Fixpoint table_get (table : list (string * string)) (key : pystr) (dflt : pystr) : pystr :=
  match table with
  | [] => dflt
  | (k, v) :: rest => if PyStr.eqb (u k) key then u v else table_get rest key dflt
  end.

(** [_get_file_emoji] *)
Definition get_file_emoji (filename : pystr) : pystr :=
  table_get emoji_map (extension filename) (u "📄").

(** [_get_file_color] *)
Definition get_file_color (filename : pystr) : pystr :=
  table_get color_map (extension filename) (u "white").

End FileIcons.

(** ** Processing a message ([core/agent.py]) *)

Module Agent.
Import IntentAnalyzer Retry ChatHistory.

(** The exceptions met while a message is processed: a built-in one raised
    by the analyzer's code, [ResourceExhausted] of the API client, or any
    other [Exception] of the agent's stream. *)
Inductive exc (X : Type) :=
  | Builtin (e : pyexc)
  | ResourceExhausted (e : X)
  | OtherException (e : X).
Arguments Builtin {X} e.
Arguments ResourceExhausted {X} e.
Arguments OtherException {X} e.

(** What the generator yields: the dict [{"error": message}], or a chunk of
    the agent's stream. *)
Inductive chunk (C : Type) :=
  | ErrorChunk (message : pystr)
  | AgentChunk (c : C).
Arguments ErrorChunk {C} message.
Arguments AgentChunk {C} c.

Definition file_intents : list pystr :=
  [u "read_file"; u "write_file"; u "delete_file"; u "refactor_file"; u "move_file"].

Definition invalid_keywords : list pystr :=
  [u "исправь"; u "поправь"; u "улучши"; u "создай"; u "удали"; u "прочитай"; u "покажи"].

(** [target and target in invalid_keywords] *)
Definition is_invalid_target (target : pyval) : bool :=
  truthy target && existsb (eq_str target) invalid_keywords.

(** The check of the parameters: whether the message is refused.
    [params.get] is what can raise here. *)
Definition refuses (intent params : pyval) : result bool :=
  if existsb (eq_str intent) file_intents then
    target ← py_get params "target";
    Ok (is_invalid_target target)
  else Ok false.

Definition newline : pystr := [10].

(** [wait_hint]: [retry_secs] is [None] or an [int] that is not negative. *)
Definition wait_hint (error_text : pystr) : pystr :=
  match retry_secs error_text with
  | Some n =>
    if (n =? 0)%Z then u "Пожалуйста, подождите немного и повторите попытку."
    else u "Пожалуйста, подождите примерно " ++ str_of_N (Z.to_N n)
           ++ u " секунд и повторите попытку."
  | None => u "Пожалуйста, подождите немного и повторите попытку."
  end.

Definition friendly_error (error_text : pystr) : pystr :=
  u "😔 **Превышены лимиты API Gemini (ошибка 429)**" ++ newline ++ newline
  ++ wait_hint error_text ++ newline ++ newline
  ++ u "Подробнее о квотах: https://ai.google.dev/gemini-api/docs/rate-limits".

Section ProcessMessage.
Context {X C St : Type}.

(** [str(e)] *)
Variable str : exc X -> pystr.

(** [self._create_enhanced_context(user_input, intent, params)]: the text
    handed to the agent, built from the tools the MCP servers announce. *)
Variable create_enhanced_context : pystr -> pyval -> pyval -> St -> outcome (exc X) pystr * St.

(** [self.agent.astream(message_input, config)] for an input text and a
    thread id: the chunks it yields and how it ends. *)
Variable astream : pystr -> pystr -> St -> (list C * option (exc X)) * St.

(** The two [except] clauses of [process_message]. *)
Definition on_exception (e : exc X) : chunk C :=
  match e with
  | ResourceExhausted _ => ErrorChunk (friendly_error (str e))
  | _ => ErrorChunk (u "❌ Ошибка обработки: " ++ str e)
  end.

(** The generator [process_message] before it is decorated: the chunks it
    yields and how it ends.  [ready] is [self.is_ready], [cm] the context
    memory of [self.intent_analyzer]. *)
Definition process_message_body (ready : bool) (cm : context) (user_input thread_id : pystr)
    (st : St) : (list (chunk C) * option (exc X)) * St :=
  if negb ready then
    (([ErrorChunk (u "Агент не готов. Попробуйте переинициализировать.")], None), st)
  else
    match analyze_intent cm user_input with
    | Raise e => (([on_exception (Builtin e)], None), st)
    | Ok (intent, params) =>
      match refuses intent params with
      | Raise e => (([on_exception (Builtin e)], None), st)
      | Ok true =>
        (([ErrorChunk (u "Я не смог определить корректное имя файла в вашем запросе. Пожалуйста, уточните, с каким файлом нужно работать.")],
          None), st)
      | Ok false =>
        match create_enhanced_context user_input intent params st with
        | (Throw e, st') => (([on_exception e], None), st')
        | (Return enhanced_input, st') =>
          match astream enhanced_input thread_id st' with
          | ((chunks, None), st'') => ((map AgentChunk chunks, None), st'')
          | ((chunks, Some e), st'') =>
            ((map AgentChunk chunks ++ [on_exception e], None), st'')
          end
        end
      end
    end.

(** [process_message] as the class has it, under
    [@retry_on_failure_async_gen()]: two attempts, a delay of a second. *)
Definition process_message (ready : bool) (cm : context) (user_input thread_id : pystr)
    (st : St) : gres (exc X) * list (gen_event (chunk C)) * St :=
  retry_on_failure_async_gen str 2%Z 1%Q
    (process_message_body ready cm user_input thread_id) st.

End ProcessMessage.

End Agent.

(** ** The system prompt ([core/prompt_manager.py]) *)

Module PromptManager.

(** [s.replace(old, new)] for a non-empty [old]: the occurrences of [old]
    are found from left to right and do not overlap.  [skip] counts the
    characters of a replaced occurrence that are still to be passed. *)
Fixpoint replace_from (old new : pystr) (skip : nat) (s : pystr) : pystr :=
  match s with
  | [] => []
  | c :: r =>
    match skip with
    | S k => replace_from old new k r
    | O =>
      if startswith old s then new ++ replace_from old new (length old - 1) r
      else c :: replace_from old new O r
    end
  end.

Definition replace (old new s : pystr) : pystr := replace_from old new O s.

(** [_generate_tools_description]: [tool_analyzer] is the description the
    analyzer generates, when the manager has one. *)
Definition generate_tools_description (tool_analyzer : option pystr) : pystr :=
  match tool_analyzer with
  | Some description => description
  | None => u "Инструменты не загружены или недоступны."
  end.

(** [_get_default_prompt] *)
Definition get_default_prompt (filesystem_path : pystr) (tool_analyzer : option pystr) : pystr :=
  let tools_description := generate_tools_description tool_analyzer in
  u "Ты умный AI-ассистент с доступом к различным инструментам.

РАБОЧАЯ ДИРЕКТОРИЯ: " ++ filesystem_path ++ u "
Все файловые операции выполняются относительно этой директории.

ДОСТУПНЫЕ ИНСТРУМЕНТЫ:
" ++ tools_description ++ u "

ПРАВИЛА РАБОТЫ:
1. Анализируй запрос пользователя и определяй нужную операцию
2. Используй ТОЛЬКО предоставленные инструменты из списка выше
3. Автоматически выбирай подходящий инструмент на основе его названия и описания
4. По умолчанию используй относительные пути; абсолютные указывай только если это требуется (например, для Excel файлов)
5. При создании файлов с содержимым используй соответствующие параметры
6. Если путь не указан явно, работай в текущей рабочей директории
7. Адаптируйся к доступным инструментам - если нет конкретного инструмента, найди альтернативу
8. НЕ ВЫДУМЫВАЙ несуществующие инструменты или команды

ФОРМАТ ОТВЕТА:
- Кратко подтверди выполненное действие
- При ошибках объясни причину и предложи решение
- Для сложных операций опиши что делаешь пошагово".

(** [_load_prompt_from_file]: [prompt_file] is the text of the file, [None]
    when it does not exist or cannot be read. *)
Definition load_prompt_from_file (prompt_file : option pystr) (filesystem_path : pystr)
    (tool_analyzer : option pystr) : pystr :=
  match prompt_file with
  | None => get_default_prompt filesystem_path tool_analyzer
  | Some prompt_template =>
    let tools_description := generate_tools_description tool_analyzer in
    let prompt := replace (u "{filesystem_path}") filesystem_path prompt_template in
    replace (u "{tools_description}") tools_description prompt
  end.

(** [get_system_prompt], [reload_prompt] *)
Definition get_system_prompt := load_prompt_from_file.
Definition reload_prompt := load_prompt_from_file.

End PromptManager.

(** * Notions the properties are stated with *)

(** Notions of the properties of strings. *)
Module PyStrNotions.

(** The whitespace characters. *)
Definition space_chars : list char :=
  [9; 10; 11; 12; 13; 28; 29; 30; 31; 32; 133; 160; 5760;
   8192; 8193; 8194; 8195; 8196; 8197; 8198; 8199; 8200; 8201; 8202;
   8232; 8233; 8239; 8287; 12288].

(** Whitespace is left alone by [lower], and is neither cased nor
    case-ignorable. *)
Definition plain_space (c : char) : bool :=
  negb (c =? 931) && negb (c =? 304)
  && match table_lookup lower_table c with None => true | Some _ => false end
  && negb (is_case_ignorable c) && negb (is_cased c).

(** What [lower] gives is left alone by [lower]: it is no capital sigma and
    has no lower-case mapping of its own. *)
Definition fixed (d : char) : bool :=
  negb (d =? 931) && negb (d =? 304)
  && match table_lookup lower_table d with None => true | Some _ => false end.

(** What is checked of an entry of the table of lower-case mappings. *)
Definition lowered_ok (entry : N * N) : bool :=
  let '(c, l) := entry in
  fixed l && negb (is_space l) && negb (l =? 46) && negb (is_space c) && negb (c =? 46)
  && negb (c =? 304).

(** A range that holds no whitespace. *)
Definition no_space_between (range : N * N) : bool :=
  let '(lo, hi) := range in forallb (fun w => (w <? lo) || (hi <? w)) space_chars.

(** A table whose keys are written in ASCII. *)
Definition ascii_keys (table : list (string * string)) : bool :=
  forallb (fun entry => forallb (fun c => c <? 128) (u (fst entry))) table.

End PyStrNotions.

Module ReSpec.
Import Re.

(** What a successful match hands to its continuation has as many group
    slots as it started with. *)
Definition keeps_slots {A}
    (body : pystr -> captures -> (pystr -> captures -> option A) -> option A) : Prop :=
  forall s caps k a, body s caps k = Some a ->
    exists s' caps', length caps' = length caps /\ k s' caps' = Some a.

End ReSpec.

Module AnalyzerSpec.
Import Re IntentAnalyzer.

(** *** States of the context memory *)

(** A pending deletion with suggestions on record. *)
Definition pending_delete : context :=
  {[ "last_intent" := PyStr (u "delete_file");
     "last_params" := PyDict {[ "target" := PyStr (u "a.txt") ]};
     "last_suggestions" := PyList [PyStr (u "x"); PyStr (u "y"); PyStr (u "z")];
     "last_response" := PyNone ]}.

(** The states the memory can be in: empty at construction, then changed by
    [update_context_memory] and [clear_context_memory] only. *)
Inductive reachable : context -> Prop :=
  | reach_init : reachable ∅
  | reach_update cm intent params response :
      reachable cm -> reachable (update_context_memory cm intent params response)
  | reach_clear cm :
      reachable cm -> reachable (clear_context_memory cm).

(** The entry as the specification reads it: nothing recorded, or all four
    fields recorded. *)
Definition fully_empty (cm : context) : Prop :=
  cm !! "last_intent" = None /\ cm !! "last_params" = None
  /\ cm !! "last_suggestions" = None /\ cm !! "last_response" = None.

Definition fully_populated (cm : context) : Prop :=
  is_Some (cm !! "last_intent") /\ is_Some (cm !! "last_params")
  /\ is_Some (cm !! "last_suggestions") /\ is_Some (cm !! "last_response").

(** The entry as the code keeps it: the three fields [update_context_memory]
    writes, and no suggestions. *)
Definition recorded_turn (cm : context) : Prop :=
  is_Some (cm !! "last_intent") /\ is_Some (cm !! "last_params")
  /\ is_Some (cm !! "last_response") /\ cm !! "last_suggestions" = None.

(** The state after one recorded turn. *)
Definition one_turn : context :=
  update_context_memory ∅ (u "delete_file") {[ "target" := PyStr (u "a.txt") ]} PyNone.

(** [last_params], when recorded, is a dict: what the annotation
    [params: Dict[str, Any]] of [update_context_memory] asks of its callers. *)
Definition params_typed (cm : context) : Prop :=
  forall v, cm !! "last_params" = Some v -> exists d, v = PyDict d.

(** A pending deletion whose recorded parameters are [None]. *)
Definition untyped_params : context :=
  {[ "last_intent" := PyStr (u "delete_file"); "last_params" := PyNone ]}.

(** *** Rules and targets *)

(** The table as the two nested loops visit it: each pattern with the
    intent it is listed under, in the order written. *)
Definition rules (table : list (string * list string)) : list (string * string) :=
  flat_map (fun entry => map (pair (fst entry)) (snd entry)) table.

(** The first rule of a list whose pattern is found in [x]. *)
Fixpoint scan_rules (l : list (string * string)) (x : pystr) : option (pyval * pyval) :=
  match l with
  | [] => None
  | (intent, pattern) :: rest =>
    match search pattern x with
    | Some groups => Some (on_match intent groups x)
    | None => scan_rules rest x
    end
  end.

(** A group that has captured at least one character. *)
Definition is_nonempty (g : option pystr) : bool :=
  match g with
  | Some (_ :: _) => true
  | _ => false
  end.

(** The target as the specification words it: the first non-empty group,
    the groups being scanned in reverse order. *)
Definition spec_target (groups : captures) : option pystr :=
  mjoin (find is_nonempty (rev groups)).

End AnalyzerSpec.

Module RetrySpec.
Import Re Retry.

(** The pattern the wrappers look for in the text of an error. *)
Definition retry_re : regex :=
  Eval vm_compute in
    match compile (u "retry_delay\s*{\s*seconds:\s*(\d+)") with
    | Some (r, _) => r
    | None => REmpty
    end.

(** The text holds "retry_delay { seconds: 5 }", and "retry_delay" does not
    occur before it: it is the first such clause of the text. *)
Definition suggests_five_seconds (error_text : pystr) : Prop :=
  exists before rest,
    error_text = before ++ u "retry_delay { seconds: 5 }" ++ rest
    /\ contains (u "retry_delay") (before ++ u "retry_dela") = false.

Section Failures.
Context {E V A St : Type}.

(** The first [n] calls from [st] all raise: the exceptions, in order, and
    the state they leave. *)
Fixpoint all_fail (func : St -> outcome E V * St) (n : nat) (st : St) : option (list E * St) :=
  match n with
  | O => Some ([], st)
  | S k =>
    match func st with
    | (Throw e, st') =>
      match all_fail func k st' with
      | Some (errs, st'') => Some (e :: errs, st'')
      | None => None
      end
    | (Return _, _) => None
    end
  end.

(** The first [n] generators made from [st] all raise: for each, the items
    it yields before raising and the exception; and the state they leave. *)
Fixpoint gen_all_fail (func : St -> (list A * option E) * St) (n : nat) (st : St) : option (list (list A * E) * St) :=
  match n with
  | O => Some ([], st)
  | S k =>
    match func st with
    | ((items, Some e), st') =>
      match gen_all_fail func k st' with
      | Some (atts, st'') => Some ((items, e) :: atts, st'')
      | None => None
      end
    | ((_, None), _) => None
    end
  end.

End Failures.

(** A concrete operation: the state counts the calls made; the first two
    are refused for quota, the third answers. *)
Definition quota_error : pystr :=
  u "429 Resource has been exhausted. retry_delay { seconds: 5 }".

Definition flaky (calls : nat) : outcome pystr nat * nat :=
  (if (calls <? 2)%nat then Throw quota_error else Return 42%nat, S calls).

Definition text_of (e : pystr) : pystr := e.

(** A concrete stream: the sequence is 1, 2; the first generator breaks
    after the 1, the second runs to its end. *)
Definition broken_stream (calls : nat) : (list nat * option pystr) * nat :=
  (if (calls <? 1)%nat then ([1%nat], Some (u "connection reset"))
   else ([1%nat; 2%nat], None), S calls).

End RetrySpec.

Module AnalyzerNotions.
Import Re IntentAnalyzer.

(** The answer to a reference that could not be resolved. *)
Definition unresolved_reference (user_input : pystr) : pyval * pyval :=
  (PyStr (u "general"),
   PyDict {[ "context_reference" := PyBool true;
             "original_input" := PyStr user_input ]}).

(** The ordinal phrases among the context keywords. *)
Definition ordinal_phrases : list pystr :=
  [ u "первый"; u "второй"; u "третий"; u "четвертый"; u "пятый";
    u "первый вариант"; u "второй вариант"; u "третий вариант" ].

(** The affirmations among the context keywords. *)
Definition affirmations : list pystr :=
  [ u "да"; u "давай"; u "сделай это"; u "выполни" ].

(** The intents the pattern table and the keyword table can give. *)
Definition classifier_intents : list string :=
  [ "refactor_file"; "create_file"; "create_directory"; "list_directory";
    "read_file"; "delete_file"; "search"; "web_search"; "general" ].

(** A state whose last turn read a file. *)
Definition reading_turn : context :=
  update_context_memory ∅ (u "read_file") {[ "target" := PyStr (u "notes.txt") ]} PyNone.

End AnalyzerNotions.

Module RetryNotions.
Import Re Retry.

(** The calls of [func] in a run of the single-call wrapper. *)
Definition calls (tr : list event) : nat :=
  length (List.filter (fun ev => match ev with Call => true | _ => false end) tr).

(** The calls of [func] in a run of the streaming wrapper. *)
Definition gen_calls {A} (tr : list (gen_event A)) : nat :=
  length (List.filter (fun ev => match ev with GenCall => true | _ => false end) tr).

(** The sleep that follows a failure which is retried. *)
Definition pause (delay : Q) (error_text : pystr) : Q :=
  if is_rate_limit error_text then wait_time delay error_text else delay.

(** The trace of failures that are each slept on, for the texts of their
    errors. *)
Definition retried (delay : Q) (texts : list pystr) : list event :=
  flat_map (fun text => [Call; Sleep (pause delay text)]) texts.

(** Does the text go on with a decimal digit? *)
Definition starts_with_digit (s : pystr) : bool :=
  match s with
  | c :: _ => is_digit c
  | [] => false
  end.

(** The text of an error carries a rate-limit signature. *)
Definition rate_limit_signature (error_text : pystr) : Prop :=
  contains (u "429") error_text = true
  \/ contains (u "ResourceExhausted") error_text = true.

(** The first "retry_delay" clause of the text suggests [n] seconds: the
    text holds "retry_delay { seconds: " and then a run of decimal digits
    that write [n], and "retry_delay" does not occur before that. *)
Definition suggests_seconds (error_text : pystr) (n : Z) : Prop :=
  exists before ds rest,
    error_text = before ++ u "retry_delay { seconds: " ++ ds ++ rest
    /\ contains (u "retry_delay") (before ++ u "retry_dela") = false
    /\ ds <> []
    /\ forallb is_digit ds = true
    /\ starts_with_digit rest = false
    /\ digits_value 0 ds = Some n.

(** An operation that always fails, with an error that is no rate limit. *)
Definition always_down (calls : nat) : outcome pystr nat * nat :=
  (Throw (u "connection refused"), S calls).

End RetryNotions.

(** Templates of the system prompt. *)
Module PromptNotions.
Import PromptManager.

(** A template written with the two placeholders: its pieces in order. *)
Inductive piece :=
  | Text (t : pystr)
  | WorkingDirectory        (* "{filesystem_path}" *)
  | ToolsList.              (* "{tools_description}" *)

(** A text without an opening brace. *)
Definition plain (t : pystr) : bool := forallb (fun c => negb (c =? 123)) t.

Definition plain_piece (p : piece) : bool :=
  match p with
  | Text t => plain t
  | _ => true
  end.

(** The text of the template. *)
Definition written (p : piece) : pystr :=
  match p with
  | Text t => t
  | WorkingDirectory => u "{filesystem_path}"
  | ToolsList => u "{tools_description}"
  end.

Definition template_of (pieces : list piece) : pystr := concat (map written pieces).

(** The prompt wanted from it. *)
Definition filled (filesystem_path tools_description : pystr) (p : piece) : pystr :=
  match p with
  | Text t => t
  | WorkingDirectory => filesystem_path
  | ToolsList => tools_description
  end.

Definition prompt_of (filesystem_path tools_description : pystr) (pieces : list piece) : pystr :=
  concat (map (filled filesystem_path tools_description) pieces).

(** The pieces once the working directory is put in. *)
Definition path_filled (filesystem_path : pystr) (p : piece) : piece :=
  match p with
  | WorkingDirectory => Text filesystem_path
  | _ => p
  end.

End PromptNotions.

(** * Properties of the strings *)

Module PyStrProps.
Import PyStrNotions.

(** *** Tables *)

Lemma in_ranges_true (ranges : list (N * N)) (c : char) :
  in_ranges ranges c = true -> exists lo hi, In (lo, hi) ranges /\ lo <= c <= hi.
Proof.
  induction ranges as [|[lo hi] rest IH]; [discriminate|]. cbn [in_ranges].
  destruct (N.ltb_spec c lo); [discriminate|].
  destruct (N.leb_spec c hi).
  - intros _. exists lo, hi. split; [left; reflexivity | lia].
  - intros H1. destruct (IH H1) as (lo' & hi' & Hin & Hc).
    exists lo', hi'. split; [right; exact Hin | exact Hc].
Qed.

Lemma range_start_in_ranges (ranges : list (N * N)) (c : char) :
  in_ranges ranges c = true -> exists lo, range_start ranges c = Some lo.
Proof.
  induction ranges as [|[lo hi] rest IH]; [discriminate|]. cbn [in_ranges range_start].
  destruct (c <? lo); [discriminate|]. destruct (c <=? hi); [eauto | exact IH].
Qed.

Lemma range_start_some (ranges : list (N * N)) (c lo : char) :
  range_start ranges c = Some lo -> in_ranges ranges c = true.
Proof.
  induction ranges as [|[lo' hi] rest IH]; [discriminate|]. cbn [in_ranges range_start].
  destruct (c <? lo'); [discriminate|]. destruct (c <=? hi); [reflexivity | exact IH].
Qed.

Lemma table_lookup_In (table : list (N * N)) (c l : char) :
  table_lookup table c = Some l -> In (c, l) table.
Proof.
  induction table as [|[k v] rest IH]; [discriminate|]. cbn [table_lookup].
  destruct (c <? k); [discriminate|]. destruct (N.eqb_spec c k) as [->|_].
  - intros [= ->]. left. reflexivity.
  - intros H. right. exact (IH H).
Qed.

(** A property that a check establishes for every entry of a table. *)
Lemma forallb_In {X} (check : X -> bool) (l : list X) (x : X) :
  forallb check l = true -> In x l -> check x = true.
Proof. intros H Hin. rewrite forallb_forall in H. exact (H x Hin). Qed.

(** *** Whitespace *)

Lemma existsb_In (c : char) (l : list char) : existsb (N.eqb c) l = true -> In c l.
Proof.
  intros H. apply existsb_exists in H as (x & Hin & Hx).
  apply N.eqb_eq in Hx. subst x. exact Hin.
Qed.

Lemma is_space_cases (c : char) : is_space c = true -> In c space_chars.
Proof.
  unfold is_space. intros H.
  repeat match type of H with
  | (_ || _) = true => apply orb_true_iff in H as [H|H]
  end;
  repeat match type of H with
  | (_ && _) = true =>
    let H1 := fresh in apply andb_true_iff in H as [H H1]; apply N.leb_le in H1
  end;
  try apply N.leb_le in H; try apply N.eqb_eq in H.
  - assert (E : c = 9 \/ c = 10 \/ c = 11 \/ c = 12 \/ c = 13) by lia.
    repeat (destruct E as [->|E]; [apply existsb_In; reflexivity|]).
    subst c. apply existsb_In. reflexivity.
  - assert (E : c = 28 \/ c = 29 \/ c = 30 \/ c = 31 \/ c = 32) by lia.
    repeat (destruct E as [->|E]; [apply existsb_In; reflexivity|]).
    subst c. apply existsb_In. reflexivity.
  - subst c. apply existsb_In. reflexivity.
  - subst c. apply existsb_In. reflexivity.
  - subst c. apply existsb_In. reflexivity.
  - assert (E : c = 8192 \/ c = 8193 \/ c = 8194 \/ c = 8195 \/ c = 8196 \/ c = 8197
                \/ c = 8198 \/ c = 8199 \/ c = 8200 \/ c = 8201 \/ c = 8202) by lia.
    repeat (destruct E as [->|E]; [apply existsb_In; reflexivity|]).
    subst c. apply existsb_In. reflexivity.
  - subst c. apply existsb_In. reflexivity.
  - subst c. apply existsb_In. reflexivity.
  - subst c. apply existsb_In. reflexivity.
  - subst c. apply existsb_In. reflexivity.
  - subst c. apply existsb_In. reflexivity.
Qed.

Lemma space_is_plain (c : char) : is_space c = true -> plain_space c = true.
Proof.
  intros H. apply (forallb_In plain_space space_chars); [vm_compute; reflexivity|].
  apply is_space_cases, H.
Qed.

Lemma space_lower (c : char) :
  is_space c = true ->
  c <> 931 /\ to_lower_full c = [c] /\ is_case_ignorable c = false /\ is_cased c = false.
Proof.
  intros H. apply space_is_plain in H. unfold plain_space in H.
  apply andb_true_iff in H as [H Hcased]. apply andb_true_iff in H as [H Hign].
  apply andb_true_iff in H as [H Htab]. apply andb_true_iff in H as [Hsig H304].
  apply negb_true_iff in Hcased, Hign, Hsig, H304. apply N.eqb_neq in Hsig.
  unfold to_lower_full. rewrite H304.
  destruct (table_lookup lower_table c); [discriminate|]. auto.
Qed.

(** *** The case mapping *)

Lemma lower_table_ok : forallb lowered_ok lower_table = true.
Proof. vm_compute. reflexivity. Qed.

Lemma fixed_lower (d : char) : fixed d = true -> d <> 931 /\ to_lower_full d = [d].
Proof.
  unfold fixed, to_lower_full. intros H.
  apply andb_true_iff in H as [H H2]. apply andb_true_iff in H as [H0 H1].
  apply negb_true_iff in H0, H1. rewrite H1. apply N.eqb_neq in H0.
  destruct (table_lookup lower_table d); [discriminate|]. auto.
Qed.

(** The characters [to_lower_full] gives for [c]: [c] itself, or what a
    check of the table covers. *)
Lemma to_lower_full_cases (c : char) :
  to_lower_full c = [c] /\ table_lookup lower_table c = None /\ c <> 304
  \/ c = 304 /\ to_lower_full c = [105; 775]
  \/ exists l, to_lower_full c = [l] /\ lowered_ok (c, l) = true.
Proof.
  unfold to_lower_full. destruct (N.eqb_spec c 304) as [->|Hc]; [right; left; auto|].
  destruct (table_lookup lower_table c) as [l|] eqn:El; [|left; auto].
  right. right. exists l. split; [reflexivity|].
  apply (forallb_In lowered_ok lower_table); [exact lower_table_ok|].
  apply table_lookup_In, El.
Qed.

Lemma to_lower_full_fixed (c : char) :
  c <> 931 -> Forall (fun d => fixed d = true) (to_lower_full c).
Proof.
  intros Hc. destruct (to_lower_full_cases c) as [(-> & Hn & H304) | [(-> & ->) | (l & -> & Hl)]].
  - constructor; [|constructor]. unfold fixed. rewrite Hn.
    apply N.eqb_neq in Hc, H304. rewrite Hc, H304. reflexivity.
  - repeat constructor.
  - constructor; [|constructor]. unfold lowered_ok in Hl.
    do 5 (apply andb_true_iff in Hl as [Hl _]). exact Hl.
Qed.

Lemma to_lower_full_space (c : char) :
  is_space c = false -> Forall (fun d => is_space d = false) (to_lower_full c).
Proof.
  intros Hc. destruct (to_lower_full_cases c) as [(-> & _) | [(-> & ->) | (l & -> & Hl)]].
  - constructor; [exact Hc | constructor].
  - repeat constructor.
  - constructor; [|constructor]. unfold lowered_ok in Hl.
    do 4 (apply andb_true_iff in Hl as [Hl _]). apply andb_true_iff in Hl as [_ Hl].
    apply negb_true_iff. exact Hl.
Qed.

Lemma to_lower_full_dot (c : char) : In 46 (to_lower_full c) -> c = 46.
Proof.
  destruct (to_lower_full_cases c) as [(-> & _) | [(-> & ->) | (l & -> & Hl)]].
  - intros [H|[]]. exact H.
  - simpl. intros [H|[H|[]]]; discriminate H.
  - intros [H|[]]. subst l. unfold lowered_ok in Hl.
    do 3 (apply andb_true_iff in Hl as [Hl _]). apply andb_true_iff in Hl as [_ Hl].
    discriminate Hl.
Qed.

Lemma to_lower_full_nonempty (c : char) : to_lower_full c <> [].
Proof.
  unfold to_lower_full. destruct (c =? 304); [discriminate|].
  destruct (table_lookup lower_table c); discriminate.
Qed.

(** *** [lower] *)

Lemma lower_from_cons (b : bool) (c : char) (r : pystr) :
  lower_from b (c :: r)
  = (if c =? 931 then [if b && negb (cased_follows r) then 962 else 963]
     else to_lower_full c)
    ++ lower_from (if is_case_ignorable c then b else is_cased c) r.
Proof. reflexivity. Qed.

(** The characters one step of [lower_from] gives. *)
Lemma lower_step_fixed (b : bool) (c : char) (r : pystr) :
  Forall (fun d => fixed d = true)
    (if c =? 931 then [if b && negb (cased_follows r) then 962 else 963]
     else to_lower_full c).
Proof.
  destruct (N.eqb_spec c 931) as [_|Hc]; [|exact (to_lower_full_fixed c Hc)].
  constructor; [|constructor]. destruct (b && negb (cased_follows r)); vm_compute; reflexivity.
Qed.

Lemma lower_from_out (s : pystr) :
  forall b, Forall (fun d => fixed d = true) (lower_from b s).
Proof.
  induction s as [|c r IH]; intros b; [constructor|].
  rewrite lower_from_cons. apply Forall_app. split; [apply lower_step_fixed | apply IH].
Qed.

Lemma lower_from_fixed (s : pystr) :
  Forall (fun d => fixed d = true) s -> forall b, lower_from b s = s.
Proof.
  induction 1 as [|d r Hd _ IH]; intros b; [reflexivity|].
  rewrite lower_from_cons. destruct (fixed_lower d Hd) as [Hne ->].
  apply N.eqb_neq in Hne. rewrite Hne. cbn [app]. f_equal. apply IH.
Qed.

Lemma lower_idem (s : pystr) : lower (lower s) = lower s.
Proof. unfold lower. apply lower_from_fixed, lower_from_out. Qed.

(** Whitespace in front. *)
Lemma lower_from_space (b : bool) (w : char) (r : pystr) :
  is_space w = true -> lower_from b (w :: r) = w :: lower_from false r.
Proof.
  intros Hw. destruct (space_lower w Hw) as (Hne & Hl & Hi & Hc).
  rewrite lower_from_cons, Hl, Hi, Hc. apply N.eqb_neq in Hne. rewrite Hne. reflexivity.
Qed.

(** What is in front of a lowered string that begins with no whitespace. *)
Lemma lower_from_head (b : bool) (c : char) (r : pystr) :
  is_space c = false ->
  match lower_from b (c :: r) with [] => False | d :: _ => is_space d = false end.
Proof.
  intros Hc. rewrite lower_from_cons.
  destruct (N.eqb_spec c 931) as [_|_].
  - cbn [app]. destruct (b && negb (cased_follows r)); reflexivity.
  - pose proof (to_lower_full_space c Hc) as Hs.
    pose proof (to_lower_full_nonempty c) as Hn.
    destruct (to_lower_full c) as [|d l]; [contradiction|].
    cbn [app]. exact (List.Forall_inv Hs).
Qed.

Lemma lstrip_lower (s : pystr) : lstrip (lower s) = lower (lstrip s).
Proof.
  unfold lower. induction s as [|c r IH]; [reflexivity|].
  cbn [lstrip]. destruct (is_space c) eqn:Hc.
  - rewrite (lower_from_space false c r Hc). cbn [lstrip]. rewrite Hc. exact IH.
  - pose proof (lower_from_head false c r Hc) as H.
    destruct (lower_from false (c :: r)) as [|d l]; [contradiction|].
    cbn [lstrip]. rewrite H. reflexivity.
Qed.

(** Whitespace behind. *)
Lemma cased_follows_snoc_space (r : pystr) (w : char) :
  is_space w = true -> cased_follows (r ++ [w]) = cased_follows r.
Proof.
  intros Hw. destruct (space_lower w Hw) as (_ & _ & Hi & Hc).
  induction r as [|c r IH]; cbn [app cased_follows].
  - rewrite Hi, Hc. reflexivity.
  - rewrite IH. reflexivity.
Qed.

Lemma lower_from_snoc_space (r : pystr) (w : char) :
  is_space w = true -> forall b, lower_from b (r ++ [w]) = lower_from b r ++ [w].
Proof.
  intros Hw. induction r as [|c r IH]; intros b.
  - cbn [app]. rewrite (lower_from_space b w [] Hw). reflexivity.
  - rewrite <- app_comm_cons, !lower_from_cons, IH, cased_follows_snoc_space by exact Hw.
    rewrite app_assoc. reflexivity.
Qed.

(** What is at the end of a lowered string that ends with no whitespace. *)
Lemma lower_from_last (r : pystr) (c : char) :
  is_space c = false ->
  forall b, exists l d, lower_from b (r ++ [c]) = l ++ [d] /\ is_space d = false.
Proof.
  intros Hc. induction r as [|x r IH]; intros b.
  - cbn [app]. rewrite lower_from_cons. cbn [lower_from]. rewrite app_nil_r.
    destruct (N.eqb_spec c 931) as [_|_].
    + exists []. eexists. split; [reflexivity|].
      destruct (b && negb (cased_follows [])); reflexivity.
    + pose proof (to_lower_full_space c Hc) as Hs.
      pose proof (to_lower_full_nonempty c) as Hn.
      destruct (exists_last Hn) as (l & d & E). rewrite E in Hs |- *.
      exists l, d. split; [reflexivity|].
      apply Forall_app in Hs as [_ Hs]. exact (List.Forall_inv Hs).
  - rewrite <- app_comm_cons, lower_from_cons.
    destruct (IH (if is_case_ignorable x then b else is_cased x)) as (l & d & -> & Hd).
    eexists. exists d. split; [|exact Hd]. rewrite app_assoc. reflexivity.
Qed.

Lemma rstrip_snoc_space (r : pystr) (w : char) :
  is_space w = true -> rstrip (r ++ [w]) = rstrip r.
Proof. intros Hw. unfold rstrip. rewrite rev_unit. cbn [lstrip]. rewrite Hw. reflexivity. Qed.

Lemma rstrip_snoc (l : pystr) (d : char) : is_space d = false -> rstrip (l ++ [d]) = l ++ [d].
Proof.
  intros Hd. unfold rstrip. rewrite rev_unit. cbn [lstrip]. rewrite Hd.
  change (d :: rev l) with ([d] ++ rev l). rewrite rev_app_distr, rev_involutive. reflexivity.
Qed.

Lemma rstrip_lower_from (s : pystr) :
  forall b, rstrip (lower_from b s) = lower_from b (rstrip s).
Proof.
  induction s as [|c r IH] using rev_ind; intros b; [reflexivity|].
  destruct (is_space c) eqn:Hc.
  - rewrite (lower_from_snoc_space r c Hc), !rstrip_snoc_space by exact Hc. apply IH.
  - destruct (lower_from_last r c Hc b) as (l & d & E & Hd).
    rewrite (rstrip_snoc r c Hc), E. apply rstrip_snoc, Hd.
Qed.

Lemma strip_lower (s : pystr) : strip (lower s) = lower (strip s).
Proof. unfold strip. rewrite lstrip_lower. unfold lower. apply rstrip_lower_from. Qed.

(** *** Digits *)

Lemma digit_not_space (c : char) : is_digit c = true -> is_space c = false.
Proof.
  intros H. destruct (is_space c) eqn:Hs; [|reflexivity].
  apply in_ranges_true in H as (lo & hi & Hin & Hc).
  assert (Hr : no_space_between (lo, hi) = true).
  { apply (forallb_In no_space_between digit_ranges); [vm_compute; reflexivity | exact Hin]. }
  apply is_space_cases in Hs. cbn [no_space_between] in Hr.
  pose proof (forallb_In _ _ c Hr Hs) as Hx. cbn beta in Hx.
  apply orb_true_iff in Hx as [Hx|Hx]; apply N.ltb_lt in Hx; lia.
Qed.

Lemma is_digit_value (c : char) : is_digit c = true -> exists d, digit_value c = Some d.
Proof.
  intros H. unfold digit_value.
  destruct (range_start_in_ranges digit_ranges c H) as [lo ->]. eauto.
Qed.

Lemma digit_value_is_digit (c : char) (d : N) : digit_value c = Some d -> is_digit c = true.
Proof.
  unfold digit_value, is_digit.
  destruct (range_start digit_ranges c) as [lo|] eqn:E; [|discriminate].
  intros _. exact (range_start_some _ _ _ E).
Qed.

End PyStrProps.

(** * Properties of the matcher *)

Module ReProps.
Import Re ReSpec.

Section Captures.
Context {A : Type}.

Lemma iterate_keeps_slots body fuel :
  @keeps_slots A body -> @keeps_slots A (fun s caps k => iterate body k fuel s caps).
Proof.
  intros Hbody. induction fuel as [|f IH]; intros s caps k a; simpl.
  - eauto.
  - destruct (body s caps _) as [a0|] eqn:Eb.
    + intros [= <-]. apply Hbody in Eb. destruct Eb as (s1 & caps1 & Hl & Hk).
      destruct (length s1 <? length s)%nat; [|discriminate Hk].
      apply IH in Hk. destruct Hk as (s2 & caps2 & Hl2 & Hk2).
      exists s2, caps2. split; [congruence | exact Hk2].
    + eauto.
Qed.

Lemma rmatch_keeps_slots (r : regex) (n0 : nat) :
  @keeps_slots A (fun s caps k => rmatch r n0 s caps k).
Proof.
  induction r as [|c| |neg items| |r1 IH1 r2 IH2|r1 IH1 r2 IH2|r IH|r IH|r IH|i r IH];
    intros s caps k a; simpl.
  - eauto.
  - destruct s as [|x s']; [discriminate|]. destruct (x =? c); [eauto | discriminate].
  - destruct s as [|x s']; [discriminate|]. destruct (x =? 10); [discriminate | eauto].
  - destruct s as [|x s']; [discriminate|].
    destruct (xorb neg (in_set x items)); [eauto | discriminate].
  - destruct (length s =? n0)%nat; [eauto | discriminate].
  - intros H. apply IH1 in H. destruct H as (s1 & caps1 & Hl1 & H).
    apply IH2 in H. destruct H as (s2 & caps2 & Hl2 & H).
    exists s2, caps2. split; [congruence | exact H].
  - destruct (rmatch r1 n0 s caps k) eqn:E1.
    + intros [= <-]. apply IH1 in E1. exact E1.
    + apply IH2.
  - apply (iterate_keeps_slots _ (length s) IH).
  - intros H. apply IH in H. destruct H as (s1 & caps1 & Hl1 & H).
    apply (iterate_keeps_slots _ (length s1) IH) in H.
    destruct H as (s2 & caps2 & Hl2 & H).
    exists s2, caps2. split; [congruence | exact H].
  - destruct (rmatch r n0 s caps k) eqn:E1.
    + intros [= <-]. apply IH in E1. exact E1.
    + eauto.
  - intros H. apply IH in H. destruct H as (s1 & caps1 & Hl1 & H).
    exists s1, (<[i := Some (take (length s - length s1) s)]> caps1).
    split; [|exact H]. rewrite length_insert. exact Hl1.
Qed.
End Captures.

Lemma rmatch_at_length r ng n0 s s' groups :
  rmatch_at r ng n0 s = Some (s', groups) -> length groups = ng.
Proof.
  unfold rmatch_at. intros H. apply rmatch_keeps_slots in H.
  destruct H as (s1 & caps1 & Hl & [= _ <-]).
  rewrite Hl. apply length_replicate.
Qed.

Lemma search_from_length r ng n0 s s' groups :
  search_from r ng n0 s = Some (s', groups) -> length groups = ng.
Proof.
  induction s as [|c s IH]; simpl.
  - destruct (rmatch_at r ng n0 []) as [[s1 g1]|] eqn:E; [|discriminate].
    intros [= _ <-]. exact (rmatch_at_length _ _ _ _ _ _ E).
  - destruct (rmatch_at r ng n0 (c :: s)) as [[s1 g1]|] eqn:E; [|exact IH].
    intros [= _ <-]. exact (rmatch_at_length _ _ _ _ _ _ E).
Qed.

(** [m.groups()] has one entry for each capturing group of the pattern. *)
Lemma search_groups_length (pattern : string) (s : pystr) (r : regex) (ng : nat)
    (groups : captures) :
  compile (u pattern) = Some (r, ng) ->
  search pattern s = Some groups ->
  length groups = ng.
Proof.
  unfold search. intros ->. simpl.
  destruct (search_from r ng (length s) s) as [[s' g]|] eqn:E; [|discriminate].
  intros [= <-]. exact (search_from_length _ _ _ _ _ _ E).
Qed.

(** [search_from], one position at a time. *)
Lemma search_from_eq r ng n0 s :
  search_from r ng n0 s =
    match rmatch_at r ng n0 s with
    | Some m => Some m
    | None =>
      match s with
      | [] => None
      | _ :: s' => search_from r ng n0 s'
      end
    end.
Proof. destruct s; reflexivity. Qed.

(** Whether [t] starts with [l] is decided by the first [length l]
    characters of [t]. *)
Lemma startswith_app (l t more : pystr) :
  (length l <= length t)%nat -> startswith l (t ++ more) = startswith l t.
Proof.
  revert t. induction l as [|a l IH]; intros [|b t] Hlen; simpl in *;
    [reflexivity | reflexivity | lia |].
  rewrite IH by lia. reflexivity.
Qed.

Lemma ltb_succ (n : nat) : (n <? S n)%nat = true.
Proof. apply Nat.ltb_lt. lia. Qed.

End ReProps.

(** * Properties of the intent analyzer *)

Module AnalyzerProps.
Import Re IntentAnalyzer AnalyzerSpec.

Lemma eqb_eq (a b : pystr) : PyStr.eqb a b = true <-> a = b.
Proof.
  revert b. induction a as [|x a IH]; intros [|y b]; simpl; try (split; [discriminate | congruence]).
  - tauto.
  - rewrite andb_true_iff, N.eqb_eq, IH. split; [intros [-> ->]; reflexivity | intros [= -> ->]; tauto].
Qed.

(** [analyze_intent] on an utterance taken for a context reference. *)
Lemma analyze_intent_reference (cm : context) (s : pystr) :
  is_context_reference cm (strip (lower s)) = true ->
  analyze_intent cm s = handle_context_reference cm (strip (lower s)).
Proof. intros H. unfold analyze_intent. rewrite H. reflexivity. Qed.

(** [analyze_intent] on any other utterance. *)
Lemma analyze_intent_classify (cm : context) (s : pystr) :
  is_context_reference cm (strip (lower s)) = false ->
  analyze_intent cm s =
    match scan_intents intent_patterns (strip (lower s)) with
    | Some r => Ok r
    | None =>
      match analyze_fallback_keywords (strip (lower s)) with
      | Some fallback_intent => Ok fallback_intent
      | None => Ok (PyStr (u "general"), PyDict ∅)
      end
    end.
Proof. intros H. unfold analyze_intent. rewrite H. reflexivity. Qed.

(** One of the utterances "1" to "5" is a context reference in any state. *)
Lemma numeric_is_reference (cm : context) (x : pystr) :
  in_list x numeric_refs = true -> is_context_reference cm x = true.
Proof. intros H. unfold is_context_reference. rewrite H. reflexivity. Qed.

(** The numeric branch with a pending deletion and suggestions on record. *)
Lemma handle_numeric_delete (cm : context) (x : pystr) (lp : gmap string pyval)
    (t : pyval) (sugg : list pyval) :
  in_list x numeric_refs = true ->
  cm !! "last_intent" = Some (PyStr (u "delete_file")) ->
  cm !! "last_params" = Some (PyDict lp) ->
  lp !! "target" = Some t ->
  cm !! "last_suggestions" = Some (PyList sugg) ->
  sugg <> [] ->
  handle_context_reference cm x =
    n ← py_int x;
    if (n - 1 =? 0)%Z then Ok (rename_to_backup t)
    else if (n - 1 =? 1)%Z then Ok (move_to_delete_folder t)
    else if (n - 1 =? 2)%Z then Ok (clear_content t)
    else handle_textual_reference (PyStr (u "delete_file")) (PyDict lp) x.
Proof.
  intros Hx Hi Hp Ht Hs Hne.
  unfold handle_context_reference, cm_get. rewrite Hx, Hi, Hp, Hs. simpl default.
  replace (truthy (PyList sugg)) with true by (destruct sugg; [contradiction | reflexivity]).
  replace (eq_str (PyStr (u "delete_file")) (u "delete_file")) with true by reflexivity.
  simpl andb. cbv iota.
  unfold py_get. rewrite Ht. reflexivity.
Qed.

(** C1. With a pending [delete_file] whose parameters map [target] to [t]
    and a non-empty list of suggestions on record, the utterance "1"
    resolves to [move_file] with the rename-to-backup action on [t], "2" to
    [move_file] with the move-to-delete-folder action on [t], and "3" to
    [write_file] of the empty content to [t]. *)
Theorem numeric_reference_resolution (cm : context) (lp : gmap string pyval)
    (t : pyval) (sugg : list pyval) :
  cm !! "last_intent" = Some (PyStr (u "delete_file")) ->
  cm !! "last_params" = Some (PyDict lp) ->
  lp !! "target" = Some t ->
  cm !! "last_suggestions" = Some (PyList sugg) ->
  sugg <> [] ->
  analyze_intent cm (u "1") =
    Ok (PyStr (u "move_file"),
        PyDict {[ "target" := t;
                  "action" := PyStr (u "rename_to_backup");
                  "context_action" := PyStr (u "rename_for_deletion") ]})
  /\ analyze_intent cm (u "2") =
    Ok (PyStr (u "move_file"),
        PyDict {[ "target" := t;
                  "action" := PyStr (u "move_to_delete_folder");
                  "context_action" := PyStr (u "move_for_deletion") ]})
  /\ analyze_intent cm (u "3") =
    Ok (PyStr (u "write_file"),
        PyDict {[ "target" := t;
                  "content" := PyStr (u "");
                  "context_action" := PyStr (u "clear_content") ]}).
Proof.
  intros Hi Hp Ht Hs Hne.
  repeat split.
  all: rewrite analyze_intent_reference by (apply numeric_is_reference; reflexivity).
  all: match goal with |- context [strip (lower ?s)] =>
         let v := eval vm_compute in (strip (lower s)) in
         change (strip (lower s)) with v end.
  all: rewrite (handle_numeric_delete cm _ lp t sugg) by (assumption || reflexivity).
  all: reflexivity.
Qed.

Lemma numeric_reference_resolution_witness :
  analyze_intent pending_delete (u "1") =
    Ok (PyStr (u "move_file"),
        PyDict {[ "target" := PyStr (u "a.txt");
                  "action" := PyStr (u "rename_to_backup");
                  "context_action" := PyStr (u "rename_for_deletion") ]})
  /\ analyze_intent pending_delete (u "2") =
    Ok (PyStr (u "move_file"),
        PyDict {[ "target" := PyStr (u "a.txt");
                  "action" := PyStr (u "move_to_delete_folder");
                  "context_action" := PyStr (u "move_for_deletion") ]})
  /\ analyze_intent pending_delete (u "3") =
    Ok (PyStr (u "write_file"),
        PyDict {[ "target" := PyStr (u "a.txt");
                  "content" := PyStr (u "");
                  "context_action" := PyStr (u "clear_content") ]}).
Proof.
  apply (numeric_reference_resolution pending_delete
           {[ "target" := PyStr (u "a.txt") ]} (PyStr (u "a.txt"))
           [PyStr (u "x"); PyStr (u "y"); PyStr (u "z")]).
  - reflexivity.
  - reflexivity.
  - reflexivity.
  - reflexivity.
  - discriminate.
Defined.

Lemma update_lookup_suggestions cm intent params response :
  update_context_memory cm intent params response !! "last_suggestions"
  = cm !! "last_suggestions".
Proof. unfold update_context_memory. by rewrite !lookup_insert_ne. Qed.

Lemma update_recorded_turn cm intent params response :
  cm !! "last_suggestions" = None ->
  recorded_turn (update_context_memory cm intent params response).
Proof.
  intros Hs. unfold recorded_turn. rewrite update_lookup_suggestions.
  unfold update_context_memory. repeat split; try assumption.
  - rewrite !lookup_insert_ne by done. rewrite lookup_insert_eq. eauto.
  - rewrite lookup_insert_ne by done. rewrite lookup_insert_eq. eauto.
  - rewrite lookup_insert_eq. eauto.
Qed.

Lemma reachable_no_suggestions cm : reachable cm -> cm !! "last_suggestions" = None.
Proof.
  induction 1 as [|cm i p r _ IH|cm _ _].
  - apply lookup_empty.
  - by rewrite update_lookup_suggestions.
  - apply lookup_empty.
Qed.

(** C6, counterexample.  After one [update_context_memory] the entry is
    neither fully empty nor fully populated: [last_intent] is present and
    [last_suggestions] is not. *)
Lemma partial_entry_reachable :
  reachable one_turn /\ ~ (fully_empty one_turn \/ fully_populated one_turn).
Proof.
  split.
  - apply reach_update, reach_init.
  - intros [(Hi & _) | (_ & _ & [v Hs] & _)].
    + vm_compute in Hi. discriminate Hi.
    + vm_compute in Hs. discriminate Hs.
Qed.

(** C6, as the code has it.  In every reachable state the entry is either
    fully empty, or holds exactly the three fields [last_intent],
    [last_params] and [last_response], [last_suggestions] being absent. *)
Theorem entry_empty_or_recorded (cm : context) :
  reachable cm -> fully_empty cm \/ recorded_turn cm.
Proof.
  intros H. destruct H as [|cm i p r H|cm H].
  - left. unfold fully_empty. rewrite !lookup_empty. tauto.
  - right. apply update_recorded_turn, reachable_no_suggestions, H.
  - left. unfold fully_empty, clear_context_memory. rewrite !lookup_empty. tauto.
Qed.

Lemma entry_empty_or_recorded_witness :
  fully_empty one_turn \/ recorded_turn one_turn.
Proof.
  apply (entry_empty_or_recorded one_turn).
  apply reach_update, reach_init.
Defined.

(** The numeric branch when no suggestions are on record. *)
Lemma handle_numeric_no_suggestions (cm : context) (x : pystr) :
  in_list x numeric_refs = true ->
  cm !! "last_suggestions" = None ->
  handle_context_reference cm x =
    _ ← py_int x;
    handle_textual_reference (cm_get cm "last_intent" PyNone)
      (cm_get cm "last_params" (PyDict ∅)) x.
Proof.
  intros Hx Hs. unfold handle_context_reference. rewrite Hx.
  destruct (py_int x) as [n|e]; [|reflexivity].
  unfold mbind, result_bind, cm_get. rewrite Hs. simpl.
  rewrite andb_false_r. reflexivity.
Qed.

(** C10. In every reachable state the key [last_suggestions] is absent, so
    each of the utterances "1" to "5" is answered with the intent [general]
    and the parameters [{context_reference: True, original_input: <the
    utterance>}], never with one of the derived file actions. *)
Theorem numeric_reference_never_resolves (cm : context) :
  reachable cm ->
  cm !! "last_suggestions" = None
  /\ forall x, In x [u "1"; u "2"; u "3"; u "4"; u "5"] ->
       analyze_intent cm x =
         Ok (PyStr (u "general"),
             PyDict {[ "context_reference" := PyBool true;
                       "original_input" := PyStr x ]}).
Proof.
  intros H. pose proof (reachable_no_suggestions cm H) as Hs.
  split; [exact Hs|].
  intros x Hx. simpl in Hx.
  repeat (destruct Hx as [<- | Hx]); try contradiction.
  all: rewrite analyze_intent_reference by (apply numeric_is_reference; reflexivity).
  all: match goal with |- context [strip (lower ?s)] =>
         let v := eval vm_compute in (strip (lower s)) in
         change (strip (lower s)) with v end.
  all: rewrite handle_numeric_no_suggestions by (assumption || reflexivity).
  all: reflexivity.
Qed.

Lemma numeric_reference_never_resolves_witness :
  one_turn !! "last_suggestions" = None
  /\ forall x, In x [u "1"; u "2"; u "3"; u "4"; u "5"] ->
       analyze_intent one_turn x =
         Ok (PyStr (u "general"),
             PyDict {[ "context_reference" := PyBool true;
                       "original_input" := PyStr x ]}).
Proof.
  apply (numeric_reference_never_resolves one_turn).
  apply reach_update, reach_init.
Defined.

(** *** Exceptions *)

Lemma reachable_params_typed cm : reachable cm -> params_typed cm.
Proof.
  intros H v. destruct H as [|cm i p r H|cm H].
  - rewrite lookup_empty. discriminate.
  - unfold update_context_memory.
    rewrite lookup_insert_ne by done. rewrite lookup_insert_eq.
    intros [= <-]. eauto.
  - unfold clear_context_memory. rewrite lookup_empty. discriminate.
Qed.

Lemma last_params_dict cm :
  params_typed cm -> exists d, cm_get cm "last_params" (PyDict ∅) = PyDict d.
Proof.
  intros H. unfold cm_get. destruct (cm !! "last_params") as [v|] eqn:E; simpl.
  2: eauto.
  apply H, E.
Qed.


Lemma numeric_int_ok (x : pystr) :
  in_list x numeric_refs = true -> exists n, py_int x = Ok n.
Proof.
  unfold in_list, numeric_refs. simpl existsb. rewrite !orb_true_iff, !eqb_eq.
  intros H. repeat (destruct H as [-> | H]; [eexists; reflexivity|]). discriminate H.
Qed.

Lemma textual_reference_ok (last_intent : pyval) (d : gmap string pyval) (x : pystr) :
  exists r, handle_textual_reference last_intent (PyDict d) x = Ok r.
Proof.
  unfold handle_textual_reference.
  destruct (any_in [u "переименуй"; u "rename"] x && eq_str last_intent (u "delete_file")).
  - simpl. eauto.
  - destruct (any_in [u "да"; u "давай"; u "сделай"; u "выполни"] x
              && (truthy last_intent && truthy (PyDict d))); eauto.
Qed.

Lemma handle_context_reference_ok (cm : context) (x : pystr) :
  params_typed cm -> exists r, handle_context_reference cm x = Ok r.
Proof.
  intros H. destruct (last_params_dict cm H) as [d Hd].
  unfold handle_context_reference. rewrite Hd.
  destruct (in_list x numeric_refs) eqn:Hx; [|apply textual_reference_ok].
  destruct (numeric_int_ok x Hx) as [n ->]. simpl.
  destruct (eq_str (cm_get cm "last_intent" PyNone) (u "delete_file")
            && truthy (cm_get cm "last_suggestions" (PyList [])));
    [|apply textual_reference_ok].
  destruct (n - 1 =? 0)%Z; [eauto|].
  destruct (n - 1 =? 1)%Z; [eauto|].
  destruct (n - 1 =? 2)%Z; [eauto|].
  apply textual_reference_ok.
Qed.

(** C8, counterexample.  With a pending [delete_file] whose recorded
    parameters are [None] instead of a dict, the rename reference
    "переименуй файл" makes [last_params.get('target')] raise. *)
Lemma rename_reference_raises :
  analyze_intent untyped_params (u "переименуй файл") = Raise AttributeError.
Proof. vm_compute. reflexivity. Qed.

(** C8, as the code has it.  For every input string, the empty one
    included, and every state of the context memory whose [last_params], when
    recorded, is a dict, [analyze_intent] returns an (intent, parameters) pair
    and raises nothing; when the utterance is no context reference, matches
    no pattern and no fallback keyword, the pair is [general] with no
    parameters. *)
Theorem analyze_intent_never_raises (cm : context) (s : pystr) :
  params_typed cm ->
  (exists intent params, analyze_intent cm s = Ok (intent, params))
  /\ (is_context_reference cm (strip (lower s)) = false ->
      scan_intents intent_patterns (strip (lower s)) = None ->
      analyze_fallback_keywords (strip (lower s)) = None ->
      analyze_intent cm s = Ok (PyStr (u "general"), PyDict ∅)).
Proof.
  intros H. split.
  - unfold analyze_intent.
    destruct (is_context_reference cm (strip (lower s))).
    + destruct (handle_context_reference_ok cm (strip (lower s)) H) as [[i p] ->]. eauto.
    + destruct (scan_intents intent_patterns (strip (lower s))) as [[i p]|]; [eauto|].
      destruct (analyze_fallback_keywords (strip (lower s))) as [[i p]|]; eauto.
  - intros Hc Hp Hk. rewrite analyze_intent_classify by exact Hc.
    rewrite Hp, Hk. reflexivity.
Qed.

Lemma analyze_intent_never_raises_witness :
  (exists intent params, analyze_intent one_turn (u "") = Ok (intent, params))
  /\ analyze_intent one_turn (u "") = Ok (PyStr (u "general"), PyDict ∅).
Proof.
  destruct (analyze_intent_never_raises one_turn (u "")) as [H1 H2].
  - apply reachable_params_typed, reach_update, reach_init.
  - split; [exact H1|]. apply H2; reflexivity.
Defined.

(** *** The fallback keywords *)

(** C7. The one-word utterance "удали" matches no pattern, and the keyword
    table would answer it with [delete_file]; but "удали" contains "да", one
    of the context keywords, so it is taken for a context reference and
    answered with [general]. *)
Theorem bare_delete_keyword_is_taken_for_reference :
  contains (u "удали") (u "удали") = true
  /\ scan_intents intent_patterns (u "удали") = None
  /\ analyze_fallback_keywords (u "удали")
     = Some (PyStr (u "delete_file"), PyDict {[ "target" := PyNone ]})
  /\ contains (u "да") (u "удали") = true
  /\ analyze_intent ∅ (u "удали")
     = Ok (PyStr (u "general"),
           PyDict {[ "context_reference" := PyBool true;
                     "original_input" := PyStr (u "удали") ]}).
Proof. repeat split; vm_compute; reflexivity. Qed.

(** Where the fallback is reached, the keyword does give [delete_file]: for
    an utterance that is no context reference, matches no pattern, contains
    "удали" and satisfies none of the three entries tried before it. *)
Lemma fallback_delete_keyword (cm : context) (s : pystr) :
  let x := strip (lower s) in
  is_context_reference cm x = false ->
  scan_intents intent_patterns x = None ->
  contains (u "удали") x = true ->
  any_in [u "файл"; u "file"] x && any_in [u "создай"; u "create"; u "новый"] x = false ->
  any_in [u "папка"; u "folder"; u "директория"; u "directory"] x
    && any_in [u "создай"; u "create"; u "новая"] x = false ->
  any_in [u "читай"; u "read"; u "покажи"; u "show"; u "открой"] x = false ->
  analyze_intent cm s = Ok (PyStr (u "delete_file"), PyDict {[ "target" := PyNone ]}).
Proof.
  intros x Hc Hp Hk H1 H2 H3. subst x.
  rewrite analyze_intent_classify by exact Hc. rewrite Hp.
  unfold analyze_fallback_keywords, keyword_patterns, scan_keywords.
  rewrite H1, H2, H3. cbv iota. simpl andb. cbv iota.
  rewrite Hk. reflexivity.
Qed.

(** *** Pattern precedence *)

Lemma scan_rules_app (l1 l2 : list (string * string)) (x : pystr) :
  scan_rules (l1 ++ l2) x =
    match scan_rules l1 x with
    | Some r => Some r
    | None => scan_rules l2 x
    end.
Proof.
  induction l1 as [|[i p] l1 IH]; simpl; [reflexivity|].
  destruct (search p x); [reflexivity | exact IH].
Qed.

Lemma scan_patterns_rules (intent : string) (pattern_list : list string) (x : pystr) :
  scan_patterns intent pattern_list x = scan_rules (map (pair intent) pattern_list) x.
Proof.
  induction pattern_list as [|p ps IH]; simpl; [reflexivity|].
  destruct (search p x); [reflexivity | exact IH].
Qed.

Lemma scan_intents_rules (table : list (string * list string)) (x : pystr) :
  scan_intents table x = scan_rules (rules table) x.
Proof.
  induction table as [|[i ps] table IH]; simpl; [reflexivity|].
  rewrite scan_rules_app, <- scan_patterns_rules, IH. reflexivity.
Qed.

(** The rule that wins is the first one that matches. *)
Lemma scan_rules_first (pre post : list (string * string)) (intent pattern : string)
    (groups : captures) (x : pystr) :
  Forall (fun rule => search (snd rule) x = None) pre ->
  search pattern x = Some groups ->
  scan_rules (pre ++ (intent, pattern) :: post) x = Some (on_match intent groups x).
Proof.
  intros Hpre Hm. induction Hpre as [|[i p] pre Hp _ IH]; simpl.
  - rewrite Hm. reflexivity.
  - simpl in Hp. rewrite Hp. exact IH.
Qed.

Lemma analyze_intent_first_match (cm : context) (s : pystr)
    (pre post : list (string * string)) (intent pattern : string) (groups : captures) :
  is_context_reference cm (strip (lower s)) = false ->
  rules intent_patterns = pre ++ (intent, pattern) :: post ->
  Forall (fun rule => search (snd rule) (strip (lower s)) = None) pre ->
  search pattern (strip (lower s)) = Some groups ->
  analyze_intent cm s = Ok (on_match intent groups (strip (lower s))).
Proof.
  intros Hc Hr Hpre Hm. rewrite analyze_intent_classify by exact Hc.
  rewrite scan_intents_rules, Hr, (scan_rules_first pre post _ _ groups) by assumption.
  reflexivity.
Qed.

Lemma on_match_intent (intent : string) (groups : captures) (x : pystr) :
  exists params, on_match intent groups x = (PyStr (u intent), PyDict params)
    /\ params !! "target" = Some (of_opt (clean_target (raw_target groups))).
Proof.
  unfold on_match. destruct (String.eqb intent "create_file").
  - destruct (search _ x).
    + eexists. split; [reflexivity|].
      rewrite lookup_insert_ne by done. apply lookup_singleton_eq.
    + eexists. split; [reflexivity|]. apply lookup_singleton_eq.
  - eexists. split; [reflexivity|]. apply lookup_singleton_eq.
Qed.

(** C2. An utterance that is no context reference and whose normalized form
    matches a [refactor_file] pattern and a [read_file] pattern is answered
    with [refactor_file], not [read_file]; and in general the intent returned
    is that of the first rule whose pattern matches, the rules being taken in
    the order of the table and, under one intent, in the order of its list. *)
Theorem pattern_precedence (cm : context) (s : pystr) :
  is_context_reference cm (strip (lower s)) = false ->
  (forall p_refactor p_read,
      In ("refactor_file", p_refactor) (rules intent_patterns) ->
      In ("read_file", p_read) (rules intent_patterns) ->
      is_Some (search p_refactor (strip (lower s))) ->
      is_Some (search p_read (strip (lower s))) ->
      (exists params, analyze_intent cm s = Ok (PyStr (u "refactor_file"), params))
      /\ (forall params, analyze_intent cm s <> Ok (PyStr (u "read_file"), params)))
  /\ (forall pre post intent pattern groups,
      rules intent_patterns = pre ++ (intent, pattern) :: post ->
      Forall (fun rule => search (snd rule) (strip (lower s)) = None) pre ->
      search pattern (strip (lower s)) = Some groups ->
      exists params, analyze_intent cm s = Ok (PyStr (u intent), params)).
Proof.
  intros Hc.
  assert (Hgen : forall pre post intent pattern groups,
      rules intent_patterns = pre ++ (intent, pattern) :: post ->
      Forall (fun rule => search (snd rule) (strip (lower s)) = None) pre ->
      search pattern (strip (lower s)) = Some groups ->
      exists params, analyze_intent cm s = Ok (PyStr (u intent), params)).
  { intros pre post intent pattern groups Hr Hpre Hm.
    rewrite (analyze_intent_first_match cm s pre post intent pattern groups) by assumption.
    destruct (on_match_intent intent groups (strip (lower s))) as (params & -> & _).
    eauto. }
  split; [|exact Hgen].
  intros p_refactor p_read Hin _ [groups Hm] _.
  assert (Hfirst : exists post,
            rules intent_patterns = [] ++ ("refactor_file", p_refactor) :: post).
  { simpl in Hin.
    repeat (destruct Hin as [Hin | Hin]; [try discriminate Hin|]); try contradiction.
    injection Hin as <-. eexists. reflexivity. }
  destruct Hfirst as [post Hr].
  destruct (Hgen [] post "refactor_file" p_refactor groups Hr ltac:(constructor) Hm)
    as [params Hres].
  split; [eauto|].
  intros params'. rewrite Hres. intros E.
  assert (E' : u "refactor_file" = u "read_file") by congruence.
  vm_compute in E'. discriminate E'.
Qed.

Lemma pattern_precedence_witness :
  exists params,
    analyze_intent ∅ (u "fix it in file żółw.txt then show log")
    = Ok (PyStr (u "refactor_file"), params).
Proof.
  destruct (pattern_precedence ∅ (u "fix it in file żółw.txt then show log")) as [H _].
  - reflexivity.
  - refine (proj1 (H _ _ _ _ _ _)).
    + left. reflexivity.
    + do 13 right. left. reflexivity.
    + vm_compute. eauto.
    + vm_compute. eauto.
Defined.

(** *** Target extraction *)

Lemma last_not_none_snoc (groups : captures) (g : option pystr) :
  last_not_none (groups ++ [g]) =
    match g with
    | Some t => Some t
    | None => last_not_none groups
    end.
Proof.
  unfold last_not_none. rewrite rev_unit. destruct g; reflexivity.
Qed.

Lemma last_not_none_trailing (groups after : captures) :
  Forall (fun g => g = None) after ->
  last_not_none (groups ++ after) = last_not_none groups.
Proof.
  induction after as [|g after IH] using rev_ind; intros H.
  - rewrite app_nil_r. reflexivity.
  - apply Forall_app in H. destruct H as [Ha Hg].
    rewrite app_assoc, last_not_none_snoc.
    inversion Hg as [|? ? -> _]. apply IH, Ha.
Qed.

Lemma last_not_none_some (groups : captures) (t : pystr) :
  last_not_none groups = Some t <->
  exists before after,
    groups = before ++ Some t :: after /\ Forall (fun g => g = None) after.
Proof.
  split.
  - induction groups as [|g groups IH] using rev_ind; [discriminate|].
    rewrite last_not_none_snoc. destruct g as [t'|].
    + intros [= ->]. exists groups, []. split; [reflexivity | constructor].
    + intros H. destruct (IH H) as (before & after & -> & Ha).
      exists before, (after ++ [None]). split.
      * rewrite <- app_assoc. reflexivity.
      * apply Forall_app. split; [exact Ha | repeat constructor].
  - intros (before & after & -> & Ha).
    change (before ++ Some t :: after) with (before ++ [Some t] ++ after).
    rewrite app_assoc, last_not_none_trailing by exact Ha.
    apply last_not_none_snoc.
Qed.

Lemma last_not_none_none (groups : captures) :
  last_not_none groups = None <-> Forall (fun g => g = None) groups.
Proof.
  split.
  - induction groups as [|g groups IH] using rev_ind; [constructor|].
    rewrite last_not_none_snoc. destruct g; [discriminate|].
    intros H. apply Forall_app. split; [apply IH, H | repeat constructor].
  - intros H. apply (last_not_none_trailing [] groups H).
Qed.

Lemma raw_target_last_not_none (groups : captures) :
  raw_target groups = last_not_none groups.
Proof. destruct groups; reflexivity. Qed.

Lemma find_not_none_nonempty (l : captures) :
  Forall (fun g => g <> Some []) l -> find is_not_none l = find is_nonempty l.
Proof.
  induction l as [|g l IH]; intros H; [reflexivity|].
  apply Forall_cons in H as [Hg Hl]. simpl.
  destruct g as [[|c t]|]; [exfalso; apply Hg; reflexivity | reflexivity | exact (IH Hl)].
Qed.

(** The two agree as long as no group has captured the empty string. *)
Lemma raw_target_spec_target (groups : captures) :
  Forall (fun g => g <> Some []) groups -> raw_target groups = spec_target groups.
Proof.
  intros H. rewrite raw_target_last_not_none. unfold last_not_none, spec_target.
  rewrite find_not_none_nonempty; [reflexivity|]. apply Forall_rev, H.
Qed.

(** C9.  The target is not the first non-empty group of the reverse scan:
    for "ls" the winning pattern has one group and it captures the empty
    string, and the code, which tests the groups against [None], takes that
    empty string for the target, where the first non-empty group (what the
    comment on that line of the code announces) would be no target at all. *)
Lemma empty_group_is_taken :
  search "(?:ls|dir)\s*([^\s]*)" (u "ls") = Some [Some (u "")]
  /\ raw_target [Some (u "")] = Some (u "")
  /\ spec_target [Some (u "")] = None
  /\ analyze_intent ∅ (u "ls")
     = Ok (PyStr (u "list_directory"), PyDict {[ "target" := PyStr (u "") ]}).
Proof. repeat split; vm_compute; reflexivity. Qed.

(** X25. What the code takes for the target: for an utterance won by a
    pattern with [ng] capture groups, the target before cleanup is the last
    group that is not [None], that is, that took part in the match, be it
    the empty string; it is absent when no group took part, and when the
    pattern has no groups. *)
Theorem target_is_last_group_not_none (cm : context) (s : pystr)
    (pre post : list (string * string)) (intent pattern : string)
    (r : regex) (ng : nat) (groups : captures) :
  is_context_reference cm (strip (lower s)) = false ->
  rules intent_patterns = pre ++ (intent, pattern) :: post ->
  Forall (fun rule => search (snd rule) (strip (lower s)) = None) pre ->
  compile (u pattern) = Some (r, ng) ->
  search pattern (strip (lower s)) = Some groups ->
  (exists params,
      analyze_intent cm s = Ok (PyStr (u intent), PyDict params)
      /\ params !! "target" = Some (of_opt (clean_target (raw_target groups))))
  /\ length groups = ng
  /\ (ng = 0%nat -> raw_target groups = None)
  /\ (forall t, raw_target groups = Some t <->
        exists before after,
          groups = before ++ Some t :: after /\ Forall (fun g => g = None) after)
  /\ (raw_target groups = None <-> Forall (fun g => g = None) groups).
Proof.
  intros Hc Hr Hpre Hcomp Hm.
  pose proof (ReProps.search_groups_length _ _ _ _ _ Hcomp Hm) as Hlen.
  split; [|split; [exact Hlen|split; [|split]]].
  - rewrite (analyze_intent_first_match cm s pre post intent pattern groups) by assumption.
    destruct (on_match_intent intent groups (strip (lower s))) as (params & -> & Ht).
    eauto.
  - intros ->. destruct groups; [reflexivity | discriminate Hlen].
  - intros t. rewrite raw_target_last_not_none. apply last_not_none_some.
  - rewrite raw_target_last_not_none. apply last_not_none_none.
Qed.

Lemma target_is_last_group_not_none_witness :
  exists params,
    analyze_intent ∅ (u "ls") = Ok (PyStr (u "list_directory"), PyDict params)
    /\ params !! "target" = Some (PyStr (u "")).
Proof.
  edestruct (target_is_last_group_not_none ∅ (u "ls")
               (firstn 11 (rules intent_patterns)) (skipn 12 (rules intent_patterns))
               "list_directory" "(?:ls|dir)\s*([^\s]*)") as [H _].
  - reflexivity.
  - reflexivity.
  - vm_compute firstn. repeat (constructor; [vm_compute; reflexivity|]). constructor.
  - vm_compute. reflexivity.
  - vm_compute. reflexivity.
  - exact H.
Defined.

End AnalyzerProps.

(** * Properties of the retry decorators *)

Module RetryProps.
Import Re Retry RetrySpec RetryNotions.

Lemma after_eq {R Ev St} (evs : list Ev) (r : R) (tr : list Ev) (st : St) :
  after evs (r, tr, st) = (r, evs ++ tr, st).
Proof. reflexivity. Qed.

Lemma after_nil {R Ev St} (run : R * list Ev * St) : after [] run = run.
Proof. destruct run as [[r tr] st]. reflexivity. Qed.

(** Every [u "..."] of the goal, evaluated. *)
Ltac eval_literals :=
  repeat match goal with
  | |- context [u ?s] => let v := eval vm_compute in (u s) in change (u s) with v
  end.

Lemma compile_retry_re :
  compile (u "retry_delay\s*{\s*seconds:\s*(\d+)") = Some (retry_re, 1%nat).
Proof. vm_compute. reflexivity. Qed.

(** At the clause the pattern matches, and its group is the "5". *)
Lemma clause_matches (n0 : nat) (rest : pystr) :
  rmatch_at retry_re 1 n0 (u "retry_delay { seconds: 5 }" ++ rest)
  = Some (u " }" ++ rest, [Some (u "5")]).
Proof.
  unfold rmatch_at. eval_literals.
  cbn -[Nat.ltb Nat.sub].
  rewrite !ReProps.ltb_succ.
  replace (S (S (S (length rest))) - S (S (length rest)))%nat with 1%nat by lia.
  reflexivity.
Qed.

(** Where the text does not go on with "retry_delay", it does not match. *)
Lemma no_clause_no_match (n0 : nat) (s : pystr) :
  startswith (u "retry_delay") s = false ->
  rmatch_at retry_re 1 n0 s = None.
Proof.
  unfold rmatch_at, retry_re. eval_literals. intros H.
  repeat (destruct s as [|? s]; [reflexivity|];
          cbn [rmatch];
          cbn [startswith] in H;
          rewrite N.eqb_sym in H;
          match goal with
          | |- context [(?c =? ?k)] => destruct (c =? k); [cbn [andb] in H|reflexivity]
          end).
  discriminate H.
Qed.

Lemma search_from_clause (n0 : nat) (before rest : pystr) :
  contains (u "retry_delay") (before ++ u "retry_dela") = false ->
  search_from retry_re 1 n0 (before ++ u "retry_delay { seconds: 5 }" ++ rest)
  = Some (u " }" ++ rest, [Some (u "5")]).
Proof.
  induction before as [|c before IH]; intros H.
  - rewrite app_nil_l, ReProps.search_from_eq, clause_matches. reflexivity.
  - rewrite <- app_comm_cons in H. cbn [contains] in H.
    apply orb_false_iff in H as [Hs Hc].
    rewrite ReProps.search_from_eq, no_clause_no_match.
    + rewrite <- app_comm_cons. exact (IH Hc).
    + change (u "retry_delay { seconds: 5 }")
        with (u "retry_dela" ++ u "y { seconds: 5 }").
      rewrite <- app_assoc, app_assoc, ReProps.startswith_app; [exact Hs|].
      rewrite length_app. change (length (u "retry_delay")) with 11%nat.
      change (length (u "retry_dela")) with 10%nat. simpl. lia.
Qed.

(** The delay read from a text whose first clause is
    "retry_delay { seconds: 5 }". *)
Lemma retry_secs_of_clause (error_text : pystr) :
  suggests_five_seconds error_text -> retry_secs error_text = Some 5%Z.
Proof.
  intros (before & rest & -> & H). unfold retry_secs, search.
  rewrite compile_retry_re. cbn [mbind option_bind].
  rewrite (search_from_clause _ before rest H). reflexivity.
Qed.

(** Greedy iteration over a run of digits takes them all. *)
Lemma iterate_digits {A}
    (body : pystr -> captures -> (pystr -> captures -> option A) -> option A)
    (k : pystr -> captures -> option A) (ds : pystr) :
  (forall s caps k', body s caps k' =
     match s with
     | [] => None
     | x :: s' => if is_digit x || false then k' s' caps else None
     end) ->
  forall rest caps a fuel,
  forallb is_digit ds = true -> starts_with_digit rest = false ->
  (length (ds ++ rest) <= fuel)%nat -> k rest caps = Some a ->
  iterate body k fuel (ds ++ rest) caps = Some a.
Proof.
  intros Hbody.
  induction ds as [|d ds IH]; intros rest caps a fuel Hds Hrest Hfuel Hk.
  - rewrite app_nil_l. destruct fuel as [|f]; [exact Hk|].
    cbn [iterate]. rewrite Hbody. destruct rest as [|c rest']; [exact Hk|].
    simpl in Hrest. rewrite Hrest. exact Hk.
  - cbn [forallb] in Hds. apply andb_true_iff in Hds as [Hd Hds].
    destruct fuel as [|f]; [simpl in Hfuel; lia|].
    rewrite <- app_comm_cons. cbn [iterate]. rewrite Hbody, Hd. cbn [orb].
    change (length (d :: ds ++ rest)) with (S (length (ds ++ rest))).
    rewrite ReProps.ltb_succ.
    erewrite IH; [reflexivity | exact Hds | exact Hrest | simpl in Hfuel; lia | exact Hk].
Qed.

Lemma number_clause_matches (n0 : nat) (d : char) (ds rest : pystr) :
  forallb is_digit (d :: ds) = true -> starts_with_digit rest = false ->
  rmatch_at retry_re 1 n0 (u "retry_delay { seconds: " ++ (d :: ds) ++ rest)
  = Some (rest, [Some (d :: ds)]).
Proof.
  intros Hds Hrest.
  cbn [forallb] in Hds. apply andb_true_iff in Hds as [Hd Hds].
  unfold rmatch_at. eval_literals.
  rewrite <- app_comm_cons.
  cbn -[Nat.ltb Nat.sub is_digit is_space].
  rewrite (PyStrProps.digit_not_space d Hd), Hd, !ReProps.ltb_succ.
  cbn -[Nat.ltb Nat.sub].
  erewrite (iterate_digits _ _ ds);
    [ | intros; reflexivity | exact Hds | exact Hrest | apply Nat.le_refl | reflexivity ].
  rewrite length_app.
  replace (S (length ds + length rest) - length rest)%nat with (length (d :: ds))
    by (simpl; lia).
  rewrite app_comm_cons, take_app_length. reflexivity.
Qed.

Lemma search_from_number_clause (n0 : nat) (before : pystr) (d : char) (ds rest : pystr) :
  contains (u "retry_delay") (before ++ u "retry_dela") = false ->
  forallb is_digit (d :: ds) = true -> starts_with_digit rest = false ->
  search_from retry_re 1 n0 (before ++ u "retry_delay { seconds: " ++ (d :: ds) ++ rest)
  = Some (rest, [Some (d :: ds)]).
Proof.
  intros H Hds Hrest. induction before as [|c before IH].
  - rewrite app_nil_l, ReProps.search_from_eq, number_clause_matches by assumption.
    reflexivity.
  - rewrite <- app_comm_cons in H. cbn [contains] in H.
    apply orb_false_iff in H as [Hs Hc].
    rewrite ReProps.search_from_eq, no_clause_no_match.
    + rewrite <- app_comm_cons. exact (IH Hc).
    + change (u "retry_delay { seconds: ")
        with (u "retry_dela" ++ u "y { seconds: ").
      rewrite <- app_assoc, app_assoc, ReProps.startswith_app; [exact Hs|].
      rewrite length_app. change (length (u "retry_delay")) with 11%nat.
      change (length (u "retry_dela")) with 10%nat. simpl. lia.
Qed.

Lemma digits_value_digits (ds : pystr) :
  forall acc, (0 <= acc)%Z -> forallb is_digit ds = true ->
  exists n, (0 <= n)%Z /\ digits_value acc ds = Some n.
Proof.
  induction ds as [|d ds IH]; intros acc Hacc Hds; cbn [digits_value].
  - eauto.
  - cbn [forallb] in Hds. apply andb_true_iff in Hds as [Hd Hds].
    destruct (PyStrProps.is_digit_value d Hd) as [v ->].
    apply IH; [lia | exact Hds].
Qed.

Lemma digits_value_nonneg (s : pystr) :
  forall acc z, (0 <= acc)%Z -> digits_value acc s = Some z -> (0 <= z)%Z.
Proof.
  induction s as [|c s IH]; intros acc z Hacc; cbn [digits_value].
  - intros [= <-]. exact Hacc.
  - destruct (digit_value c) as [v|]; [|discriminate]. apply IH. lia.
Qed.

(** The delay read from a text whose first clause holds a number. *)
Lemma retry_secs_of_number_clause (error_text : pystr) (n : Z) :
  suggests_seconds error_text n -> retry_secs error_text = Some n.
Proof.
  intros (before & ds & rest & -> & H & Hne & Hds & Hrest & Hv).
  destruct ds as [|d ds]; [contradiction|].
  unfold retry_secs, search. rewrite compile_retry_re. cbn [mbind option_bind].
  rewrite (search_from_number_clause _ before d ds rest H Hds Hrest).
  exact Hv.
Qed.

(** A text that does not mention "retry_delay" suggests nothing. *)
Lemma search_from_no_mention (n0 : nat) (s : pystr) :
  contains (u "retry_delay") s = false -> search_from retry_re 1 n0 s = None.
Proof.
  induction s as [|c s IH]; intros H.
  - rewrite ReProps.search_from_eq, no_clause_no_match; reflexivity.
  - cbn [contains] in H. apply orb_false_iff in H as [Hs Hc].
    rewrite ReProps.search_from_eq, no_clause_no_match by exact Hs. exact (IH Hc).
Qed.

Lemma no_mention_no_delay (error_text : pystr) :
  contains (u "retry_delay") error_text = false -> retry_secs error_text = None.
Proof.
  intros H. unfold retry_secs, search. rewrite compile_retry_re. cbn [mbind option_bind].
  rewrite (search_from_no_mention _ _ H). reflexivity.
Qed.

Lemma signature_is_rate_limit (error_text : pystr) :
  rate_limit_signature error_text -> is_rate_limit error_text = true.
Proof. unfold is_rate_limit. intros [H|H]; rewrite H; [reflexivity | apply orb_true_r]. Qed.

Section Single.
Context {E V St : Type}.
Variable str : E -> pystr.
Variable delay : Q.
Variable func : St -> outcome E V * St.

Lemma all_fail_length n st errs st' :
  all_fail func n st = Some (errs, st') -> length errs = n.
Proof.
  revert st errs st'. induction n as [|k IH]; intros st errs st'; simpl.
  - intros [= <- _]. reflexivity.
  - destruct (func st) as [[v|e] st1]; [discriminate|].
    destruct (all_fail func k st1) as [[errs1 st2]|] eqn:Ek; [|discriminate].
    intros [= <- _]. simpl. f_equal. exact (IH _ _ _ Ek).
Qed.

(** The loop when every call it makes raises: it ends by raising the last
    exception caught (or what [last_exception] held on entry), and a
    rate-limit error at the last attempt is slept on before that. *)
Lemma attempts_all_fail (max_retries : Z) (todo : nat) :
  forall (attempt : Z) (last_exception : option E) (st : St) errs st_end,
  (todo <> O -> (Z.of_nat todo + attempt = max_retries)%Z) ->
  all_fail func todo st = Some (errs, st_end) ->
  exists tr,
    attempts str max_retries delay func todo attempt last_exception st
    = (match last errs, last_exception with
       | Some e, _ => Raised e
       | None, Some e => Raised e
       | None, None => ReturnedNone
       end, tr, st_end)
    /\ (forall e, last errs = Some e -> is_rate_limit (str e) = true ->
          exists tr0, tr = tr0 ++ [Call; Sleep (wait_time delay (str e))]).
Proof.
  induction todo as [|todo' IH]; intros attempt last_exception st errs st_end Hinv; simpl.
  - intros [= <- <-]. simpl. destruct last_exception; eexists; (split; [reflexivity|]);
      intros e0 He; discriminate He.
  - destruct (func st) as [[v|e] st1]; [discriminate|].
    destruct (all_fail func todo' st1) as [[errs1 st2]|] eqn:Ek; [|discriminate].
    intros [= <- <-].
    pose proof (all_fail_length _ _ _ _ Ek) as Hlen.
    assert (Hnext : todo' <> O -> (Z.of_nat todo' + (attempt + 1) = max_retries)%Z)
      by (intros _; specialize (Hinv ltac:(discriminate)); lia).
    destruct (IH (attempt + 1)%Z (Some e) st1 errs1 st2 Hnext Ek) as (tr1 & Hrun & Htr).
    assert (Hres : match last (e :: errs1), last_exception with
                   | Some e0, _ => Raised e0
                   | None, Some e0 => Raised e0
                   | None, None => @ReturnedNone E V
                   end
                   = match last errs1, Some e with
                     | Some e0, _ => Raised e0
                     | None, Some e0 => Raised e0
                     | None, None => ReturnedNone
                     end).
    { destruct errs1 as [|e1 errs1]; [reflexivity|].
      rewrite last_cons. destruct (last (e1 :: errs1)) eqn:El; [reflexivity|].
      apply last_None in El. discriminate El. }
    assert (Hlast : forall e0, last (e :: errs1) = Some e0 ->
              errs1 = [] /\ e0 = e /\ todo' = O \/ last errs1 = Some e0).
    { intros e0. destruct errs1 as [|e1 errs1].
      - intros [= <-]. left. simpl in Hlen. auto.
      - rewrite last_cons. destruct (last (e1 :: errs1)) eqn:El; [|intros [= <-]].
        + intros [= <-]. right. reflexivity.
        + apply last_None in El. discriminate El. }
    destruct (is_rate_limit (str e)) eqn:Hrl.
    + rewrite Hrun, after_eq, Hres. eexists. split; [reflexivity|].
      intros e0 He0 Hrl0. destruct (Hlast e0 He0) as [(-> & -> & ->) | Hl].
      * simpl in Hrun. assert (tr1 = []) as -> by congruence. exists []. reflexivity.
      * destruct (Htr e0 Hl Hrl0) as [tr0 ->].
        exists ([Call; Sleep (wait_time delay (str e))] ++ tr0).
        rewrite <- app_assoc. reflexivity.
    + destruct (attempt <? max_retries - 1)%Z eqn:Hlt.
      * rewrite Hrun, after_eq, Hres. eexists. split; [reflexivity|].
        intros e0 He0 Hrl0. destruct (Hlast e0 He0) as [(-> & -> & ->) | Hl].
        -- congruence.
        -- destruct (Htr e0 Hl Hrl0) as [tr0 ->].
           exists ([Call; Sleep delay] ++ tr0).
           rewrite <- app_assoc. reflexivity.
      * apply Z.ltb_ge in Hlt. specialize (Hinv ltac:(discriminate)).
        assert (Ht : todo' = O) by lia. rewrite Ht in Hlen, Ek.
        destruct errs1; [|discriminate Hlen].
        simpl in Ek. injection Ek as <-.
        eexists. split; [reflexivity|].
        intros e0 [= <-] Hrl0. congruence.
Qed.

(** The time slept after a rate-limit error, by what its text suggests. *)
Lemma wait_time_suggested (error_text : pystr) (n : Z) :
  retry_secs error_text = Some n -> n <> 0%Z ->
  wait_time delay error_text = inject_Z n.
Proof.
  intros H Hn. unfold wait_time. rewrite H.
  destruct (n =? 0)%Z eqn:Hz; [|reflexivity]. apply Z.eqb_eq in Hz. contradiction.
Qed.

(** C4. When every attempt the wrapper is allowed fails, the last error
    caught is raised to the caller: the wrapper does not return.  And if the
    text of that last error carries a rate-limit signature ("429" or
    "ResourceExhausted"), the wrapper has slept after the last attempt,
    before raising: the seconds its first "retry_delay" clause suggests when
    that is a number other than zero, and the base delay when the clause
    suggests zero or the text does not mention "retry_delay". *)
Theorem exhausted_attempts_raise_last_error (max_retries : Z) (st : St)
    (errs : list E) (e : E) (st_end : St) :
  all_fail func (Z.to_nat max_retries) st = Some (errs, st_end) ->
  last errs = Some e ->
  exists tr,
    retry_on_failure str max_retries delay func st = (Raised e, tr, st_end)
    /\ (rate_limit_signature (str e) ->
        exists tr0 secs,
          tr = tr0 ++ [Call; Sleep secs]
          /\ (forall n, suggests_seconds (str e) n -> n <> 0%Z -> secs = inject_Z n)
          /\ (suggests_seconds (str e) 0 -> secs = delay)
          /\ (contains (u "retry_delay") (str e) = false -> secs = delay)).
Proof.
  intros Hfail Hlast. unfold retry_on_failure.
  destruct (attempts_all_fail max_retries (Z.to_nat max_retries) 0%Z None st errs st_end)
    as (tr & Hrun & Htr); [lia | exact Hfail |].
  rewrite Hlast in Hrun. exists tr. split; [exact Hrun|].
  intros Hsig. destruct (Htr e Hlast (signature_is_rate_limit _ Hsig)) as [tr0 ->].
  exists tr0, (wait_time delay (str e)). split; [reflexivity|]. split; [|split].
  - intros n Hn Hnz. apply wait_time_suggested; [|exact Hnz].
    apply retry_secs_of_number_clause, Hn.
  - intros H0. unfold wait_time. rewrite (retry_secs_of_number_clause _ _ H0). reflexivity.
  - intros Hno. unfold wait_time. rewrite (no_mention_no_delay _ Hno). reflexivity.
Qed.

(** One round of the loop, by what the call does. *)
Lemma attempts_return max_retries todo attempt last_exception st v st' :
  func st = (Return v, st') ->
  attempts str max_retries delay func (S todo) attempt last_exception st
  = (Returned v, [Call], st').
Proof. intros H. cbn [attempts]. rewrite H. reflexivity. Qed.

Lemma attempts_rate_limited max_retries todo attempt last_exception st e st' :
  func st = (Throw e, st') ->
  is_rate_limit (str e) = true ->
  attempts str max_retries delay func (S todo) attempt last_exception st
  = after [Call; Sleep (wait_time delay (str e))]
      (attempts str max_retries delay func todo (attempt + 1)%Z (Some e) st').
Proof. intros H Hrl. cbn [attempts]. rewrite H. cbv zeta. rewrite Hrl. reflexivity. Qed.

(** Two rate-limited failures, each read as a suggestion of [n] seconds,
    and then a success. *)
Lemma two_rate_limited_failures (st0 st1 st2 st3 : St) (e1 e2 : E) (v : V) (n : Z) :
  func st0 = (Throw e1, st1) ->
  func st1 = (Throw e2, st2) ->
  func st2 = (Return v, st3) ->
  n <> 0%Z ->
  is_rate_limit (str e1) = true -> retry_secs (str e1) = Some n ->
  is_rate_limit (str e2) = true -> retry_secs (str e2) = Some n ->
  retry_on_failure str 3 delay func st0
    = (Returned v, [Call; Sleep (inject_Z n); Call; Sleep (inject_Z n); Call], st3)
  /\ retry_on_failure str 2 delay func st0
    = (Raised e2, [Call; Sleep (inject_Z n); Call; Sleep (inject_Z n)], st2).
Proof.
  intros H0 H1 H2 Hn Hm1 Hs1 Hm2 Hs2.
  unfold retry_on_failure.
  change (Z.to_nat 3) with 3%nat. change (Z.to_nat 2) with 2%nat.
  rewrite !(attempts_rate_limited _ _ _ _ st0 e1 st1 H0 Hm1).
  rewrite !(attempts_rate_limited _ _ _ _ st1 e2 st2 H1 Hm2).
  rewrite (attempts_return _ _ _ _ st2 v st3 H2).
  rewrite (wait_time_suggested _ n Hs1), (wait_time_suggested _ n Hs2) by exact Hn.
  split; reflexivity.
Qed.

(** C3, as the code has it.  An operation raises at its first two calls,
    each time with an error whose text carries a rate-limit marker and
    "retry_delay { seconds: 5 }" as its first such clause, and returns at the
    third.  With three attempts allowed the wrapper sleeps 5 seconds after
    each failure and returns the value; with two, it sleeps 5 seconds after
    each failure as well, the second included, and then raises the second
    error. *)
Theorem rate_limited_twice_then_success (st0 st1 st2 st3 : St) (e1 e2 : E) (v : V) :
  func st0 = (Throw e1, st1) ->
  func st1 = (Throw e2, st2) ->
  func st2 = (Return v, st3) ->
  is_rate_limit (str e1) = true -> suggests_five_seconds (str e1) ->
  is_rate_limit (str e2) = true -> suggests_five_seconds (str e2) ->
  retry_on_failure str 3 delay func st0
    = (Returned v, [Call; Sleep 5; Call; Sleep 5; Call], st3)
  /\ retry_on_failure str 2 delay func st0
    = (Raised e2, [Call; Sleep 5; Call; Sleep 5], st2).
Proof.
  intros H0 H1 H2 Hm1 Hs1 Hm2 Hs2.
  apply (two_rate_limited_failures st0 st1 st2 st3 e1 e2 v 5);
    try assumption; try discriminate; apply retry_secs_of_clause; assumption.
Qed.

End Single.

Lemma yielded_app {A} (tr1 tr2 : list (gen_event A)) :
  yielded (tr1 ++ tr2) = yielded tr1 ++ yielded tr2.
Proof. unfold yielded. apply omap_app. Qed.

Lemma yielded_items {A} (items : list A) : yielded (map Yield items) = items.
Proof. induction items as [|x items IH]; [reflexivity|]. cbn. f_equal. exact IH. Qed.

(** What one failed attempt followed by a sleep has yielded. *)
Lemma yielded_attempt {A} (items : list A) (secs : Q) :
  yielded (GenCall :: map Yield items ++ [GenSleep secs]) = items.
Proof.
  change (GenCall :: map Yield items ++ [GenSleep secs])
    with ([GenCall] ++ map Yield items ++ [@GenSleep A secs]).
  rewrite !yielded_app, yielded_items. cbn. apply app_nil_r.
Qed.

Section Streaming.
Context {E A St : Type}.
Variable str : E -> pystr.
Variable delay : Q.
Variable func : St -> (list A * option E) * St.

Lemma gen_all_fail_length n st atts st' :
  gen_all_fail func n st = Some (atts, st') -> length atts = n.
Proof.
  revert st atts st'. induction n as [|k IH]; intros st atts st'; simpl.
  - intros [= <- _]. reflexivity.
  - destruct (func st) as [[items [e|]] st1]; [|discriminate].
    destruct (gen_all_fail func k st1) as [[atts1 st2]|] eqn:Ek; [|discriminate].
    intros [= <- _]. simpl. f_equal. exact (IH _ _ _ Ek).
Qed.

(** The loop when every generator it makes raises: all the items of all
    the attempts reach the consumer, and the last exception is raised. *)
Lemma gen_attempts_all_fail (max_retries : Z) (todo : nat) :
  forall (attempt : Z) (last_exception : option E) (st : St) atts st_end,
  (todo <> O -> (Z.of_nat todo + attempt = max_retries)%Z) ->
  gen_all_fail func todo st = Some (atts, st_end) ->
  exists tr,
    gen_attempts str max_retries delay func todo attempt last_exception st
    = (match last atts, last_exception with
       | Some (_, e), _ => GenRaised e
       | None, Some e => GenRaised e
       | None, None => Finished
       end, tr, st_end)
    /\ yielded tr = concat (map fst atts).
Proof.
  induction todo as [|todo' IH]; intros attempt last_exception st atts st_end Hinv; simpl.
  - intros [= <- <-]. simpl. destruct last_exception; eexists; split; reflexivity.
  - destruct (func st) as [[items [e|]] st1]; [|discriminate].
    destruct (gen_all_fail func todo' st1) as [[atts1 st2]|] eqn:Ek; [|discriminate].
    intros [= <- <-].
    pose proof (gen_all_fail_length _ _ _ _ Ek) as Hlen.
    assert (Hnext : todo' <> O -> (Z.of_nat todo' + (attempt + 1) = max_retries)%Z)
      by (intros _; specialize (Hinv ltac:(discriminate)); lia).
    destruct (IH (attempt + 1)%Z (Some e) st1 atts1 st2 Hnext Ek) as (tr1 & Hrun & Htr).
    assert (Hres : match last ((items, e) :: atts1), last_exception with
                   | Some (_, e0), _ => GenRaised e0
                   | None, Some e0 => GenRaised e0
                   | None, None => Finished
                   end
                   = match last atts1, Some e with
                     | Some (_, e0), _ => GenRaised e0
                     | None, Some e0 => GenRaised e0
                     | None, None => Finished
                     end).
    { destruct atts1 as [|a1 atts1]; [reflexivity|].
      rewrite last_cons. destruct (last (a1 :: atts1)) as [[? ?]|] eqn:El; [reflexivity|].
      apply last_None in El. discriminate El. }
    destruct (is_rate_limit (str e)) eqn:Hrl.
    + rewrite Hrun, after_eq, Hres. eexists. split; [reflexivity|].
      rewrite yielded_app, yielded_attempt, Htr. reflexivity.
    + destruct (attempt <? max_retries - 1)%Z eqn:Hlt.
      * rewrite Hrun, after_eq, Hres. eexists. split; [reflexivity|].
        rewrite yielded_app, yielded_attempt, Htr. reflexivity.
      * apply Z.ltb_ge in Hlt. specialize (Hinv ltac:(discriminate)).
        assert (Ht : todo' = O) by lia. rewrite Ht in Hlen, Ek.
        destruct atts1; [|discriminate Hlen].
        simpl in Ek. injection Ek as <-.
        eexists. split; [reflexivity|].
        change (GenCall :: map Yield items) with ([@GenCall A] ++ map Yield items).
        rewrite yielded_app, yielded_items. simpl. rewrite app_nil_r. reflexivity.
Qed.

(** The loop when the first [k] generators raise and more attempts are
    left: each failure is slept on and retried. *)
Lemma gen_attempts_retry (max_retries : Z) (k : nat) :
  forall (todo : nat) (attempt : Z) (last_exception : option E) (st : St) atts st_k,
  (Z.of_nat (k + S todo) + attempt = max_retries)%Z ->
  gen_all_fail func k st = Some (atts, st_k) ->
  exists evs last_exception',
    gen_attempts str max_retries delay func (k + S todo) attempt last_exception st
    = after evs (gen_attempts str max_retries delay func (S todo)
                   (attempt + Z.of_nat k)%Z last_exception' st_k)
    /\ yielded evs = concat (map fst atts).
Proof.
  induction k as [|k IH]; intros todo attempt last_exception st atts st_k Hinv Hfail.
  - simpl in Hfail. injection Hfail as <- <-. exists [], last_exception.
    rewrite Z.add_0_r, after_nil. split; reflexivity.
  - simpl in Hfail.
    destruct (func st) as [[items [e|]] st1] eqn:Ef; [|discriminate].
    destruct (gen_all_fail func k st1) as [[atts1 st2]|] eqn:Ek; [|discriminate].
    injection Hfail as <- <-.
    destruct (IH todo (attempt + 1)%Z (Some e) st1 atts1 st2 ltac:(lia) Ek)
      as (evs1 & le & Hrun & Hy).
    replace (attempt + 1 + Z.of_nat k)%Z with (attempt + Z.of_nat (S k))%Z
      in Hrun by lia.
    assert (Hlt : (attempt <? max_retries - 1)%Z = true) by (apply Z.ltb_lt; lia).
    exists ((GenCall :: map Yield items
             ++ [GenSleep (if is_rate_limit (str e) then wait_time delay (str e) else delay)])
            ++ evs1), le.
    destruct (gen_attempts str max_retries delay func (S todo)
                (attempt + Z.of_nat (S k))%Z le st2) as [[r tr] st'].
    split.
    + change (S k + S todo)%nat with (S (k + S todo)). cbn [gen_attempts].
      rewrite Ef. cbv zeta. rewrite Hlt, Hrun.
      destruct (is_rate_limit (str e)); rewrite !after_eq, <- app_assoc; reflexivity.
    + rewrite yielded_app, yielded_attempt, Hy. reflexivity.
Qed.

(** C5, as the code has it.  When every attempt fails, the wrapper ends
    by raising the last error caught, once, and the consumer has received
    the items of every attempt, one attempt after the other.  When the
    attempts fail up to one that runs to its end, the consumer has received
    the items of the failed attempts and then all the items of that last
    one: what a failed attempt has yielded is yielded again when the retried
    attempt produces it anew. *)
Theorem streaming_retry_emits_every_attempt (max_retries : Z) (k : nat) (st : St)
    (atts : list (list A * E)) (st_k : St) :
  gen_all_fail func k st = Some (atts, st_k) ->
  (k = Z.to_nat max_retries ->
     forall items e, last atts = Some (items, e) ->
     exists tr,
       retry_on_failure_async_gen str max_retries delay func st = (GenRaised e, tr, st_k)
       /\ yielded tr = concat (map fst atts))
  /\ ((k < Z.to_nat max_retries)%nat ->
     forall items st', func st_k = ((items, None), st') ->
     exists tr,
       retry_on_failure_async_gen str max_retries delay func st = (Finished, tr, st')
       /\ yielded tr = concat (map fst atts) ++ items).
Proof.
  intros Hfail. unfold retry_on_failure_async_gen. split.
  - intros -> items e Hlast.
    destruct (gen_attempts_all_fail max_retries (Z.to_nat max_retries) 0%Z None st atts st_k)
      as (tr & Hrun & Hy); [lia | exact Hfail |].
    rewrite Hlast in Hrun. eauto.
  - intros Hk items st' Hend.
    replace (Z.to_nat max_retries) with (k + S (Z.to_nat max_retries - S k))%nat by lia.
    destruct (gen_attempts_retry max_retries k (Z.to_nat max_retries - S k) 0%Z None st atts st_k)
      as (evs & le & -> & Hy); [lia | exact Hfail |].
    cbn [gen_attempts]. rewrite Hend, after_eq.
    eexists. split; [reflexivity|].
    rewrite yielded_app, Hy. f_equal.
    change (GenCall :: map Yield items) with ([@GenCall A] ++ map Yield items).
    rewrite yielded_app, yielded_items. reflexivity.
Qed.
End Streaming.

(** C3, counterexample.  The error text carries the marker "429" and
    "retry_delay { seconds: 5 }"; with two attempts allowed the wrapper has
    slept twice, not once, when it raises. *)
Lemma two_attempts_sleep_twice :
  contains (u "429") quota_error = true
  /\ contains (u "retry_delay { seconds: 5 }") quota_error = true
  /\ exists tr st,
       retry_on_failure text_of 2 1 flaky 0%nat = (Raised quota_error, tr, st)
       /\ sleeps tr = [5%Q; 5%Q]
       /\ length (sleeps tr) <> 1%nat.
Proof.
  split; [vm_compute; reflexivity|]. split; [vm_compute; reflexivity|].
  eexists _, _. split; [vm_compute; reflexivity|].
  split; [reflexivity | discriminate].
Qed.

Lemma rate_limited_twice_then_success_witness :
  retry_on_failure text_of 3 1 flaky 0%nat
    = (Returned 42%nat, [Call; Sleep 5; Call; Sleep 5; Call], 3%nat)
  /\ retry_on_failure text_of 2 1 flaky 0%nat
    = (Raised quota_error, [Call; Sleep 5; Call; Sleep 5], 2%nat).
Proof.
  apply (rate_limited_twice_then_success text_of 1 flaky 0%nat 1%nat 2%nat 3%nat
           quota_error quota_error 42%nat).
  - reflexivity.
  - reflexivity.
  - reflexivity.
  - vm_compute. reflexivity.
  - exists (u "429 Resource has been exhausted. "), (u "").
    split; vm_compute; reflexivity.
  - vm_compute. reflexivity.
  - exists (u "429 Resource has been exhausted. "), (u "").
    split; vm_compute; reflexivity.
Defined.

Lemma exhausted_attempts_raise_last_error_witness :
  exists tr0,
    retry_on_failure text_of 2 1 flaky 0%nat
    = (Raised quota_error, tr0 ++ [Call; Sleep 5], 2%nat).
Proof.
  destruct (exhausted_attempts_raise_last_error text_of 1 flaky 2 0%nat
              [quota_error; quota_error] quota_error 2%nat)
    as (tr & Hrun & Hsleep); [reflexivity | reflexivity |].
  destruct Hsleep as (tr0 & secs & -> & Hsecs & _).
  { left. vm_compute. reflexivity. }
  exists tr0. rewrite Hrun, (Hsecs 5%Z); [reflexivity | | discriminate].
  exists (u "429 Resource has been exhausted. "), (u "5"), (u " }").
  repeat split; try (vm_compute; reflexivity). discriminate.
Defined.

(** C5, counterexample.  The 1 that the failed attempt had yielded is
    yielded a second time by the retried attempt. *)
Lemma retried_attempt_emits_again :
  exists tr st,
    retry_on_failure_async_gen text_of 2 1 broken_stream 0%nat = (Finished, tr, st)
    /\ yielded tr = [1%nat; 1%nat; 2%nat]
    /\ ~ NoDup (yielded tr).
Proof.
  eexists _, _. split; [vm_compute; reflexivity|].
  split; [reflexivity|].
  change (~ NoDup [1%nat; 1%nat; 2%nat]).
  intros Hnd. apply NoDup_cons in Hnd as [Hnotin _].
  apply Hnotin. constructor.
Qed.

Lemma streaming_retry_emits_every_attempt_witness :
  exists tr,
    retry_on_failure_async_gen text_of 2 1 broken_stream 0%nat = (Finished, tr, 2%nat)
    /\ yielded tr = [1%nat] ++ [1%nat; 2%nat].
Proof.
  destruct (streaming_retry_emits_every_attempt text_of 1 broken_stream 2 1%nat 0%nat
              [([1%nat], u "connection reset")] 1%nat) as [_ H].
  - reflexivity.
  - apply (H ltac:(vm_compute; lia) [1%nat; 2%nat] 2%nat). reflexivity.
Defined.

End RetryProps.

(** * Further properties of the intent analyzer *)

Module AnalyzerMore.
Import Re IntentAnalyzer AnalyzerSpec AnalyzerNotions AnalyzerProps.

Lemma in_list_In (x : pystr) (l : list pystr) : in_list x l = true <-> In x l.
Proof.
  unfold in_list. rewrite existsb_exists. split.
  - intros (y & Hy & E). apply eqb_eq in E. subst. exact Hy.
  - intros H. exists x. split; [exact H | apply eqb_eq; reflexivity].
Qed.

(** The utterances "1" to "5" are single words without a dot. *)
Lemma numeric_shape (x : pystr) :
  in_list x numeric_refs = true ->
  length (split x) = 1%nat /\ any_in [u "."; u "файл"] x = false.
Proof.
  intros H. apply in_list_In in H. simpl in H.
  repeat (destruct H as [<- | H]; [split; reflexivity|]). contradiction.
Qed.

(** X1. What the memory holds does not matter for an utterance of more
    than two words: it is never taken for a context reference, and the
    answer is the classifier's. *)
Theorem long_utterance_ignores_context (cm cm' : context) (s : pystr) :
  (2 < length (split (strip (lower s))))%nat ->
  is_context_reference cm (strip (lower s)) = false
  /\ analyze_intent cm s = analyze_intent cm' s.
Proof.
  intros Hlen.
  assert (Hno : forall c : context, is_context_reference c (strip (lower s)) = false).
  { intros c. unfold is_context_reference.
    destruct (in_list (strip (lower s)) numeric_refs) eqn:Hn.
    - apply numeric_shape in Hn. lia.
    - replace (length (split (strip (lower s))) <=? 2)%nat with false
        by (symmetry; apply Nat.leb_gt; exact Hlen).
      reflexivity. }
  split; [apply Hno|].
  rewrite !analyze_intent_classify by apply Hno. reflexivity.
Qed.

Lemma long_utterance_ignores_context_witness :
  analyze_intent pending_delete (u "удали файл notes.txt")
  = analyze_intent ∅ (u "удали файл notes.txt").
Proof.
  apply (long_utterance_ignores_context pending_delete ∅ (u "удали файл notes.txt")).
  vm_compute. lia.
Defined.

(** X2. Under a pending [delete_file] with a dict of parameters, an
    utterance of at most two words that names a file (a dot, or "файл") and
    holds the word "переименуй" is answered with [move_file] and the
    rename-to-backup action on the recorded target, [None] when no target
    was recorded. *)
Theorem rename_reference_resolution (cm : context) (lp : gmap string pyval) (s : pystr) :
  cm !! "last_intent" = Some (PyStr (u "delete_file")) ->
  cm !! "last_params" = Some (PyDict lp) ->
  (length (split (strip (lower s))) <= 2)%nat ->
  any_in [u "."; u "файл"] (strip (lower s)) = true ->
  contains (u "переименуй") (strip (lower s)) = true ->
  analyze_intent cm s =
    Ok (PyStr (u "move_file"),
        PyDict {[ "target" := default PyNone (lp !! "target");
                  "action" := PyStr (u "rename_to_backup");
                  "context_action" := PyStr (u "rename_for_deletion") ]}).
Proof.
  intros Hi Hp Hlen Hdot Hren.
  set (x := strip (lower s)) in *.
  assert (Hn : in_list x numeric_refs = false).
  { destruct (in_list x numeric_refs) eqn:Hn; [|reflexivity].
    apply numeric_shape in Hn. destruct Hn as [_ Hn]. congruence. }
  assert (Hany : any_in [u "переименуй"; u "rename"] x = true).
  { unfold any_in. cbn [existsb]. rewrite Hren. reflexivity. }
  assert (Href : is_context_reference cm x = true).
  { assert (Hone : any_in [u "переименуй"] x = true)
      by (unfold any_in; cbn [existsb]; rewrite Hren; reflexivity).
    unfold is_context_reference, cm_get. rewrite Hn, Hdot, Hone, Hi.
    replace (length (split x) <=? 2)%nat with true
      by (symmetry; apply Nat.leb_le; exact Hlen).
    reflexivity. }
  rewrite analyze_intent_reference by exact Href. fold x.
  unfold handle_context_reference, cm_get. rewrite Hn, Hi, Hp. cbn [default].
  unfold handle_textual_reference. rewrite Hany. reflexivity.
Qed.

Lemma rename_reference_resolution_witness :
  analyze_intent pending_delete (u "Переименуй файл") =
    Ok (PyStr (u "move_file"),
        PyDict {[ "target" := PyStr (u "a.txt");
                  "action" := PyStr (u "rename_to_backup");
                  "context_action" := PyStr (u "rename_for_deletion") ]}).
Proof.
  refine (rename_reference_resolution pending_delete
            {[ "target" := PyStr (u "a.txt") ]} (u "Переименуй файл") _ _ _ _ _).
  - reflexivity.
  - reflexivity.
  - vm_compute. lia.
  - vm_compute. reflexivity.
  - vm_compute. reflexivity.
Defined.

(** X3. Without a pending [delete_file], an utterance that is none of "1"
    to "5" and holds none of the context keywords is answered as with an
    empty memory: a rename directive is then no reference. *)
Theorem no_pending_delete_no_rename_reference (cm : context) (s : pystr) :
  eq_str (cm_get cm "last_intent" PyNone) (u "delete_file") = false ->
  in_list (strip (lower s)) numeric_refs = false ->
  any_in context_keywords (strip (lower s)) = false ->
  is_context_reference cm (strip (lower s)) = false
  /\ analyze_intent cm s = analyze_intent ∅ s.
Proof.
  intros Hi Hn Hk.
  assert (Hno : forall c : context,
            eq_str (cm_get c "last_intent" PyNone) (u "delete_file") = false ->
            is_context_reference c (strip (lower s)) = false).
  { intros c Hc. unfold is_context_reference. rewrite Hn, Hk, Hc.
    destruct (_ && negb _); [reflexivity|]. destruct (_ && _); reflexivity. }
  split; [apply Hno, Hi|].
  rewrite !analyze_intent_classify; [reflexivity | apply Hno; reflexivity | apply Hno, Hi].
Qed.

Lemma no_pending_delete_no_rename_reference_witness :
  is_context_reference reading_turn (u "переименуй файл") = false
  /\ analyze_intent reading_turn (u "переименуй файл")
     = analyze_intent ∅ (u "переименуй файл").
Proof.
  apply (no_pending_delete_no_rename_reference reading_turn (u "переименуй файл")).
  - reflexivity.
  - reflexivity.
  - vm_compute. reflexivity.
Defined.

(** *** Affirmations and ordinals *)

Lemma update_get_intent cm intent params response :
  cm_get (update_context_memory cm intent params response) "last_intent" PyNone
  = PyStr intent.
Proof.
  unfold cm_get, update_context_memory.
  rewrite !lookup_insert_ne by done. rewrite lookup_insert_eq. reflexivity.
Qed.

Lemma update_get_params cm intent params response :
  cm_get (update_context_memory cm intent params response) "last_params" (PyDict ∅)
  = PyDict params.
Proof.
  unfold cm_get, update_context_memory.
  rewrite lookup_insert_ne by done. rewrite lookup_insert_eq. reflexivity.
Qed.

Lemma truthy_dict (d : gmap string pyval) : d <> ∅ -> truthy (PyDict d) = true.
Proof.
  intros H. simpl. apply negb_true_iff, Nat.eqb_neq.
  intros Hs. apply H, map_size_empty_iff, Hs.
Qed.

(** X4. Record and replay: after [update_context_memory] with a non-empty
    intent and a non-empty dict of parameters, each of the affirmations "да",
    "давай", "сделай это", "выполни" is answered with exactly the recorded
    intent and parameters; when the recorded parameters are the empty dict,
    the same affirmations are answered as unresolved references instead. *)
Theorem affirmation_replays_recorded_turn (cm : context) (intent : pystr)
    (params : gmap string pyval) (response : pyval) (x : pystr) :
  In x affirmations ->
  intent <> [] ->
  (params <> ∅ ->
     analyze_intent (update_context_memory cm intent params response) x
     = Ok (PyStr intent, PyDict params))
  /\ analyze_intent (update_context_memory cm intent ∅ response) x
     = Ok (unresolved_reference x).
Proof.
  intros Hx Hi.
  assert (Hti : truthy (PyStr intent) = true) by (destruct intent; [contradiction | reflexivity]).
  assert (Hstep : forall p,
            analyze_intent (update_context_memory cm intent p response) x
            = if truthy (PyDict p) then Ok (PyStr intent, PyDict p)
              else Ok (unresolved_reference x)).
  { intros p. simpl in Hx.
    repeat (destruct Hx as [<- | Hx]); try contradiction.
    all: rewrite analyze_intent_reference by reflexivity.
    all: match goal with |- context [strip (lower ?s)] =>
           let v := eval vm_compute in (strip (lower s)) in
           change (strip (lower s)) with v end.
    all: unfold handle_context_reference.
    all: rewrite update_get_intent, update_get_params.
    all: match goal with |- context [in_list ?a numeric_refs] =>
           change (in_list a numeric_refs) with false end.
    all: cbv iota; unfold handle_textual_reference.
    all: match goal with |- context [any_in [u "переименуй"; u "rename"] ?a] =>
           change (any_in [u "переименуй"; u "rename"] a) with false end.
    all: match goal with |- context [any_in [u "да"; u "давай"; u "сделай"; u "выполни"] ?a] =>
           change (any_in [u "да"; u "давай"; u "сделай"; u "выполни"] a) with true end.
    all: rewrite Hti; cbn [andb]; destruct (truthy (PyDict p)); reflexivity. }
  split.
  - intros Hp. rewrite Hstep, truthy_dict by exact Hp. reflexivity.
  - rewrite Hstep. reflexivity.
Qed.

Lemma affirmation_replays_recorded_turn_witness :
  analyze_intent reading_turn (u "да")
  = Ok (PyStr (u "read_file"), PyDict {[ "target" := PyStr (u "notes.txt") ]}).
Proof.
  refine (proj1 (affirmation_replays_recorded_turn ∅ (u "read_file")
                   {[ "target" := PyStr (u "notes.txt") ]} PyNone (u "да") _ _) _).
  - left. reflexivity.
  - vm_compute. discriminate.
  - intros H. apply (f_equal (fun m : gmap string pyval => m !! "target")) in H.
    vm_compute in H. discriminate H.
Defined.

(** X5. The ordinal phrases ("первый", ..., "третий вариант") are taken
    for context references but never resolved: whatever the memory holds,
    suggestions included, the answer is [general] with the reference marker. *)
Theorem ordinal_phrases_never_resolve (cm : context) (x : pystr) :
  In x ordinal_phrases ->
  is_context_reference cm x = true
  /\ analyze_intent cm x = Ok (unresolved_reference x).
Proof.
  intros Hx. simpl in Hx.
  repeat (destruct Hx as [<- | Hx]); try contradiction.
  all: split; [reflexivity|].
  all: rewrite analyze_intent_reference by reflexivity.
  all: match goal with |- context [strip (lower ?s)] =>
         let v := eval vm_compute in (strip (lower s)) in
         change (strip (lower s)) with v end.
  all: reflexivity.
Qed.

Lemma ordinal_phrases_never_resolve_witness :
  analyze_intent pending_delete (u "второй вариант")
  = Ok (unresolved_reference (u "второй вариант")).
Proof.
  apply (ordinal_phrases_never_resolve pending_delete (u "второй вариант")).
  do 6 right. left. reflexivity.
Defined.

(** *** The memory holds one turn *)

(** Recording a turn overwrites the one recorded before. *)
Lemma update_twice (cm : context) (i1 i2 : pystr)
    (p1 p2 : gmap string pyval) (r1 r2 : pyval) :
  update_context_memory (update_context_memory cm i1 p1 r1) i2 p2 r2
  = update_context_memory cm i2 p2 r2.
Proof.
  unfold update_context_memory. apply map_eq. intros k.
  destruct (decide (k = "last_response")) as [->|H1];
    [rewrite !lookup_insert_eq; reflexivity|].
  rewrite !(lookup_insert_ne _ "last_response") by congruence.
  destruct (decide (k = "last_params")) as [->|H2];
    [rewrite !lookup_insert_eq; reflexivity|].
  rewrite !(lookup_insert_ne _ "last_params") by congruence.
  destruct (decide (k = "last_intent")) as [->|H3];
    [rewrite !lookup_insert_eq; reflexivity|].
  rewrite !(lookup_insert_ne _ "last_intent") by congruence.
  rewrite !(lookup_insert_ne _ "last_response") by congruence.
  rewrite !(lookup_insert_ne _ "last_params") by congruence.
  rewrite !(lookup_insert_ne _ "last_intent") by congruence.
  reflexivity.
Qed.

(** X6. A reachable memory is empty or holds exactly the last turn
    recorded, three entries and nothing of the turns before: it is never a
    history. *)
Theorem reachable_memory_is_last_turn (cm : context) :
  reachable cm ->
  cm = ∅
  \/ exists intent params response,
       cm = update_context_memory ∅ intent params response /\ size cm = 3%nat.
Proof.
  induction 1 as [|cm i p r _ IH|cm _ _].
  - left. reflexivity.
  - right. exists i, p, r.
    assert (E : update_context_memory cm i p r = update_context_memory ∅ i p r).
    { destruct IH as [->|(i0 & p0 & r0 & -> & _)]; [reflexivity|].
      apply update_twice. }
    split; [exact E|]. rewrite E. unfold update_context_memory.
    rewrite !map_size_insert_None; [rewrite map_size_empty; reflexivity | ..].
    + apply lookup_empty.
    + rewrite lookup_insert_ne by done. apply lookup_empty.
    + rewrite !lookup_insert_ne by done. apply lookup_empty.
  - left. reflexivity.
Qed.

Lemma reachable_memory_is_last_turn_witness :
  one_turn = ∅
  \/ exists intent params response,
       one_turn = update_context_memory ∅ intent params response
       /\ size one_turn = 3%nat.
Proof.
  apply (reachable_memory_is_last_turn one_turn).
  apply reach_update, reach_init.
Defined.

(** *** What the classifier can answer *)

(** The five answers of the keyword fallback. *)
Lemma fallback_answers (x : pystr) (r : pyval * pyval) :
  analyze_fallback_keywords x = Some r ->
  exists name,
    In name ["create_file"; "create_directory"; "read_file";
             "delete_file"; "list_directory"]
    /\ r = (PyStr (u name), PyDict {[ "target" := PyNone ]}).
Proof.
  unfold analyze_fallback_keywords, keyword_patterns. cbn [scan_keywords].
  repeat match goal with
  | |- (if ?c then _ else _) = Some _ -> _ =>
    destruct c;
      [intros [= <-]; eexists; split; [|reflexivity]; simpl; tauto |]
  end.
  discriminate.
Qed.

(** X7. The keyword fallback never extracts a target: when it answers, the
    intent is one of [create_file], [create_directory], [read_file],
    [delete_file], [list_directory] and the parameters are [{target: None}]. *)
Theorem fallback_has_no_target (x : pystr) (r : pyval * pyval) :
  analyze_fallback_keywords x = Some r ->
  snd r = PyDict {[ "target" := PyNone ]}
  /\ exists name,
       fst r = PyStr (u name)
       /\ In name ["create_file"; "create_directory"; "read_file";
                   "delete_file"; "list_directory"].
Proof.
  intros H. destruct (fallback_answers x r H) as (name & Hin & ->).
  split; [reflexivity|]. exists name. split; [reflexivity | exact Hin].
Qed.

Lemma fallback_has_no_target_witness :
  exists name,
    PyStr (u "read_file") = PyStr (u name)
    /\ In name ["create_file"; "create_directory"; "read_file";
                "delete_file"; "list_directory"].
Proof.
  refine (proj2 (fallback_has_no_target (u "что там покажи мне")
                   (PyStr (u "read_file"), PyDict {[ "target" := PyNone ]}) _)).
  vm_compute. reflexivity.
Defined.

Lemma scan_rules_some (l : list (string * string)) (x : pystr) (r : pyval * pyval) :
  scan_rules l x = Some r ->
  exists intent pattern groups,
    In (intent, pattern) l /\ search pattern x = Some groups
    /\ r = on_match intent groups x.
Proof.
  induction l as [|[i p] l IH]; simpl; [discriminate|].
  destruct (search p x) as [g|] eqn:E.
  - intros [= <-]. exists i, p, g. auto.
  - intros H. destruct (IH H) as (i' & p' & g' & Hin & Hs & Hr).
    exists i', p', g'. auto.
Qed.

(** X8. For an utterance that is no context reference the intent answered
    is one of the eight of the pattern table or [general]; the derived
    intents [move_file] and [write_file] are never answered by the classifier,
    and [content] is set for [create_file] only. *)
Theorem classifier_answers (cm : context) (s : pystr) (intent params : pyval) :
  is_context_reference cm (strip (lower s)) = false ->
  analyze_intent cm s = Ok (intent, params) ->
  (exists name, intent = PyStr (u name) /\ In name classifier_intents)
  /\ intent <> PyStr (u "move_file")
  /\ intent <> PyStr (u "write_file")
  /\ (forall d, params = PyDict d -> is_Some (d !! "content") ->
        intent = PyStr (u "create_file")).
Proof.
  intros Hc Hres.
  assert (Hmain : (exists name, intent = PyStr (u name) /\ In name classifier_intents)
                  /\ (forall d, params = PyDict d -> is_Some (d !! "content") ->
                        intent = PyStr (u "create_file"))).
  { rewrite analyze_intent_classify in Hres by exact Hc.
    destruct (scan_intents intent_patterns (strip (lower s))) as [r|] eqn:Es.
    - injection Hres as ->. rewrite scan_intents_rules in Es.
      apply scan_rules_some in Es. destruct Es as (i & p & g & Hin & _ & Hr).
      unfold on_match in Hr. split.
      + exists i. split; [destruct (String.eqb i "create_file"); [destruct (search _ _)|];
                          congruence|].
        simpl in Hin.
        repeat (destruct Hin as [Hin | Hin]; [injection Hin as <- _; simpl; tauto|]).
        contradiction.
      + intros d -> [v Hv]. destruct (String.eqb i "create_file") eqn:Ei.
        * apply String.eqb_eq in Ei. subst i. destruct (search _ _); congruence.
        * injection Hr as _ ->. rewrite lookup_singleton_ne in Hv by done.
          discriminate Hv.
    - destruct (analyze_fallback_keywords (strip (lower s))) as [r|] eqn:Ek.
      + injection Hres as ->. apply fallback_answers in Ek.
        destruct Ek as (name & Hin & Hr). injection Hr as -> ->. split.
        * exists name. split; [reflexivity|]. simpl in Hin. simpl. tauto.
        * intros d [= <-] [v Hv].
          rewrite lookup_singleton_ne in Hv by done. discriminate Hv.
      + injection Hres as <- <-. split.
        * exists "general". split; [reflexivity | simpl; tauto].
        * intros d [= <-] [v Hv]. rewrite lookup_empty in Hv. discriminate Hv. }
  destruct Hmain as [(name & -> & Hin) Hcontent].
  split; [eauto|]. split; [|split; [|exact Hcontent]].
  all: intros E; simpl in Hin;
    repeat (destruct Hin as [<- | Hin]; [vm_compute in E; discriminate E|]);
    contradiction.
Qed.

Lemma classifier_answers_witness :
  exists name, PyStr (u "create_file") = PyStr (u name) /\ In name classifier_intents.
Proof.
  refine (proj1 (classifier_answers ∅ (u "создай файл a.txt с текстом привет")
                   (PyStr (u "create_file"))
                   (PyDict {[ "target" := PyStr (u "a.txt");
                              "content" := PyStr (u "привет") ]}) _ _)).
  - reflexivity.
  - vm_compute. reflexivity.
Defined.

(** *** Normalization *)

(** Case analysis on every comparison of the goal. *)
Ltac split_comparisons :=
  repeat match goal with
  | |- context [(?a <=? ?b)] => destruct (N.leb_spec a b); try lia
  | |- context [(?a =? ?b)] => destruct (N.eqb_spec a b); try lia
  end; try reflexivity.

(** A string with no whitespace in front. *)
Lemma lstrip_fixed (s : pystr) :
  match s with [] => True | c :: _ => is_space c = false end -> lstrip s = s.
Proof. destruct s as [|c s]; [reflexivity|]. simpl. intros ->. reflexivity. Qed.

Lemma lstrip_head (s : pystr) :
  match lstrip s with [] => True | c :: _ => is_space c = false end.
Proof.
  induction s as [|c s IH]; [exact I|]. simpl.
  destruct (is_space c) eqn:E; [exact IH | exact E].
Qed.

Lemma lstrip_idem (s : pystr) : lstrip (lstrip s) = lstrip s.
Proof. apply lstrip_fixed, lstrip_head. Qed.

Lemma rstrip_idem (s : pystr) : rstrip (rstrip s) = rstrip s.
Proof. unfold rstrip. rewrite rev_involutive, lstrip_idem. reflexivity. Qed.

Lemma lstrip_snoc (l : pystr) (c : char) :
  is_space c = false -> exists l2, lstrip (l ++ [c]) = l2 ++ [c].
Proof.
  intros Hc. induction l as [|x l IH]; simpl.
  - rewrite Hc. exists []. reflexivity.
  - destruct (is_space x); [exact IH|]. exists (x :: l). reflexivity.
Qed.

Lemma rstrip_head (s : pystr) :
  match s with [] => True | c :: _ => is_space c = false end ->
  match rstrip s with [] => True | c :: _ => is_space c = false end.
Proof.
  destruct s as [|c s]; [intros _; exact I|]. intros Hc. unfold rstrip.
  cbn [rev]. destruct (lstrip_snoc (rev s) c Hc) as [l2 ->].
  rewrite rev_unit. exact Hc.
Qed.

Lemma strip_idem (s : pystr) : strip (strip s) = strip s.
Proof.
  unfold strip.
  rewrite (lstrip_fixed (rstrip (lstrip s))) by apply rstrip_head, lstrip_head.
  apply rstrip_idem.
Qed.

Lemma normalize_idem (s : pystr) : strip (lower (strip (lower s))) = strip (lower s).
Proof. rewrite <- PyStrProps.strip_lower, PyStrProps.lower_idem. apply strip_idem. Qed.

(** X16. Case and surrounding whitespace do not matter: lowering the
    utterance, stripping it, or both, before it is analysed changes nothing
    in the answer. *)
Theorem analyze_intent_normalizes (cm : context) (s : pystr) :
  analyze_intent cm (lower s) = analyze_intent cm s
  /\ analyze_intent cm (strip s) = analyze_intent cm s
  /\ analyze_intent cm (strip (lower s)) = analyze_intent cm s.
Proof.
  unfold analyze_intent. cbv zeta.
  rewrite PyStrProps.lower_idem, normalize_idem.
  rewrite <- (PyStrProps.strip_lower s), strip_idem. repeat split; reflexivity.
Qed.

End AnalyzerMore.

(** * Further properties of the retry decorators *)

Module RetryMore.
Import Re Retry RetrySpec RetryNotions RetryProps.

Section Single.
Context {E V St : Type}.
Variable str : E -> pystr.
Variable delay : Q.
Variable func : St -> outcome E V * St.

Lemma attempts_retried max_retries todo attempt last_exception st e st' :
  func st = (Throw e, st') ->
  (attempt < max_retries - 1)%Z ->
  attempts str max_retries delay func (S todo) attempt last_exception st
  = after [Call; Sleep (pause delay (str e))]
      (attempts str max_retries delay func todo (attempt + 1)%Z (Some e) st').
Proof.
  intros H Hlt. cbn [attempts]. rewrite H. cbv zeta. unfold pause.
  destruct (is_rate_limit (str e)); [reflexivity|].
  apply Z.ltb_lt in Hlt. rewrite Hlt. reflexivity.
Qed.

(** The loop while failures are retried: [k] failures, more attempts left. *)
Lemma attempts_failures (max_retries : Z) (k : nat) :
  forall (todo : nat) (attempt : Z) (last_exception : option E) (st : St) errs st_k,
  (Z.of_nat (k + S todo) + attempt = max_retries)%Z ->
  all_fail func k st = Some (errs, st_k) ->
  exists last_exception',
    attempts str max_retries delay func (k + S todo) attempt last_exception st
    = after (retried delay (map str errs))
        (attempts str max_retries delay func (S todo)
           (attempt + Z.of_nat k)%Z last_exception' st_k).
Proof.
  induction k as [|k IH]; intros todo attempt last_exception st errs st_k Hinv Hfail.
  - simpl in Hfail. injection Hfail as <- <-. exists last_exception.
    rewrite Z.add_0_r. symmetry. apply after_nil.
  - simpl in Hfail.
    destruct (func st) as [[v|e] st1] eqn:Ef; [discriminate|].
    destruct (all_fail func k st1) as [[errs1 st2]|] eqn:Ek; [|discriminate].
    injection Hfail as <- <-.
    destruct (IH todo (attempt + 1)%Z (Some e) st1 errs1 st2 ltac:(lia) Ek) as (le & Hrun).
    exists le. change (S k + S todo)%nat with (S (k + S todo)).
    rewrite (attempts_retried _ _ _ _ _ e st1 Ef) by lia. rewrite Hrun.
    replace (attempt + 1 + Z.of_nat k)%Z with (attempt + Z.of_nat (S k))%Z by lia.
    destruct (attempts str max_retries delay func (S todo)
                (attempt + Z.of_nat (S k))%Z le st2) as [[r tr] st'].
    rewrite !after_eq. cbn [map retried flat_map]. rewrite <- app_assoc. reflexivity.
Qed.

(** X9. Retry until success: if the operation raises at its first [k]
    calls, [k] smaller than the number of attempts allowed, and returns at
    the next, the wrapper returns that value after exactly [k + 1] calls,
    having slept once after each failure: the time read from a rate-limit
    error, the base delay after any other. *)
Theorem retry_until_success (max_retries : Z) (k : nat) (st st_k st' : St)
    (errs : list E) (v : V) :
  all_fail func k st = Some (errs, st_k) ->
  (k < Z.to_nat max_retries)%nat ->
  func st_k = (Return v, st') ->
  retry_on_failure str max_retries delay func st
  = (Returned v, retried delay (map str errs) ++ [Call], st')
  /\ calls (retried delay (map str errs) ++ [Call]) = S k.
Proof.
  intros Hfail Hk Hret. unfold retry_on_failure. split.
  - replace (Z.to_nat max_retries) with (k + S (Z.to_nat max_retries - S k))%nat by lia.
    destruct (attempts_failures max_retries k (Z.to_nat max_retries - S k) 0%Z None
                st errs st_k ltac:(lia) Hfail) as (le & ->).
    rewrite (attempts_return str delay func _ _ _ _ st_k v st' Hret). reflexivity.
  - apply all_fail_length in Hfail. subst k. unfold calls, retried.
    induction errs as [|e errs IH]; [reflexivity|]. simpl. f_equal. apply IH.
    simpl in Hk. lia.
Qed.

(** The loop never calls [func] more often than it has rounds left, and
    never sleeps more often than it calls. *)
Lemma attempts_calls (max_retries : Z) (todo : nat) :
  forall attempt last_exception st,
    let '(_, tr, _) := attempts str max_retries delay func todo attempt last_exception st in
    (calls tr <= todo)%nat /\ (length (sleeps tr) <= calls tr)%nat.
Proof.
  induction todo as [|todo IH]; intros attempt last_exception st; cbn [attempts].
  - destruct last_exception; unfold calls, sleeps; simpl; lia.
  - destruct (func st) as [[v|e] st1]; [unfold calls, sleeps; simpl; lia|]. cbv zeta.
    assert (Hstep : forall secs,
              let '(_, tr, _) :=
                after [Call; Sleep secs]
                  (attempts str max_retries delay func todo (attempt + 1)%Z (Some e) st1) in
              (calls tr <= S todo)%nat /\ (length (sleeps tr) <= calls tr)%nat).
    { intros secs. specialize (IH (attempt + 1)%Z (Some e) st1).
      destruct (attempts str max_retries delay func todo _ (Some e) st1) as [[r tr] st2].
      rewrite after_eq. destruct IH as [H1 H2].
      split; apply le_n_S; [exact H1 | exact H2]. }
    destruct (is_rate_limit (str e)); [apply Hstep|].
    destruct (attempt <? max_retries - 1)%Z; [apply Hstep|].
    unfold calls, sleeps. simpl. lia.
Qed.

(** X10. The budget bounds the calls: whatever the operation does, a run
    of the wrapper calls it at most [max_retries] times (not at all when
    [max_retries] is zero or negative), and sleeps at most once per call. *)
Theorem calls_within_budget (max_retries : Z) (st : St) :
  let '(_, tr, _) := retry_on_failure str max_retries delay func st in
  (calls tr <= Z.to_nat max_retries)%nat /\ (length (sleeps tr) <= calls tr)%nat.
Proof. apply attempts_calls. Qed.

(** X11. Failures that are no rate limit fail fast: if each of the
    [max_retries] calls raises an error without a rate-limit signature, the
    wrapper sleeps the base delay after every failure but the last and raises
    the last error at once. *)
Theorem transient_failures_fail_fast (max_retries : Z) (st st_end : St)
    (errs : list E) (e : E) :
  all_fail func (Z.to_nat max_retries) st = Some (errs ++ [e], st_end) ->
  Forall (fun e' => is_rate_limit (str e') = false) (errs ++ [e]) ->
  retry_on_failure str max_retries delay func st
  = (Raised e, concat (replicate (length errs) [Call; Sleep delay]) ++ [Call], st_end).
Proof.
  intros Hfail Hnone. unfold retry_on_failure.
  pose proof (all_fail_length _ _ _ _ _ Hfail) as Hlen.
  rewrite length_app in Hlen. simpl in Hlen.
  assert (Hsplit : exists st_k,
            all_fail func (length errs) st = Some (errs, st_k)
            /\ func st_k = (Throw e, st_end)).
  { rewrite <- Hlen in Hfail. clear Hlen Hnone. revert st Hfail.
    induction errs as [|e1 errs IH]; intros st Hfail; simpl in Hfail.
    - destruct (func st) as [[v|e0] st1] eqn:Ef; [discriminate|].
      injection Hfail as -> ->. exists st. split; [reflexivity | exact Ef].
    - destruct (func st) as [[v|e0] st1] eqn:Ef; [discriminate|].
      destruct (all_fail func (length errs + 1) st1) as [[errs1 st2]|] eqn:Ek; [|discriminate].
      injection Hfail as -> -> ->.
      destruct (IH st1 Ek) as (st_k & Hk & Hlast).
      exists st_k. split; [|exact Hlast]. simpl. rewrite Ef, Hk. reflexivity. }
  destruct Hsplit as (st_k & Hk & Hlast).
  apply Forall_app in Hnone. destruct Hnone as [Herrs He].
  apply List.Forall_inv in He. cbv beta in He.
  replace (Z.to_nat max_retries) with (length errs + 1)%nat by exact Hlen.
  destruct (attempts_failures max_retries (length errs) 0 0%Z None st errs st_k
              ltac:(lia) Hk) as (le & ->).
  cbn [attempts]. rewrite Hlast. cbv zeta. rewrite He.
  replace (0 + Z.of_nat (length errs) <? max_retries - 1)%Z with false
    by (symmetry; apply Z.ltb_ge; lia).
  rewrite after_eq. f_equal. f_equal. f_equal.
  clear Hk Hfail Hlen. induction Herrs as [|e1 errs He1 _ IH]; [reflexivity|].
  cbn [map retried flat_map length replicate concat]. unfold pause at 1.
  rewrite He1. f_equal. f_equal. exact IH.
Qed.
End Single.

(** X12. An empty budget: with [max_retries] zero or negative neither
    wrapper calls the operation; the single-call wrapper returns [None] and
    the streaming wrapper ends without an item, no error being raised. *)
Theorem empty_budget_never_calls {E V A St : Type} (str : E -> pystr) (delay : Q)
    (max_retries : Z) (func : St -> outcome E V * St)
    (gen : St -> (list A * option E) * St) (st : St) :
  (max_retries <= 0)%Z ->
  retry_on_failure str max_retries delay func st = (ReturnedNone, [], st)
  /\ retry_on_failure_async_gen str max_retries delay gen st = (Finished, [], st).
Proof.
  intros H. unfold retry_on_failure, retry_on_failure_async_gen.
  rewrite Z2Nat.nonpos by exact H. split; reflexivity.
Qed.

Lemma retry_until_success_witness :
  retry_on_failure text_of 5 1 flaky 0%nat
  = (Returned 42%nat, [Call; Sleep 5; Call; Sleep 5; Call], 3%nat).
Proof.
  refine (proj1 (retry_until_success text_of 1 flaky 5 2 0%nat 2%nat 3%nat
                   [quota_error; quota_error] 42%nat _ _ _)).
  - reflexivity.
  - vm_compute. lia.
  - reflexivity.
Defined.

Lemma transient_failures_fail_fast_witness :
  retry_on_failure text_of 3 1 always_down 0%nat
  = (Raised (u "connection refused"),
     [Call; Sleep 1; Call; Sleep 1; Call], 3%nat).
Proof.
  refine (transient_failures_fail_fast text_of 1 always_down 3 0%nat 3%nat
            [u "connection refused"; u "connection refused"]
            (u "connection refused") _ _).
  - reflexivity.
  - repeat constructor.
Defined.

Lemma empty_budget_never_calls_witness :
  retry_on_failure text_of 0 1 flaky 0%nat = (ReturnedNone, [], 0%nat)
  /\ retry_on_failure_async_gen text_of 0 1 broken_stream 0%nat = (Finished, [], 0%nat).
Proof.
  apply (empty_budget_never_calls text_of 1 0 flaky broken_stream 0%nat).
  lia.
Defined.

Section Streaming.
Context {E A St : Type}.
Variable str : E -> pystr.
Variable delay : Q.
Variable func : St -> (list A * option E) * St.

Lemma gen_calls_yields (items : list A) (rest : list (gen_event A)) :
  gen_calls (map Yield items ++ rest) = gen_calls rest.
Proof. induction items as [|x items IH]; [reflexivity | exact IH]. Qed.

Lemma gen_calls_attempt (items : list A) :
  gen_calls (GenCall :: map Yield items) = 1%nat.
Proof.
  change (gen_calls (GenCall :: map Yield items)) with (S (gen_calls (map Yield items))).
  f_equal. induction items as [|x items IH]; [reflexivity | exact IH].
Qed.

Lemma gen_attempts_calls (max_retries : Z) (todo : nat) :
  forall attempt last_exception st,
    let '(_, tr, _) := gen_attempts str max_retries delay func todo attempt last_exception st in
    (gen_calls tr <= todo)%nat.
Proof.
  induction todo as [|todo IH]; intros attempt last_exception st; cbn [gen_attempts].
  - destruct last_exception; apply Nat.le_refl.
  - destruct (func st) as [[items [e|]] st1].
    + cbv zeta.
      assert (Hstep : forall secs,
                let '(_, tr, _) :=
                  after (GenCall :: map Yield items ++ [GenSleep secs])
                    (gen_attempts str max_retries delay func todo (attempt + 1)%Z (Some e) st1) in
                (gen_calls tr <= S todo)%nat).
      { intros secs. specialize (IH (attempt + 1)%Z (Some e) st1).
        destruct (gen_attempts str max_retries delay func todo _ (Some e) st1)
          as [[r tr] st2].
        rewrite after_eq.
        change ((GenCall :: map Yield items ++ [GenSleep secs]) ++ tr)
          with (GenCall :: (map Yield items ++ [GenSleep secs]) ++ tr).
        rewrite <- app_assoc.
        change (gen_calls (GenCall :: map Yield items ++ [GenSleep secs] ++ tr))
          with (S (gen_calls (map Yield items ++ GenSleep secs :: tr))).
        rewrite gen_calls_yields. apply le_n_S. exact IH. }
      destruct (is_rate_limit (str e)); [apply Hstep|].
      destruct (attempt <? max_retries - 1)%Z; [apply Hstep|].
      rewrite gen_calls_attempt. apply le_n_S, Nat.le_0_l.
    + rewrite gen_calls_attempt. apply le_n_S, Nat.le_0_l.
Qed.

(** X13. The streaming wrapper too stays within its budget: whatever the
    generators do, it makes at most [max_retries] of them. *)
Theorem generators_within_budget (max_retries : Z) (st : St) :
  let '(_, tr, _) := retry_on_failure_async_gen str max_retries delay func st in
  (gen_calls tr <= Z.to_nat max_retries)%nat.
Proof. apply gen_attempts_calls. Qed.
End Streaming.

(** *** Reading the suggested delay *)

(** X14. The delay is read from the first clause: in a text that holds
    "retry_delay { seconds: " followed by a run of decimal digits, with no
    "retry_delay" before it, [retry_secs] is the number those digits write,
    whatever comes before the clause and after the digits. *)
Theorem retry_secs_reads_first_clause (before ds rest : pystr) :
  contains (u "retry_delay") (before ++ u "retry_dela") = false ->
  ds <> [] ->
  forallb is_digit ds = true ->
  starts_with_digit rest = false ->
  exists n,
    (0 <= n)%Z
    /\ digits_value 0 ds = Some n
    /\ retry_secs (before ++ u "retry_delay { seconds: " ++ ds ++ rest) = Some n.
Proof.
  intros H Hne Hds Hrest. destruct ds as [|d ds]; [contradiction|].
  destruct (digits_value_digits (d :: ds) 0%Z ltac:(lia) Hds) as (n & Hn & Hv).
  exists n. split; [exact Hn|]. split; [exact Hv|].
  unfold retry_secs, search. rewrite compile_retry_re. cbn [mbind option_bind].
  rewrite (search_from_number_clause _ before d ds rest H Hds Hrest).
  exact Hv.
Qed.

Lemma retry_secs_reads_first_clause_witness :
  exists n,
    (0 <= n)%Z
    /\ digits_value 0 (u "5٥") = Some n
    /\ retry_secs (u "429 quota exceeded, " ++ u "retry_delay { seconds: "
                     ++ u "5٥" ++ u " } please wait")
       = Some n.
Proof.
  apply (retry_secs_reads_first_clause (u "429 quota exceeded, ") (u "5٥")
           (u " } please wait")).
  - vm_compute. reflexivity.
  - vm_compute. discriminate.
  - vm_compute. reflexivity.
  - vm_compute. reflexivity.
Defined.

(** X15. The wrapper never sleeps a suggested time of zero or less: the
    time it waits after a rate-limit error is the base delay, or a positive
    whole number of seconds read from the text; a suggestion of 0 seconds is
    replaced by the base delay. *)
Theorem wait_time_is_delay_or_positive (delay : Q) (error_text : pystr) :
  (wait_time delay error_text = delay
   \/ exists n, (0 < n)%Z /\ retry_secs error_text = Some n
                /\ wait_time delay error_text = inject_Z n)
  /\ (retry_secs error_text = Some 0%Z -> wait_time delay error_text = delay).
Proof.
  unfold wait_time. split.
  - destruct (retry_secs error_text) as [n|] eqn:En; [|left; reflexivity].
    destruct (n =? 0)%Z eqn:Hz; [left; reflexivity|].
    right. exists n. split; [|split; reflexivity].
    apply Z.eqb_neq in Hz.
    assert (0 <= n)%Z; [|lia].
    unfold retry_secs in En.
    destruct (search _ error_text) as [m|]; [|discriminate]. cbn [mbind option_bind] in En.
    destruct (mjoin (m !! 0%nat)) as [g|]; [|discriminate]. cbn [mbind option_bind] in En.
    exact (digits_value_nonneg g 0%Z n ltac:(lia) En).
  - intros ->. reflexivity.
Qed.

End RetryMore.

(** * Properties of the chat history *)

Module ChatHistoryProps.
Import ChatHistory.

Lemma slice_from_last {X} (k : nat) (l : list X) :
  (0 < k <= length l)%nat -> slice_from (- Z.of_nat k) l = drop (length l - k) l.
Proof.
  intros H. unfold slice_from. cbv zeta.
  replace (- Z.of_nat k <? 0)%Z with true by (symmetry; apply Z.ltb_lt; lia).
  f_equal. lia.
Qed.

(** X17. The history never holds more than 1000 entries: adding to a
    history of fewer than 1000 appends the entry, adding to one of 1000 leaves
    the 499 newest and the entry added, 500 in all; the entry added is always
    the last. *)
Theorem history_stays_bounded (show_timestamps : bool) (now : pystr)
    (history : list entry) (content entry_type : pystr) :
  (length history <= 1000)%nat ->
  let added := Entry (if show_timestamps then now else []) entry_type content in
  let history' := add_to_history show_timestamps now history content entry_type in
  (length history' <= 1000)%nat
  /\ last history' = Some added
  /\ ((length history < 1000)%nat -> history' = history ++ [added])
  /\ (length history = 1000%nat ->
        history' = drop 501 history ++ [added] /\ length history' = 500%nat).
Proof.
  intros Hlen added history'. subst history'. unfold add_to_history. cbv zeta.
  fold added.
  destruct (1000 <? length (history ++ [added]))%nat eqn:E.
  - apply Nat.ltb_lt in E. rewrite length_app in E. simpl in E.
    assert (Hfull : length history = 1000%nat) by lia.
    change (-500)%Z with (- Z.of_nat 500)%Z.
    rewrite slice_from_last by (rewrite length_app; simpl; lia).
    rewrite length_app. simpl length. rewrite Hfull.
    change (1000 + 1 - 500)%nat with 501%nat.
    rewrite drop_app_le by lia.
    repeat split.
    + rewrite length_app, length_drop. simpl. lia.
    + apply last_snoc.
    + lia.
    + rewrite length_app, length_drop. simpl. lia.
  - apply Nat.ltb_ge in E. rewrite length_app in E. simpl in E.
    repeat split.
    + rewrite length_app. simpl. lia.
    + apply last_snoc.
    + lia.
    + lia.
Qed.

Lemma history_stays_bounded_witness :
  (length (add_to_history true (u "12:00:00") [] (u "привет") (u "user")) <= 1000)%nat
  /\ add_to_history true (u "12:00:00") [] (u "привет") (u "user")
     = [Entry (u "12:00:00") (u "user") (u "привет")].
Proof.
  destruct (history_stays_bounded true (u "12:00:00") [] (u "привет") (u "user"))
    as (H1 & _ & H3 & _).
  - simpl. lia.
  - split; [exact H1|]. apply H3. simpl. lia.
Defined.

(** X18. What [display_history] shows of a history: with a positive limit
    the newest [limit] entries, all of them when there are no more than that,
    in their order; with the limit 0 the whole history, not nothing. *)
Theorem recent_history_limit (history : list entry) (limit : Z) :
  ((0 < limit)%Z ->
     recent_history history limit = drop (length history - Z.to_nat limit) history
     /\ length (recent_history history limit)
        = Nat.min (Z.to_nat limit) (length history))
  /\ recent_history history 0 = history.
Proof.
  unfold recent_history. split.
  - intros Hpos. destruct (limit <? Z.of_nat (length history))%Z eqn:E.
    + apply Z.ltb_lt in E.
      replace (- limit)%Z with (- Z.of_nat (Z.to_nat limit))%Z by lia.
      rewrite slice_from_last by lia. split; [reflexivity|].
      rewrite length_drop. lia.
    + apply Z.ltb_ge in E.
      replace (length history - Z.to_nat limit)%nat with 0%nat by lia.
      split; [reflexivity | lia].
  - destruct (0 <? Z.of_nat (length history))%Z; [|reflexivity].
    unfold slice_from. cbv zeta. change (- 0 <? 0)%Z with false. cbv iota.
    replace (Z.to_nat (Z.min (- 0) (Z.of_nat (length history)))) with 0%nat by lia.
    reflexivity.
Qed.

Lemma recent_history_limit_witness :
  recent_history [Entry [] (u "user") (u "a"); Entry [] (u "agent") (u "b");
                  Entry [] (u "user") (u "c")] 2
  = [Entry [] (u "agent") (u "b"); Entry [] (u "user") (u "c")].
Proof.
  refine (proj1 (proj1 (recent_history_limit
            [Entry [] (u "user") (u "a"); Entry [] (u "agent") (u "b");
             Entry [] (u "user") (u "c")] 2) _)).
  lia.
Defined.

Lemma table_rows_length (i : N) (entries : list entry) :
  length (table_rows i entries) = length entries.
Proof.
  revert i. induction entries as [|e rest IH]; intros i; [reflexivity|].
  simpl. f_equal. apply IH.
Qed.

Lemma shown_content_length (content : pystr) : (length (shown_content content) <= 80)%nat.
Proof.
  unfold shown_content. destruct (80 <? length content)%nat eqn:E.
  - apply Nat.ltb_lt in E. rewrite length_app, length_take.
    change (length (u "...")) with 3%nat. lia.
  - apply Nat.ltb_ge in E. exact E.
Qed.

Lemma table_rows_content (i : N) (entries : list entry) :
  Forall (fun r => (length (row_content r) <= 80)%nat) (table_rows i entries).
Proof.
  revert i. induction entries as [|e rest IH]; intros i; simpl; constructor.
  - apply shown_content_length.
  - apply IH.
Qed.

(** X19. The table of a non-empty history has one row for each entry
    shown, and no content cell is longer than 80 characters: a content of at
    most 80 is shown whole, a longer one as its first 77 characters and three
    dots. *)
Theorem history_table_cells (history : list entry) (limit : Z) :
  history <> [] ->
  exists rows,
    display_history history limit = HistoryTable rows
    /\ length rows = length (recent_history history limit)
    /\ Forall (fun r => (length (row_content r) <= 80)%nat) rows
    /\ (forall content, (length content <= 80)%nat -> shown_content content = content)
    /\ (forall content, (80 < length content)%nat ->
          shown_content content = take 77 content ++ u "..."
          /\ length (shown_content content) = 80%nat).
Proof.
  intros Hne. exists (table_rows 1 (recent_history history limit)).
  split; [destruct history; [contradiction | reflexivity]|].
  split; [apply table_rows_length|]. split; [apply table_rows_content|].
  unfold shown_content. split.
  - intros content H. apply Nat.ltb_ge in H. rewrite H. reflexivity.
  - intros content H. pose proof H as H'. apply Nat.ltb_lt in H'. rewrite H'.
    split; [reflexivity|]. rewrite length_app, length_take.
    change (length (u "...")) with 3%nat. lia.
Qed.

Lemma history_table_cells_witness :
  exists rows,
    display_history [Entry [] (u "user") (u "a")] 10 = HistoryTable rows
    /\ length rows = 1%nat.
Proof.
  destruct (history_table_cells [Entry [] (u "user") (u "a")] 10) as (rows & H1 & H2 & _).
  - discriminate.
  - exists rows. split; [exact H1 | exact H2].
Defined.

End ChatHistoryProps.

(** * Properties of the file icons *)

Module FileIconsProps.
Import FileIcons PyStrNotions.

Lemma contains_dot (s : pystr) : contains (u ".") s = true <-> In 46 s.
Proof.
  change (u ".") with [46]. induction s as [|c s IH].
  - split; [discriminate | contradiction].
  - cbn [contains startswith In]. rewrite andb_true_r, orb_true_iff, IH.
    destruct (N.eqb_spec 46 c) as [E|E]; split; intros [H|H]; auto;
      try discriminate; try contradiction.
Qed.

Lemma split_on_nonempty (sep : char) (s : pystr) :
  forall cur, split_on sep cur s <> [].
Proof.
  induction s as [|c s IH]; intros cur; simpl; [discriminate|].
  destruct (c =? sep); [discriminate | apply IH].
Qed.

(** Without the separator there is one piece. *)
Lemma split_on_whole (sep : char) (s : pystr) :
  forall cur, ~ In sep s -> split_on sep cur s = [rev cur ++ s].
Proof.
  induction s as [|c s IH]; intros cur H; simpl.
  - rewrite app_nil_r. reflexivity.
  - destruct (N.eqb_spec c sep) as [->|Hne]; [exfalso; apply H; left; reflexivity|].
    rewrite IH by (intros Hin; apply H; right; exact Hin).
    simpl. rewrite <- app_assoc. reflexivity.
Qed.

(** The last piece is what follows the last separator. *)
Lemma split_on_last (sep : char) (a b : pystr) :
  forall cur, last (split_on sep cur (a ++ sep :: b)) = last (split_on sep [] b).
Proof.
  induction a as [|c a IH]; intros cur; simpl.
  - rewrite N.eqb_refl.
    destruct (split_on sep [] b) eqn:E; [exfalso; exact (split_on_nonempty _ _ _ E)|].
    reflexivity.
  - destruct (c =? sep); [|apply IH].
    destruct (split_on sep [] (a ++ sep :: b)) eqn:E;
      [exfalso; exact (split_on_nonempty _ _ _ E)|].
    rewrite <- E. change (last (rev cur :: split_on sep [] (a ++ sep :: b)))
      with (last (rev cur :: split_on sep [] (a ++ sep :: b))).
    rewrite E. cbn [last]. rewrite <- E. apply IH.
Qed.

(** What [lower] gives for the end of a string, whatever comes before. *)
Lemma lower_from_app (s t : pystr) :
  forall b, exists l b', lower_from b (s ++ t) = l ++ lower_from b' t.
Proof.
  induction s as [|c s IH]; intros b.
  - exists [], b. reflexivity.
  - rewrite <- app_comm_cons, PyStrProps.lower_from_cons.
    destruct (IH (if is_case_ignorable c then b else is_cased c)) as (l & b' & ->).
    eexists. exists b'. rewrite app_assoc. reflexivity.
Qed.

Lemma lower_from_no_dot (s : pystr) : ~ In 46 s -> forall b, ~ In 46 (lower_from b s).
Proof.
  induction s as [|c s IH]; intros H b; [intros []|].
  rewrite PyStrProps.lower_from_cons. intros Hin. apply in_app_or in Hin as [Hin|Hin].
  - destruct (N.eqb_spec c 931) as [_|_].
    + destruct (b && negb (cased_follows s)); destruct Hin as [Hin|[]]; discriminate Hin.
    + apply PyStrProps.to_lower_full_dot in Hin. apply H. left. exact Hin.
  - revert Hin. apply IH. intros Hin. apply H. right. exact Hin.
Qed.

(** Without a capital sigma [lower] goes character by character. *)
Lemma lower_from_no_sigma (s : pystr) :
  ~ In 931 s -> forall b b', lower_from b s = lower_from b' s.
Proof.
  induction s as [|c s IH]; intros H b b'; [reflexivity|].
  rewrite !PyStrProps.lower_from_cons.
  destruct (N.eqb_spec c 931) as [->|_]; [exfalso; apply H; left; reflexivity|].
  f_equal. apply IH. intros Hin. apply H. right. exact Hin.
Qed.

(** A capital sigma leaves a small one, final or not. *)
Lemma lower_from_sigma (s : pystr) :
  In 931 s -> forall b, exists d, In d (lower_from b s) /\ 128 <= d.
Proof.
  induction s as [|c s IH]; intros H b; [destruct H|].
  rewrite PyStrProps.lower_from_cons. destruct (N.eqb_spec c 931) as [_|Hc].
  - eexists. split; [apply in_or_app; left; left; reflexivity|].
    destruct (b && negb (cased_follows s)); lia.
  - destruct H as [H|H]; [congruence|].
    destruct (IH H (if is_case_ignorable c then b else is_cased c)) as (d & Hin & Hd).
    exists d. split; [apply in_or_app; right; exact Hin | exact Hd].
Qed.

(** A key with a character outside ASCII is in neither table. *)
Lemma table_get_default (table : list (string * string)) (key dflt : pystr) (d : char) :
  ascii_keys table = true -> In d key -> 128 <= d -> table_get table key dflt = dflt.
Proof.
  intros Ht Hin Hd. induction table as [|[k v] rest IH]; [reflexivity|].
  cbn [ascii_keys forallb fst] in Ht. apply andb_true_iff in Ht as [Hk Ht].
  cbn [table_get]. destruct (PyStr.eqb (u k) key) eqn:E; [|exact (IH Ht)].
  apply AnalyzerProps.eqb_eq in E. subst key. rewrite forallb_forall in Hk.
  specialize (Hk d Hin). apply N.ltb_lt in Hk. lia.
Qed.

(** The table gives the same for an extension lowered in the name as for
    the extension lowered by itself. *)
Lemma table_get_lowered (table : list (string * string)) (ext dflt : pystr) (b : bool) :
  ascii_keys table = true ->
  table_get table (lower_from b ext) dflt = table_get table (lower ext) dflt.
Proof.
  intros Ht. destruct (in_dec N.eq_dec 931 ext) as [Hin|Hno].
  - destruct (lower_from_sigma ext Hin b) as (d & Hd & Hd128).
    destruct (lower_from_sigma ext Hin false) as (d' & Hd' & Hd'128).
    unfold lower.
    rewrite (table_get_default table _ dflt d Ht Hd Hd128).
    rewrite (table_get_default table _ dflt d' Ht Hd' Hd'128). reflexivity.
  - unfold lower. rewrite (lower_from_no_sigma ext Hno b false). reflexivity.
Qed.

(** The extension of a name with a dot: what follows the last dot, lowered
    where it stands. *)
Lemma extension_lowered (stem ext : pystr) :
  ~ In 46 ext -> exists b, extension (stem ++ u "." ++ ext) = lower_from b ext.
Proof.
  intros Hnot. unfold extension.
  replace (contains (u ".") (stem ++ u "." ++ ext)) with true
    by (symmetry; apply contains_dot, in_or_app; right; left; reflexivity).
  change (u "." ++ ext) with (46 :: ext). unfold lower.
  destruct (lower_from_app stem (46 :: ext) false) as (l & b & ->).
  rewrite PyStrProps.lower_from_cons.
  change (46 =? 931) with false. cbv iota.
  replace (to_lower_full 46) with [46] by (vm_compute; reflexivity).
  eexists. cbn [app].
  rewrite split_on_last, split_on_whole by (apply lower_from_no_dot, Hnot).
  reflexivity.
Qed.

(** In a name a capital sigma at the end of the extension becomes a final
    sigma, which it does not in the extension by itself. *)
Lemma final_sigma_in_extension :
  extension (u "a.Σ") = u "ς" /\ lower (u "Σ") = u "σ".
Proof. split; vm_compute; reflexivity. Qed.

(** X20. The icon of a file depends on what follows its last dot only,
    whatever the case: for an extension without a dot, the emoji and the
    colour of [stem.ext] are those the tables give for [ext] lowered, the
    defaults when they give none; a name without a dot gets the defaults.
    The extension looked up is [ext] lowered, when [ext] holds no capital
    sigma (which is lowered by what stands before it). *)
Theorem icon_by_extension (stem ext : pystr) :
  contains (u ".") ext = false ->
  (~ In 931 ext -> extension (stem ++ u "." ++ ext) = lower ext)
  /\ get_file_emoji (stem ++ u "." ++ ext) = table_get emoji_map (lower ext) (u "📄")
  /\ get_file_color (stem ++ u "." ++ ext) = table_get color_map (lower ext) (u "white")
  /\ get_file_emoji ext = u "📄"
  /\ get_file_color ext = u "white".
Proof.
  intros Hno.
  assert (Hnot : ~ In 46 ext).
  { intros Hin. apply contains_dot in Hin. congruence. }
  destruct (extension_lowered stem ext Hnot) as [b Hext].
  assert (Hnone : extension ext = []).
  { unfold extension. rewrite Hno. reflexivity. }
  unfold get_file_emoji, get_file_color. rewrite Hext, Hnone.
  split; [|split; [|split; [|split]]].
  - intros Hsigma. apply lower_from_no_sigma, Hsigma.
  - apply table_get_lowered. vm_compute. reflexivity.
  - apply table_get_lowered. vm_compute. reflexivity.
  - reflexivity.
  - reflexivity.
Qed.

Lemma icon_by_extension_witness :
  get_file_emoji (u "Report.final" ++ u "." ++ u "XLSX") = u "📊"
  /\ get_file_color (u "Report.final" ++ u "." ++ u "XLSX") = u "white".
Proof.
  destruct (icon_by_extension (u "Report.final") (u "XLSX")) as (_ & H1 & H2 & _).
  - vm_compute. reflexivity.
  - rewrite H1, H2. split; vm_compute; reflexivity.
Defined.

End FileIconsProps.

(** * Properties of the message loop *)

Module AgentProps.
Import IntentAnalyzer Retry Agent.

Section ProcessMessage.
Context {X C St : Type}.
Variable str : exc X -> pystr.
Variable create_enhanced_context : pystr -> pyval -> pyval -> St -> outcome (exc X) pystr * St.
Variable astream : pystr -> pystr -> St -> (list C * option (exc X)) * St.

(** Every exception of the body is caught in it. *)
Lemma body_catches_everything ready cm user_input thread_id st :
  snd (fst (process_message_body str create_enhanced_context astream
              ready cm user_input thread_id st)) = None.
Proof.
  unfold process_message_body.
  destruct ready; [|reflexivity]. cbn [negb].
  destruct (analyze_intent cm user_input) as [[intent params]|e]; [|reflexivity].
  destruct (refuses intent params) as [[|]|e]; try reflexivity.
  destruct (create_enhanced_context user_input intent params st) as [[enhanced|e] st'];
    [|reflexivity].
  destruct (astream enhanced thread_id st') as [[chunks [e|]] st'']; reflexivity.
Qed.

(** X21. The retry decorator never applies to [process_message]: the body
    catches every exception it meets, a rate limit of the API included, so
    the decorated generator runs the body once, never sleeps, hands over
    the chunks of that one run and ends without an exception. *)
Theorem retry_never_applies_to_process_message (ready : bool) (cm : context)
    (user_input thread_id : pystr) (st : St) :
  exists chunks st',
    process_message_body str create_enhanced_context astream
      ready cm user_input thread_id st
    = ((chunks, None), st')
    /\ process_message str create_enhanced_context astream
         ready cm user_input thread_id st
       = (Finished, GenCall :: map Yield chunks, st').
Proof.
  pose proof (body_catches_everything ready cm user_input thread_id st) as H.
  destruct (process_message_body str create_enhanced_context astream
              ready cm user_input thread_id st) as [[chunks r] st'] eqn:Hb.
  cbn in H. subst r. exists chunks, st'. split; [reflexivity|].
  unfold process_message, retry_on_failure_async_gen.
  change (Z.to_nat 2) with 2%nat. cbn [gen_attempts]. rewrite Hb. reflexivity.
Qed.

(** X22. What a consumer of [process_message] receives is chunks of the
    agent's stream followed by at most one error chunk: an error chunk is
    always the last item, and there is never a second one. *)
Theorem error_chunk_ends_the_stream (ready : bool) (cm : context)
    (user_input thread_id : pystr) (st : St) :
  exists (cs : list C) (tail : list (chunk C)),
    yielded (snd (fst (process_message str create_enhanced_context astream
                         ready cm user_input thread_id st)))
    = map AgentChunk cs ++ tail
    /\ (tail = [] \/ exists message, tail = [ErrorChunk message]).
Proof.
  unfold process_message, retry_on_failure_async_gen.
  change (Z.to_nat 2) with 2%nat. cbn [gen_attempts].
  unfold process_message_body.
  destruct ready; cbn [negb].
  2:{ exists [], [ErrorChunk (u "Агент не готов. Попробуйте переинициализировать.")].
      split; [reflexivity | right; eauto]. }
  destruct (analyze_intent cm user_input) as [[intent params]|e].
  2:{ exists [], [on_exception str (Builtin e)]. split; [reflexivity | right; cbn [on_exception]; eauto]. }
  destruct (refuses intent params) as [[|]|e].
  - eexists [], [ErrorChunk _]. split; [reflexivity | right; eauto].
  - destruct (create_enhanced_context user_input intent params st) as [[enhanced|e] st'].
    + destruct (astream enhanced thread_id st') as [[chunks [e|]] st''].
      * exists chunks, [on_exception str e]. split.
        -- cbn [fst snd]. change (yielded (GenCall :: ?l)) with (yielded l).
           apply RetryProps.yielded_items.
        -- right. destruct e; cbn [on_exception]; eauto.
      * exists chunks, []. split; [|left; reflexivity].
        cbn [fst snd]. change (yielded (GenCall :: ?l)) with (yielded l).
        rewrite app_nil_r. apply RetryProps.yielded_items.
    + exists [], [on_exception str e]. split; [reflexivity|].
      right. destruct e; cbn [on_exception]; eauto.
  - exists [], [on_exception str (Builtin e)]. split; [reflexivity | right; cbn [on_exception]; eauto].
Qed.

End ProcessMessage.
End AgentProps.

(** * Properties of the system prompt *)

Module PromptManagerProps.
Import PromptManager PromptNotions.

(** Characters still to be passed are passed. *)
Lemma replace_from_skip (old new p s : pystr) :
  replace_from old new (length p) (p ++ s) = replace_from old new 0 s.
Proof.
  induction p as [|c p IH]; [reflexivity|].
  destruct s as [|d s]; simpl; exact IH.
Qed.

Lemma startswith_self (p s : pystr) : startswith p (p ++ s) = true.
Proof.
  induction p as [|c p IH]; [reflexivity|].
  simpl. rewrite N.eqb_refl. exact IH.
Qed.

(** An occurrence at the head is replaced, and the search goes on behind
    it. *)
Lemma replace_occurrence (c : char) (old' new s : pystr) :
  replace (c :: old') new ((c :: old') ++ s) = new ++ replace (c :: old') new s.
Proof.
  unfold replace. rewrite <- app_comm_cons. cbn [replace_from].
  change (c :: old' ++ s) with ((c :: old') ++ s). rewrite startswith_self.
  replace (length (c :: old') - 1)%nat with (length old') by (simpl; lia).
  rewrite replace_from_skip. reflexivity.
Qed.

(** A text without the first character of [old] is passed unchanged. *)
Lemma replace_plain (old' new t s : pystr) :
  plain t = true ->
  replace (123 :: old') new (t ++ s) = t ++ replace (123 :: old') new s.
Proof.
  intros H. induction t as [|c t IH]; [reflexivity|].
  cbn [plain forallb] in H. apply andb_true_iff in H as [Hc Ht].
  unfold replace in *. rewrite <- !app_comm_cons. cbn [replace_from startswith].
  apply negb_true_iff in Hc. rewrite N.eqb_sym in Hc. rewrite Hc. cbn [andb].
  f_equal. exact (IH Ht).
Qed.

Lemma replace_plain_all (old' new t : pystr) :
  plain t = true -> replace (123 :: old') new t = t.
Proof.
  intros H. rewrite <- (app_nil_r t) at 1. rewrite replace_plain by exact H.
  unfold replace. cbn. apply app_nil_r.
Qed.

(** Where [old] does not start, the character is kept. *)
Lemma replace_mismatch (old new : pystr) (c : char) (r : pystr) :
  startswith old (c :: r) = false ->
  replace old new (c :: r) = c :: replace old new r.
Proof. intros H. unfold replace. cbn [replace_from]. rewrite H. reflexivity. Qed.

(** The other placeholder is passed unchanged. *)
Lemma replace_path_over_tools (new s : pystr) :
  replace (u "{filesystem_path}") new (u "{tools_description}" ++ s)
  = u "{tools_description}" ++ replace (u "{filesystem_path}") new s.
Proof.
  change (u "{tools_description}") with (123 :: u "tools_description}").
  rewrite <- !app_comm_cons. rewrite replace_mismatch by reflexivity.
  change (u "{filesystem_path}") with (123 :: u "filesystem_path}").
  rewrite (replace_plain _ new (u "tools_description}") s) by reflexivity.
  reflexivity.
Qed.

Lemma replace_path (filesystem_path : pystr) (pieces : list piece) :
  forallb plain_piece pieces = true ->
  replace (u "{filesystem_path}") filesystem_path (template_of pieces)
  = template_of (map (path_filled filesystem_path) pieces).
Proof.
  intros H. induction pieces as [|p pieces IH]; [reflexivity|].
  cbn [forallb] in H. apply andb_true_iff in H as [Hp H]. specialize (IH H).
  unfold template_of in *. cbn [map concat].
  destruct p as [t| |]; cbn [path_filled written].
  - change (u "{filesystem_path}") with (123 :: u "filesystem_path}") in *.
    rewrite replace_plain by exact Hp. f_equal. exact IH.
  - change (u "{filesystem_path}") with (123 :: u "filesystem_path}") in *.
    rewrite replace_occurrence. f_equal. exact IH.
  - rewrite replace_path_over_tools. f_equal. exact IH.
Qed.

Lemma replace_tools (filesystem_path tools_description : pystr) (pieces : list piece) :
  forallb plain_piece pieces = true ->
  plain filesystem_path = true ->
  replace (u "{tools_description}") tools_description
    (template_of (map (path_filled filesystem_path) pieces))
  = prompt_of filesystem_path tools_description pieces.
Proof.
  intros H Hpath. induction pieces as [|p pieces IH]; [reflexivity|].
  cbn [forallb] in H. apply andb_true_iff in H as [Hp H]. specialize (IH H).
  unfold template_of, prompt_of in *. cbn [map concat].
  change (u "{tools_description}") with (123 :: u "tools_description}") in *.
  destruct p as [t| |]; cbn [path_filled written filled].
  - rewrite replace_plain by exact Hp. f_equal. exact IH.
  - rewrite replace_plain by exact Hpath. f_equal. exact IH.
  - change (u "{tools_description}") with (123 :: u "tools_description}").
    rewrite replace_occurrence. f_equal. exact IH.
Qed.

(** X23. A template in which an opening brace occurs only in the two
    placeholders, with a working directory that holds no opening brace, is
    filled as wanted: every "{filesystem_path}" becomes the working
    directory and every "{tools_description}" the description of the tools,
    the other text is kept, and the description is put in as it is,
    whatever it holds. *)
Theorem placeholders_are_filled (pieces : list piece) (filesystem_path : pystr)
    (tool_analyzer : option pystr) :
  forallb plain_piece pieces = true ->
  plain filesystem_path = true ->
  load_prompt_from_file (Some (template_of pieces)) filesystem_path tool_analyzer
  = prompt_of filesystem_path (generate_tools_description tool_analyzer) pieces.
Proof.
  intros H Hpath. unfold load_prompt_from_file.
  rewrite replace_path by exact H. apply replace_tools; assumption.
Qed.

Lemma placeholders_are_filled_witness :
  load_prompt_from_file
    (Some (template_of [Text (u "cwd: "); WorkingDirectory; Text (u "; tools: "); ToolsList]))
    (u "/srv/data") (Some (u "{filesystem_path}"))
  = prompt_of (u "/srv/data") (generate_tools_description (Some (u "{filesystem_path}")))
      [Text (u "cwd: "); WorkingDirectory; Text (u "; tools: "); ToolsList].
Proof.
  apply (placeholders_are_filled
           [Text (u "cwd: "); WorkingDirectory; Text (u "; tools: "); ToolsList]
           (u "/srv/data") (Some (u "{filesystem_path}")));
    reflexivity.
Defined.

(** X24. The substitutions are made one after the other, so the working
    directory is itself scanned for the second placeholder: a
    "{tools_description}" inside the working directory is replaced by the
    description of the tools. *)
Theorem working_directory_is_scanned_for_tools (before after left right : pystr)
    (tool_analyzer : option pystr) :
  plain before = true -> plain after = true ->
  plain left = true -> plain right = true ->
  load_prompt_from_file
    (Some (before ++ u "{filesystem_path}" ++ after))
    (left ++ u "{tools_description}" ++ right) tool_analyzer
  = before ++ left ++ generate_tools_description tool_analyzer ++ right ++ after.
Proof.
  intros Hb Ha Hl Hr. unfold load_prompt_from_file.
  change (u "{filesystem_path}") with (123 :: u "filesystem_path}").
  rewrite replace_plain by exact Hb.
  rewrite replace_occurrence.
  rewrite (replace_plain_all _ _ after Ha).
  change (u "{tools_description}") with (123 :: u "tools_description}").
  rewrite replace_plain by exact Hb.
  rewrite <- !app_assoc.
  rewrite replace_plain by exact Hl.
  rewrite replace_occurrence.
  rewrite replace_plain by exact Hr.
  rewrite (replace_plain_all _ _ after Ha). reflexivity.
Qed.

Lemma working_directory_is_scanned_for_tools_witness :
  load_prompt_from_file (Some (u "cwd: {filesystem_path}.")) (u "/srv/{tools_description}/x")
    (Some (u "ls, rm"))
  = u "cwd: /srv/ls, rm/x.".
Proof.
  refine (working_directory_is_scanned_for_tools
            (u "cwd: ") (u ".") (u "/srv/") (u "/x") (Some (u "ls, rm")) _ _ _ _);
    reflexivity.
Defined.

End PromptManagerProps.
